(** * The winit X11 integration-test module: virtual input devices, the
      virtual two-output display adapter and the socket dispatcher.

    Shallow embedding of [it/x11-module/src/{input,video,main}.c].

    - [uint32_t], [int32_t] and [uint8_t] values are integers of [Z] with
      the wrap-around written out ([wrap_u32], [wrap_i32], [wrap_u8]).
    - A failing [assert] and a dereference of a NULL pointer end the
      process; they are the two non-[Ok] results of [outcome].
    - The module's statics ([devices], [current_type], [next_input_id],
      [TOUCH_ID], [driver]) are fields of explicit state records which the
      functions thread through the monad [M].
    - What the X server decides (identifiers, return values of its
      initialisers, results of [read] and [write]) is passed in as data;
      what the module hands to the X server is appended to a log. *)

From Stdlib Require Import ZArith Lia List Permutation.
From stdpp Require Import base numbers option list strings.

Local Open Scope Z_scope.

(** ** Machine integers *)

Definition wrap_u32 (z : Z) : Z := z mod 2 ^ 32.
Definition wrap_u8 (z : Z) : Z := z mod 2 ^ 8.
Definition wrap_i32 (z : Z) : Z := (z + 2 ^ 31) mod 2 ^ 32 - 2 ^ 31.

Definition is_u32 (z : Z) : Prop := 0 <= z < 2 ^ 32.
Definition is_i32 (z : Z) : Prop := - 2 ^ 31 <= z < 2 ^ 31.

(** ** Results of a call *)

(** The [assert]s of the three files, named after what they check. *)
Inductive assertion : Type :=
  | AssertRead                  (* main.c:102 *)
  | AssertWrite                 (* main.c:110,119,128,157,165,174 *)
  | AssertMessageType           (* main.c:187 *)
  | AssertDevice                (* input.c:191 *)
  | AssertTypeKeyboard          (* input.c:197 *)
  | AssertTypeMouse             (* input.c:203 *)
  | AssertTypeTouch             (* input.c:209 *)
  | AssertInvalidType           (* input.c:114 *)
  | AssertNewInputDevice        (* input.c:161 *)
  | AssertInitKeyboard          (* input.c:80 *)
  | AssertInitPointer           (* input.c:50 *)
  | AssertMaskNew               (* input.c:52 *)
  | AssertInitTouchClass        (* input.c:59 *)
  | AssertAccelerationScheme    (* input.c:60,69 *).

Inductive outcome (A : Type) : Type :=
  | Ok (a : A)
  | AssertFail (a : assertion)
  | NullDeref.
Arguments Ok {A} a.
Arguments AssertFail {A} a.
Arguments NullDeref {A}.

Definition is_ok {A} (r : outcome A) : Prop :=
  match r with Ok _ => True | _ => False end.

(** The process is gone: an assertion failed or NULL was dereferenced. *)
Definition is_fatal {A} (r : outcome A) : Prop :=
  match r with Ok _ => False | _ => True end.

(** State and failure: a call either ends the process or returns a value
    and the next state. *)
Definition M (S A : Type) : Type := S -> outcome (A * S).

Definition ret {S A} (a : A) : M S A := fun s => Ok (a, s).

Definition bind {S A B} (c : M S A) (k : A -> M S B) : M S B :=
  fun s =>
    match c s with
    | Ok (a, s') => k a s'
    | AssertFail e => AssertFail e
    | NullDeref => NullDeref
    end.

Definition get {S} : M S S := fun s => Ok (s, s).
Definition modify {S} (f : S -> S) : M S unit := fun s => Ok (tt, f s).
Definition abort {S A} (e : assertion) : M S A := fun _ => AssertFail e.
Definition null_deref {S A} : M S A := fun _ => NullDeref.

(** [assert(b)] *)
Definition assert {S} (b : bool) (e : assertion) : M S unit :=
  if b then ret tt else abort e.

(** Run a computation on a part of the state. *)
Definition lift {S T A} (proj : S -> T) (upd : T -> S -> S) (c : M T A)
  : M S A :=
  fun s =>
    match c (proj s) with
    | Ok (a, t) => Ok (a, upd t s)
    | AssertFail e => AssertFail e
    | NullDeref => NullDeref
    end.

(** What holds of the result of a call that returns, for a call that does
    not dereference NULL: [wp c Q s] says that [c], started in [s], either
    fails an assertion or returns a value and a state that satisfy [Q]. *)
Definition wp {S A} (c : M S A) (Q : A -> S -> Prop) (s : S) : Prop :=
  match c s with
  | Ok (a, s') => Q a s'
  | AssertFail _ => True
  | NullDeref => False
  end.

(** [c] keeps the invariant [I] and does not dereference NULL where it
    holds. *)
Definition preserves {S A} (I : S -> Prop) (c : M S A) : Prop :=
  forall s, I s -> wp c (fun _ s' => I s') s.

Declare Scope M_scope.
Delimit Scope M_scope with M.
Notation "'let*' x ':=' c 'in' k" := (bind c (fun x => k))
  (at level 10, x pattern, c at level 100, k at level 200) : M_scope.
Notation "c ';;' k" := (bind c (fun _ => k))
  (at level 100, k at level 200, right associativity) : M_scope.

(** ** input.c *)

Module Input.

Inductive DeviceType : Type := TyKeyboard | TyMouse | TyTouch.

#[global] Instance DeviceType_eq_dec : EqDecision DeviceType.
Proof. solve_decision. Defined.

(** The X server's [ValuatorMask], as far as its interface shows it: which
    valuators are set, their values, their unaccelerated values, and whether
    unaccelerated values were stored. The values are C [double]s; every
    value stored here is a converted [int32_t], which a [double] holds
    exactly, so they are integers. The module allocates every mask with
    [valuator_mask_new(4)]. *)
Record ValuatorMask : Type := {
  has_unaccelerated : bool;
  bits : list bool;
  valuators : list Z;
  unaccelerated : list Z;
}.

Definition NUM_VALUATORS : nat := 4.

(** [valuator_mask_zero]: the whole structure is cleared. *)
Definition zero_mask : ValuatorMask :=
  {| has_unaccelerated := false;
     bits := replicate NUM_VALUATORS false;
     valuators := replicate NUM_VALUATORS 0;
     unaccelerated := replicate NUM_VALUATORS 0 |}.

(** [valuator_mask_set(mask, valuator, data)] with [int data]. *)
Definition mask_set (valuator : nat) (data : Z) (m : ValuatorMask)
  : ValuatorMask :=
  {| has_unaccelerated := has_unaccelerated m;
     bits := <[valuator := true]> (bits m);
     valuators := <[valuator := data]> (valuators m);
     unaccelerated := unaccelerated m |}.

(** [valuator_mask_set_unaccelerated(mask, valuator, accel, unaccel)]. *)
Definition mask_set_unaccelerated (valuator : nat) (accel unaccel : Z)
    (m : ValuatorMask) : ValuatorMask :=
  {| has_unaccelerated := true;
     bits := <[valuator := true]> (bits m);
     valuators := <[valuator := accel]> (valuators m);
     unaccelerated := <[valuator := unaccel]> (unaccelerated m) |}.

(** [valuator_mask_isset] and [valuator_mask_get]: what the X server reads
    out of a mask it is handed. *)
Definition mask_isset (m : ValuatorMask) (valuator : nat) : bool :=
  default false (bits m !! valuator).

Definition mask_get (m : ValuatorMask) (valuator : nat) : option Z :=
  if mask_isset m valuator then valuators m !! valuator else None.

(** [valuator_mask_get_unaccelerated]: the pair stored by
    [valuator_mask_set_unaccelerated]. *)
Definition mask_get_pair (m : ValuatorMask) (valuator : nat)
  : option (Z * Z) :=
  if mask_isset m valuator && has_unaccelerated m then
    match valuators m !! valuator, unaccelerated m !! valuator with
    | Some a, Some u => Some (a, u)
    | _, _ => None
    end
  else None.

(** [struct Device]. The list links [next] and [prev_next] are the
    positions in the list [devices]; [dev_id] is [device->device->dev->id],
    an [int] the X server assigns; [mask] is NULL until [init_pointer]. *)
Record Device : Type := {
  type : DeviceType;
  dev_id : Z;
  mask : option ValuatorMask;
}.

Inductive TouchEventType : Type :=
  XI_TouchBegin | XI_TouchUpdate | XI_TouchEnd.

(** The calls into the X server that deliver or tear down. The device
    argument is given by its id. *)
Inductive HostCall : Type :=
  | xf86PostKeyboardEvent (dev : Z) (key_code : Z) (is_down : bool)
  | xf86PostButtonEvent (dev : Z) (button : Z) (is_down : bool)
  | xf86PostMotionEventM (dev : Z) (m : ValuatorMask)
  | xf86PostTouchEvent (dev : Z) (touch_id : Z) (ty : TouchEventType)
      (m : option ValuatorMask)
  | NewInputDeviceRequest (driver name_prefix : string) (name_number : Z)
      (floating : string)
  | DeleteInputDeviceRequest (dev : Z).

Record state : Type := {
  devices : list Device;                (* static Device *devices *)
  current_type : option DeviceType;     (* static Type current_type; 0 = None *)
  next_input_id : Z;                    (* static int next_input_id = 1 *)
  TOUCH_ID : Z;                         (* static uint32_t TOUCH_ID = 1 *)
  posted : list HostCall;               (* calls made so far, oldest first *)
}.

(** The statics as the loader leaves them. *)
Definition initial : state :=
  {| devices := [];
     current_type := None;
     next_input_id := 1;
     TOUCH_ID := 1;
     posted := [] |}.

Definition set_devices (f : list Device -> list Device) (s : state) : state :=
  {| devices := f (devices s);
     current_type := current_type s;
     next_input_id := next_input_id s;
     TOUCH_ID := TOUCH_ID s;
     posted := posted s |}.

Definition set_current_type (t : DeviceType) (s : state) : state :=
  {| devices := devices s;
     current_type := Some t;
     next_input_id := next_input_id s;
     TOUCH_ID := TOUCH_ID s;
     posted := posted s |}.

Definition set_next_input_id (n : Z) (s : state) : state :=
  {| devices := devices s;
     current_type := current_type s;
     next_input_id := n;
     TOUCH_ID := TOUCH_ID s;
     posted := posted s |}.

Definition set_TOUCH_ID (n : Z) (s : state) : state :=
  {| devices := devices s;
     current_type := current_type s;
     next_input_id := next_input_id s;
     TOUCH_ID := n;
     posted := posted s |}.

Definition post (c : HostCall) (s : state) : state :=
  {| devices := devices s;
     current_type := current_type s;
     next_input_id := next_input_id s;
     TOUCH_ID := TOUCH_ID s;
     posted := posted s ++ [c] |}.

(** *** Access through a [Device *]

    A [Device *] is the position of the node in [devices]. *)

Definition deref (device : nat) : M state Device :=
  fun s =>
    match devices s !! device with
    | Some d => Ok (d, s)
    | None => NullDeref
    end.

Definition set_mask (m : option ValuatorMask) (d : Device) : Device :=
  {| type := type d; dev_id := dev_id d; mask := m |}.

(** A mask operation on [device->mask]; the X server's mask functions
    write through the pointer they are given. *)
Definition on_mask (device : nat) (f : ValuatorMask -> ValuatorMask)
  : M state unit :=
  fun s =>
    match devices s !! device with
    | Some d =>
        match mask d with
        | Some m =>
            Ok (tt, set_devices (fun l => <[device := set_mask (Some (f m)) d]> l) s)
        | None => NullDeref
        end
    | None => NullDeref
    end.

Definition valuator_mask_zero (device : nat) : M state unit :=
  on_mask device (fun _ => zero_mask).

Definition valuator_mask_set (device : nat) (valuator : nat) (data : Z)
  : M state unit :=
  on_mask device (mask_set valuator data).

Definition valuator_mask_set_unaccelerated (device : nat) (valuator : nat)
    (accel unaccel : Z) : M state unit :=
  on_mask device (mask_set_unaccelerated valuator accel unaccel).

Local Open Scope M_scope.

(** *** Device set-up, called back by the X server *)

(** What the X server answers while a device is set up. *)
Record HostInit : Type := {
  InitKeyboardDeviceStruct : bool;
  InitPointerDeviceStruct : bool;
  valuator_mask_new : bool;             (* false: returned NULL *)
  InitTouchClassDeviceStruct : bool;
  InitPointerAccelerationScheme : bool;
}.

Definition init_pointer (h : HostInit) (device : nat) : M state unit :=
  assert (InitPointerDeviceStruct h) AssertInitPointer ;;
  let* d := deref device in
  modify (set_devices (fun l =>
    <[device := set_mask (if valuator_mask_new h then Some zero_mask else None) d]> l)) ;;
  assert (valuator_mask_new h) AssertMaskNew.

Definition init_touch (h : HostInit) (device : nat) : M state unit :=
  init_pointer h device ;;
  assert (InitTouchClassDeviceStruct h) AssertInitTouchClass ;;
  assert (InitPointerAccelerationScheme h) AssertAccelerationScheme.

Definition init_mouse (h : HostInit) (device : nat) : M state unit :=
  init_pointer h device ;;
  assert (InitPointerAccelerationScheme h) AssertAccelerationScheme.

Inductive What : Type :=
  | DEVICE_INIT | DEVICE_ON | DEVICE_OFF | DEVICE_CLOSE
  | DEVICE_other (what : Z).

Definition Success : Z := 0.
Definition BadValue : Z := 2.

Definition device_control (h : HostInit) (device : nat) (what : What)
  : M state Z :=
  match what with
  | DEVICE_INIT =>
      let* d := deref device in
      match type d with
      | TyKeyboard => assert (InitKeyboardDeviceStruct h) AssertInitKeyboard
      | TyMouse => init_mouse h device
      | TyTouch => init_touch h device
      end ;;
      ret Success
  | DEVICE_ON | DEVICE_OFF | DEVICE_CLOSE => ret Success
  | DEVICE_other _ => ret BadValue
  end.

(** [pre_init]: a zeroed node of the current type, appended at the tail.
    [pInfo_dev_id] is the id the X server gives the device of [pInfo]; the
    server fills [pInfo->dev] before it returns to the module, and no
    lookup runs before that. *)
Definition pre_init (pInfo_dev_id : Z) : M state Z :=
  let* s := get in
  match current_type s with
  | Some t =>
      modify (set_devices (fun l =>
        l ++ [{| type := t; dev_id := pInfo_dev_id; mask := None |}])) ;;
      ret Success
  | None => abort AssertInvalidType
  end.

(** [un_init]: the node is unlinked and freed with its mask. *)
Definition un_init (device : nat) : M state unit :=
  modify (set_devices (fun l => delete device l)).

(** *** Creating devices *)

(** What the X server answers to [NewInputDeviceRequest]. *)
Record HostNew : Type := {
  new_status : Z;                       (* the return value; 0 is Success *)
  new_dev_id : Z;                       (* dev->id *)
  new_init : HostInit;
}.

Definition DRIVER_NAME : string := "winit_input".

(** The X server's side of [NewInputDeviceRequest]: it calls the driver's
    [PreInit], then activates the device, which calls [device_control] with
    [DEVICE_INIT]. *)
Definition host_new_input_device (h : HostNew) : M state Z :=
  if new_status h =? 0 then
    let* s := get in
    let device := length (devices s) in
    pre_init (new_dev_id h) ;;
    device_control (new_init h) device DEVICE_INIT ;;
    ret 0
  else ret (new_status h).

Definition input_new (h : HostNew) (prefix : string) : M state Z :=
  let* s := get in
  let id := wrap_u32 (next_input_id s) in
  modify (set_next_input_id (wrap_i32 (next_input_id s + 1))) ;;
  modify (post (NewInputDeviceRequest DRIVER_NAME prefix id "1")) ;;
  let* status := host_new_input_device h in
  assert (status =? 0) AssertNewInputDevice ;;
  ret (wrap_u32 (new_dev_id h)).

Definition input_new_keyboard (h : HostNew) : M state Z :=
  modify (set_current_type TyKeyboard) ;;
  input_new h "keyboard".

Definition input_new_mouse (h : HostNew) : M state Z :=
  modify (set_current_type TyMouse) ;;
  input_new h "mouse".

Definition input_new_touch (h : HostNew) : M state Z :=
  modify (set_current_type TyTouch) ;;
  input_new h "touchscreen".

(** *** Looking devices up *)

Definition MIN_KEYCODE : Z := 8.

(** The [while] loop of [get_device]: the position of the first node whose
    id, converted to [uint32_t] for the comparison, is [id]. *)
Fixpoint find_device (id : Z) (l : list Device) (pos : nat) : option nat :=
  match l with
  | [] => None
  | d :: l' =>
      if wrap_u32 (dev_id d) =? id then Some pos
      else find_device id l' (S pos)
  end.

Definition get_device (id : Z) : M state nat :=
  let* s := get in
  match find_device id (devices s) 0 with
  | Some device => ret device
  | None => abort AssertDevice
  end.

Definition get_typed (t : DeviceType) (e : assertion) (id : Z) : M state nat :=
  let* device := get_device id in
  let* d := deref device in
  assert (bool_decide (type d = t)) e ;;
  ret device.

Definition get_keyboard : Z -> M state nat :=
  get_typed TyKeyboard AssertTypeKeyboard.
Definition get_mouse : Z -> M state nat :=
  get_typed TyMouse AssertTypeMouse.
Definition get_touch : Z -> M state nat :=
  get_typed TyTouch AssertTypeTouch.

(** [device->device->dev], named by its id. *)
Definition dev_of (device : nat) : M state Z :=
  let* d := deref device in ret (dev_id d).

(** [device->mask], as the X server reads it when it is handed over. *)
Definition mask_of (device : nat) : M state ValuatorMask :=
  let* d := deref device in
  match mask d with
  | Some m => ret m
  | None => null_deref
  end.

(** *** Synthesising events *)

Definition input_key_press (keyboard key : Z) : M state unit :=
  let* device := get_keyboard keyboard in
  let* dev := dev_of device in
  modify (post (xf86PostKeyboardEvent dev (key + MIN_KEYCODE) true)).

Definition input_key_release (keyboard key : Z) : M state unit :=
  let* device := get_keyboard keyboard in
  let* dev := dev_of device in
  modify (post (xf86PostKeyboardEvent dev (key + MIN_KEYCODE) false)).

Definition input_button_press (mouse button : Z) : M state unit :=
  let* device := get_mouse mouse in
  let* dev := dev_of device in
  modify (post (xf86PostButtonEvent dev button true)).

Definition input_button_release (mouse button : Z) : M state unit :=
  let* device := get_mouse mouse in
  let* dev := dev_of device in
  modify (post (xf86PostButtonEvent dev button false)).

Definition input_mouse_move (mouse dx dy : Z) : M state unit :=
  let* device := get_mouse mouse in
  valuator_mask_zero device ;;
  valuator_mask_set_unaccelerated device 0 dx dx ;;
  valuator_mask_set_unaccelerated device 1 dy dy ;;
  let* dev := dev_of device in
  let* m := mask_of device in
  modify (post (xf86PostMotionEventM dev m)).

(** [dx * 120] and [dy * 120] are [int32_t] products. *)
Definition input_mouse_scroll (mouse dx dy : Z) : M state unit :=
  let* device := get_mouse mouse in
  valuator_mask_zero device ;;
  (if dx =? 0 then ret tt
   else valuator_mask_set device 2 (wrap_i32 (dx * 120))) ;;
  (if dy =? 0 then ret tt
   else valuator_mask_set device 3 (wrap_i32 (dy * 120))) ;;
  let* dev := dev_of device in
  let* m := mask_of device in
  modify (post (xf86PostMotionEventM dev m)).

Definition input_touch_down (touch x y : Z) : M state Z :=
  let* device := get_touch touch in
  valuator_mask_zero device ;;
  valuator_mask_set device 0 x ;;
  valuator_mask_set device 1 y ;;
  let* s := get in
  let touch_id := TOUCH_ID s in
  modify (set_TOUCH_ID (wrap_u32 (TOUCH_ID s + 1))) ;;
  let* dev := dev_of device in
  let* m := mask_of device in
  modify (post (xf86PostTouchEvent dev touch_id XI_TouchBegin (Some m))) ;;
  ret touch_id.

Definition input_touch_up (touch touch_id : Z) : M state unit :=
  let* device := get_touch touch in
  let* dev := dev_of device in
  modify (post (xf86PostTouchEvent dev touch_id XI_TouchEnd None)).

Definition input_touch_move (touch touch_id x y : Z) : M state unit :=
  let* device := get_touch touch in
  valuator_mask_zero device ;;
  valuator_mask_set device 0 x ;;
  valuator_mask_set device 1 y ;;
  let* dev := dev_of device in
  let* m := mask_of device in
  modify (post (xf86PostTouchEvent dev touch_id XI_TouchUpdate (Some m))).

Definition input_remove_device (id : Z) : M state unit :=
  let* device := get_device id in
  let* dev := dev_of device in
  modify (post (DeleteInputDeviceRequest dev)).

(** *** Vocabulary of the statements *)

(** The node that the loop of [get_device] stops at. *)
Definition lookup_device (id : Z) (s : state) : option Device :=
  match find_device id (devices s) 0 with
  | Some device => devices s !! device
  | None => None
  end.

(** A device of type [t] that the X server has initialised: pointer and
    touch devices have their mask from [init_pointer]. *)
Definition is_device (t : DeviceType) (s : state) (id : Z) (d : Device)
  : Prop :=
  lookup_device id s = Some d /\ type d = t /\ is_Some (mask d).

(** The state in which the node at [p], which was [d], holds mask [m]. *)
Definition with_mask (p : nat) (d : Device) (m : ValuatorMask)
    (s : state) : state :=
  set_devices (fun l => <[p := set_mask (Some m) d]> l) s.

(** States with the same touch counter. *)
Definition same_TOUCH_ID : relation state :=
  fun s s' => TOUCH_ID s' = TOUCH_ID s.

(** The last call made to the X server. *)
Definition last_posted (s : state) : option HostCall := last (posted s).

(** The mask that [input_mouse_move] hands over. *)
Definition move_mask (dx dy : Z) : ValuatorMask :=
  mask_set_unaccelerated 1 dy dy (mask_set_unaccelerated 0 dx dx zero_mask).

(** The mask that [input_mouse_scroll] hands over. *)
Definition scroll_mask (dx dy : Z) : ValuatorMask :=
  let m2 := if dx =? 0 then zero_mask
            else mask_set 2 (wrap_i32 (dx * 120)) zero_mask in
  if dy =? 0 then m2 else mask_set 3 (wrap_i32 (dy * 120)) m2.

(** The mask that [input_touch_down] and [input_touch_move] hand over. *)
Definition touch_mask (x y : Z) : ValuatorMask :=
  mask_set 1 y (mask_set 0 x zero_mask).

(** What one call of [input_mouse_scroll] on device [d] with the deltas
    [dx], [dy] comes to when the products are the integers [dx * 120] and
    [dy * 120]: the call returns, it makes exactly one more call to the
    X server, a motion event for [d], and the mask of that event has four
    slots of which slot 2 is set exactly when [dx] is not 0, then to
    [dx * 120], slot 3 is set exactly when [dy] is not 0, then to
    [dy * 120], and slots 0 and 1 are not set. The mask is the zeroed mask
    with these stores made to it and nothing else: whatever the mask of the
    device held before the call, unaccelerated values of an earlier move
    included, is gone. It is the mask that the device holds after the
    call. *)
Definition scroll_delivers (s : state) (id : Z) (d : Device) (dx dy : Z)
  : Prop :=
  exists s' m,
    input_mouse_scroll id dx dy s = Ok (tt, s') /\
    posted s' = posted s ++ [xf86PostMotionEventM (dev_id d) m] /\
    length (bits m) = 4%nat /\
    mask_isset m 0 = false /\
    mask_isset m 1 = false /\
    (mask_isset m 2 = true <-> dx <> 0) /\
    (dx <> 0 -> mask_get m 2 = Some (dx * 120)) /\
    (mask_isset m 3 = true <-> dy <> 0) /\
    (dy <> 0 -> mask_get m 3 = Some (dy * 120)) /\
    m = (let m2 := if dx =? 0 then zero_mask
                   else mask_set 2 (dx * 120) zero_mask in
         if dy =? 0 then m2 else mask_set 3 (dy * 120) m2) /\
    has_unaccelerated m = false /\
    unaccelerated m = unaccelerated zero_mask /\
    (forall valuator, mask_get_pair m valuator = None) /\
    lookup_device id s' = Some (set_mask (Some m) d).

(** Answers of an X server that accepts the device. *)
Definition accept_init : HostInit :=
  {| InitKeyboardDeviceStruct := true;
     InitPointerDeviceStruct := true;
     valuator_mask_new := true;
     InitTouchClassDeviceStruct := true;
     InitPointerAccelerationScheme := true |}.

Definition accept (dev : Z) : HostNew :=
  {| new_status := 0; new_dev_id := dev; new_init := accept_init |}.


(** The state after [input_new_mouse] when the X server accepts the device
    and gives it the id 2. *)
Definition one_mouse : state :=
  match input_new_mouse (accept 2) initial with
  | Ok (_, s) => s
  | _ => initial
  end.

Definition the_mouse : Device :=
  {| type := TyMouse; dev_id := 2; mask := Some zero_mask |}.

(** [one_mouse] after MouseMove(2, 3, 4): the mask of the mouse holds the
    pairs of the move. *)
Definition one_mouse_moved : state :=
  match input_mouse_move 2 3 4 one_mouse with
  | Ok (_, s) => s
  | _ => one_mouse
  end.

(** *** Further vocabulary *)

(** The three creation functions by the type they set. *)
Definition input_new_of (t : DeviceType) : HostNew -> M state Z :=
  match t with
  | TyKeyboard => input_new_keyboard
  | TyMouse => input_new_mouse
  | TyTouch => input_new_touch
  end.

(** The node of a device of type [t] when [DEVICE_INIT] is through:
    pointer and touch devices hold the fresh mask of [init_pointer], a
    keyboard holds none. *)
Definition new_device (t : DeviceType) (dev : Z) : Device :=
  {| type := t; dev_id := dev;
     mask := match t with TyKeyboard => None | _ => Some zero_mask end |}.

(** The assertion that guards the operations on devices of type [t]. *)
Definition type_assertion (t : DeviceType) : assertion :=
  match t with
  | TyKeyboard => AssertTypeKeyboard
  | TyMouse => AssertTypeMouse
  | TyTouch => AssertTypeTouch
  end.

(** No registered device has the id [id]. *)
Definition unused (id : Z) (s : state) : Prop :=
  Forall (fun d => wrap_u32 (dev_id d) <> id) (devices s).

(** Type and id of every registered device, in list order. *)
Definition registry (s : state) : list (DeviceType * Z) :=
  (fun d => (type d, dev_id d)) <$> devices s.

(** The three lists of a mask have one entry per valuator. *)
Definition mask_sized (m : ValuatorMask) : Prop :=
  length (bits m) = NUM_VALUATORS /\
  length (valuators m) = NUM_VALUATORS /\
  length (unaccelerated m) = NUM_VALUATORS.

(** A keyboard has no mask; a mouse or a touchscreen has one, of four
    valuators. *)
Definition mask_ok (d : Device) : Prop :=
  match type d with
  | TyKeyboard => mask d = None
  | _ => exists m, mask d = Some m /\ mask_sized m
  end.

Definition masks_ok (s : state) : Prop := Forall mask_ok (devices s).

(** [masks_ok], and the node at [p] is of type [t]. *)
Definition masks_ok_at (p : nat) (t : DeviceType) (s : state) : Prop :=
  masks_ok s /\ exists d, devices s !! p = Some d /\ type d = t.

(** A mouse with the id 2 and a touchscreen with the id 3. *)
Definition mouse_and_touch : state :=
  match input_new_touch (accept 3) one_mouse with
  | Ok (_, s) => s
  | _ => one_mouse
  end.

Definition the_touch : Device :=
  {| type := TyTouch; dev_id := 3; mask := Some zero_mask |}.

(** The name prefix that the creation function of a type passes on. *)
Definition prefix_of (t : DeviceType) : string :=
  match t with
  | TyKeyboard => "keyboard"
  | TyMouse => "mouse"
  | TyTouch => "touchscreen"
  end.

(** The answers that [DEVICE_INIT] asserts for a device of type [t]. *)
Definition init_accepted (t : DeviceType) (h : HostInit) : bool :=
  match t with
  | TyKeyboard => InitKeyboardDeviceStruct h
  | TyMouse =>
      InitPointerDeviceStruct h && valuator_mask_new h
      && InitPointerAccelerationScheme h
  | TyTouch =>
      InitPointerDeviceStruct h && valuator_mask_new h
      && InitTouchClassDeviceStruct h && InitPointerAccelerationScheme h
  end.


(** The state that a creation which returns leaves. *)
Definition created (t : DeviceType) (dev : Z) (s : state) : state :=
  set_devices (fun l => l ++ [new_device t dev])
    (post (NewInputDeviceRequest DRIVER_NAME (prefix_of t)
             (wrap_u32 (next_input_id s)) "1")
       (set_next_input_id (wrap_i32 (next_input_id s + 1))
          (set_current_type t s))).

(** States with the same registry. *)
Definition same_registry : relation state :=
  fun s s' => registry s' = registry s.

(** States with the same creation counter, and no creation request made
    from one to the other. *)
Definition same_names : relation state :=
  fun s s' =>
    next_input_id s' = next_input_id s /\
    exists calls,
      posted s' = posted s ++ calls /\
      Forall (fun c => forall a b n f, c <> NewInputDeviceRequest a b n f)
        calls.

End Input.

(** ** video.c *)

Module Video.

Local Open Scope M_scope.

Definition WIDTH : Z := 1024 * 2.
Definition HEIGHT : Z := 768.
Definition NUM_OUTPUTS : nat := 2.

(** The fields of [DisplayModeRec] that [pre_init] fills in. *)
Record DisplayMode : Type := {
  name : string;
  Clock : Z;
  HTotal : Z;
  VTotal : Z;
  HDisplay : Z;
  VDisplay : Z;
}.

Definition mode1 : DisplayMode :=
  {| name := "1024x768"; Clock := 60; HTotal := 10; VTotal := 100;
     HDisplay := 1024; VDisplay := 768 |}.

Definition mode2 : DisplayMode :=
  {| name := "800x600"; Clock := 120; HTotal := 10; VTotal := 100;
     HDisplay := 800; VDisplay := 600 |}.

(** [pScrn->modes] when [pre_init] returns: [mode1], then [mode2] added
    behind it by [xf86ModesAdd]. *)
Definition pre_init_modes : list DisplayMode := [mode1; mode2].

(** The RandR objects of the X server, as far as [video_get_info] reads
    them: [mode->mode.width], [mode->mode.id], [randr_output->id] with
    [modes] ([numModes] is the length), [randr_crtc->id]. XIDs are 32-bit
    values. *)
Record RRMode : Type := { mode_width : Z; mode_id : Z }.
Record RROutput : Type := { rr_output_id : Z; modes : list RRMode }.
Record RRCrtc : Type := { rr_crtc_id : Z }.

(** The RandR mode the X server makes of a configured mode, under the
    identifier it assigns. *)
Definition rr_mode_of (m : DisplayMode) (xid : Z) : RRMode :=
  {| mode_width := HDisplay m; mode_id := xid |}.

Record xf86Crtc : Type := { randr_crtc : option RRCrtc }.

Record xf86Output : Type := {
  possible_crtcs : Z;
  possible_clones : Z;
  mm_width : Z;
  mm_height : Z;
  randr_output : option RROutput;
}.

Record DriverOutput : Type := {
  connected : bool;
  crtc : option xf86Crtc;
  output : option xf86Output;
}.

Inductive HostCall : Type :=
  | RRSetChanged (screen : Z)
  | xf86RandR12TellChanged (screen : Z)
  | RRGetInfo (screen : Z) (force_query : bool).

(** The static [driver] (without the pixels) and the calls made so far. *)
Record state : Type := {
  screen : option Z;
  outputs : list DriverOutput;
  notified : list HostCall;
}.

Definition zero_output : DriverOutput :=
  {| connected := false; crtc := None; output := None |}.

(** The zero-initialised static. *)
Definition initial : state :=
  {| screen := None;
     outputs := replicate NUM_OUTPUTS zero_output;
     notified := [] |}.

Definition set_outputs (f : list DriverOutput -> list DriverOutput)
    (s : state) : state :=
  {| screen := screen s; outputs := f (outputs s); notified := notified s |}.

Definition set_screen (p : Z) (s : state) : state :=
  {| screen := Some p; outputs := outputs s; notified := notified s |}.

Definition notify (c : HostCall) (s : state) : state :=
  {| screen := screen s; outputs := outputs s;
     notified := notified s ++ [c] |}.

(** [output_detect] *)
Inductive xf86OutputStatus : Type :=
  XF86OutputStatusConnected | XF86OutputStatusDisconnected.

Definition output_detect (driver_output : DriverOutput) : xf86OutputStatus :=
  if connected driver_output then XF86OutputStatusConnected
  else XF86OutputStatusDisconnected.

(** *** Screen initialisation *)

(** What the X server supplies during [screen_init]: the screen, and the
    RandR objects which [xf86CrtcScreenInit] attaches to the CRTC and the
    output of each index. *)
Record HostScreen : Type := {
  pScreen : Z;
  host_crtcs : list RRCrtc;
  host_outputs : list RROutput;
}.

(** One round of the loop over [i < NUM_OUTPUTS]. *)
Definition screen_init_output (i : nat) (o : DriverOutput) : DriverOutput :=
  {| connected := bool_decide (i = 0%nat);
     crtc := Some {| randr_crtc := None |};
     output := Some {| possible_crtcs := Z.shiftl 1 (Z.of_nat i);
                       possible_clones := 0;
                       mm_width := 2000;
                       mm_height := 1000;
                       randr_output := None |} |}.

(** [xf86CrtcScreenInit], the X server's side: the RandR objects are
    attached; nothing else of [driver] is touched. *)
Definition host_attach (h : HostScreen) (i : nat) (o : DriverOutput)
  : DriverOutput :=
  {| connected := connected o;
     crtc := (fun c => {| randr_crtc := host_crtcs h !! i |}) <$> crtc o;
     output :=
       (fun x => {| possible_crtcs := possible_crtcs x;
                    possible_clones := possible_clones x;
                    mm_width := mm_width x;
                    mm_height := mm_height x;
                    randr_output := host_outputs h !! i |}) <$> output o |}.

(** The X server's initialisers whose results [screen_init] asserts are
    taken to succeed; otherwise the process ends before a message is
    handled. *)
Definition screen_init (h : HostScreen) : M state bool :=
  modify (set_outputs (imap screen_init_output)) ;;
  modify (set_outputs (imap (host_attach h))) ;;
  modify (set_screen (pScreen h)) ;;
  ret true.

(** *** The two operations of winit.h *)

Definition driver_output (i : nat) : M state DriverOutput :=
  fun s =>
    match outputs s !! i with
    | Some o => Ok (o, s)
    | None => NullDeref
    end.

Definition deref_opt {A} (p : option A) : M state A :=
  match p with
  | Some a => ret a
  | None => null_deref
  end.

(** [uint32_t] to [bool]: true exactly for a value other than 0. *)
Definition to_bool (v : Z) : bool := negb (v =? 0).

Definition video_connect_second_monitor (connected_arg : Z) : M state unit :=
  let* o := driver_output 1 in
  let o' := {| connected := to_bool connected_arg;
               crtc := crtc o; output := output o |} in
  modify (set_outputs (fun l => <[1%nat := o']> l)) ;;
  let* x := deref_opt (output o') in
  let x' := {| possible_crtcs := possible_crtcs x;
               possible_clones := possible_clones x;
               mm_width := 20;
               mm_height := 20;
               randr_output := randr_output x |} in
  modify (set_outputs (fun l =>
    <[1%nat := {| connected := connected o'; crtc := crtc o';
                  output := Some x' |}]> l)) ;;
  let* s := get in
  let* scr := deref_opt (screen s) in
  modify (notify (RRSetChanged scr)) ;;
  modify (notify (xf86RandR12TellChanged scr)) ;;
  modify (notify (RRGetInfo scr true)).

(** The five [uint32_t] objects that [video_get_info] writes through its
    pointer arguments, in the order of the parameters. *)
Record VideoInfo : Type := {
  second_crtc : Z;
  first_output : Z;
  second_output : Z;
  small_mode_id : Z;
  large_mode_id : Z;
}.

Definition set_large (v : Z) (r : VideoInfo) : VideoInfo :=
  {| second_crtc := second_crtc r; first_output := first_output r;
     second_output := second_output r; small_mode_id := small_mode_id r;
     large_mode_id := v |}.

Definition set_small (v : Z) (r : VideoInfo) : VideoInfo :=
  {| second_crtc := second_crtc r; first_output := first_output r;
     second_output := second_output r; small_mode_id := v;
     large_mode_id := large_mode_id r |}.

(** The body of the [for] loop over [output->modes]. *)
Definition classify_mode (r : VideoInfo) (mode : RRMode) : VideoInfo :=
  if mode_width mode =? 1024 then set_large (mode_id mode) r
  else set_small (mode_id mode) r.

Definition crtc_id_of (o : DriverOutput) : M state Z :=
  let* c := deref_opt (crtc o) in
  let* rc := deref_opt (randr_crtc c) in
  ret (rr_crtc_id rc).

Definition randr_output_of (o : DriverOutput) : M state RROutput :=
  let* x := deref_opt (output o) in
  deref_opt (randr_output x).

(** [r] holds what the five objects hold before the call. *)
Definition video_get_info (r : VideoInfo) : M state VideoInfo :=
  let* o0 := driver_output 0 in
  let* o1 := driver_output 1 in
  let* c1 := crtc_id_of o1 in
  let* out0 := randr_output_of o0 in
  let* out1 := randr_output_of o1 in
  let r1 := {| second_crtc := c1;
               first_output := rr_output_id out0;
               second_output := rr_output_id out1;
               small_mode_id := small_mode_id r;
               large_mode_id := large_mode_id r |} in
  ret (fold_left classify_mode (modes out0) r1).

(** *** Vocabulary of the statements *)

(** The screen is initialised: [driver.screen] is set, there are the two
    outputs, each with its CRTC and output, and the X server has attached
    the RandR CRTC [rc1] to CRTC 1 and the RandR outputs [out0] and [out1]
    to the outputs. *)
Definition ready (s : state) (rc1 : RRCrtc) (out0 out1 : RROutput) : Prop :=
  exists o0 o1 c1 x0 x1,
    is_Some (screen s) /\
    outputs s = [o0; o1] /\
    crtc o1 = Some c1 /\ randr_crtc c1 = Some rc1 /\
    output o0 = Some x0 /\ randr_output x0 = Some out0 /\
    output o1 = Some x1 /\ randr_output x1 = Some out1.

(** States with the same [driver.outputs[0]] (and as many outputs). *)
Definition same_output0 : relation state :=
  fun s s' =>
    outputs s' !! 0%nat = outputs s !! 0%nat /\
    length (outputs s') = length (outputs s).

(** [driver.outputs[i].connected] *)
Definition connected_at (s : state) (i : nat) : option bool :=
  connected <$> outputs s !! i.

(** [driver.outputs[i].output->mm_width] and [mm_height] *)
Definition mm_size_at (s : state) (i : nat) : option (Z * Z) :=
  match outputs s !! i with
  | Some o => (fun x => (mm_width x, mm_height x)) <$> output o
  | None => None
  end.

(** An X server that reports the two modes of [pre_init] on both outputs,
    with identifiers of its choosing. *)
Definition example_host : HostScreen :=
  {| pScreen := 1;
     host_crtcs := [ {| rr_crtc_id := 63 |}; {| rr_crtc_id := 64 |} ];
     host_outputs :=
       [ {| rr_output_id := 65;
            modes := [rr_mode_of mode1 67; rr_mode_of mode2 68] |};
         {| rr_output_id := 66;
            modes := [rr_mode_of mode1 67; rr_mode_of mode2 68] |} ] |}.

Definition example_state : state :=
  match screen_init example_host initial with
  | Ok (_, s) => s
  | _ => initial
  end.

(** *** Further vocabulary *)

Definition is_large (m : RRMode) : bool := mode_width m =? 1024.

(** The id of the last mode of the list that satisfies [f], or [v] when
    there is none. *)
Definition last_id (f : RRMode -> bool) (ms : list RRMode) (v : Z) : Z :=
  match last (List.filter f ms) with
  | Some m => mode_id m
  | None => v
  end.

(** *** [crtc_config_resize] *)

(** The fields of [ScrnInfoRec] that [crtc_config_resize] writes. *)
Record ScrnInfo : Type := {
  virtualX : Z;
  virtualY : Z;
  displayWidth : Z;
}.

(** [sizeof driver.pixels]: four bytes per pixel of the largest screen. *)
Definition sizeof_pixels : Z := WIDTH * HEIGHT * 4.

(** The result is the returned [Bool] and the screen record after the
    call. *)
Definition crtc_config_resize (pScrn : ScrnInfo) (width height : Z)
  : bool * ScrnInfo :=
  if (width <=? WIDTH) && (height <=? HEIGHT) then
    (true, {| virtualX := width; virtualY := height; displayWidth := width |})
  else (false, pScrn).

(** What the X server's probe of output [i] finds: [output_detect] on
    [driver.outputs[i]]. *)
Definition detect_at (s : state) (i : nat) : option xf86OutputStatus :=
  output_detect <$> outputs s !! i.

End Video.

(** ** main.c *)

Module Main.

Local Open Scope M_scope.

Inductive MessageType : Type :=
  | MT_NONE
  | MT_CREATE_KEYBOARD
  | MT_CREATE_KEYBOARD_REPLY
  | MT_KEY_PRESS
  | MT_KEY_RELEASE
  | MT_REMOVE_DEVICE
  | MT_ENABLE_SECOND_MONITOR
  | MT_ENABLE_SECOND_MONITOR_REPLY
  | MT_GET_VIDEO_INFO
  | MT_GET_VIDEO_INFO_REPLY
  | MT_CREATE_MOUSE
  | MT_CREATE_MOUSE_REPLY
  | MT_BUTTON_PRESS
  | MT_BUTTON_RELEASE
  | MT_MOUSE_MOVE
  | MT_MOUSE_SCROLL
  | MT_CREATE_TOUCH
  | MT_CREATE_TOUCH_REPLY
  | MT_TOUCH_DOWN
  | MT_TOUCH_DOWN_REPLY
  | MT_TOUCH_UP
  | MT_TOUCH_MOVE.

(** The enumerators in the order of the declaration; an enumerator's value
    is its position. *)
Definition enumerators : list MessageType :=
  [ MT_NONE; MT_CREATE_KEYBOARD; MT_CREATE_KEYBOARD_REPLY; MT_KEY_PRESS;
    MT_KEY_RELEASE; MT_REMOVE_DEVICE; MT_ENABLE_SECOND_MONITOR;
    MT_ENABLE_SECOND_MONITOR_REPLY; MT_GET_VIDEO_INFO;
    MT_GET_VIDEO_INFO_REPLY; MT_CREATE_MOUSE; MT_CREATE_MOUSE_REPLY;
    MT_BUTTON_PRESS; MT_BUTTON_RELEASE; MT_MOUSE_MOVE; MT_MOUSE_SCROLL;
    MT_CREATE_TOUCH; MT_CREATE_TOUCH_REPLY; MT_TOUCH_DOWN;
    MT_TOUCH_DOWN_REPLY; MT_TOUCH_UP; MT_TOUCH_MOVE ].

#[global] Instance MessageType_eq_dec : EqDecision MessageType.
Proof. solve_decision. Defined.

Fixpoint index_of (t : MessageType) (l : list MessageType) (pos : Z) : Z :=
  match l with
  | [] => pos
  | t' :: l' => if bool_decide (t = t') then pos else index_of t l' (pos + 1)
  end.

Definition tag (t : MessageType) : Z := index_of t enumerators 0.

Definition message_type (v : Z) : option MessageType :=
  if 0 <=? v then enumerators !! Z.to_nat v else None.

(** The union [Message]: five 32-bit words, the first of which is [type]
    in every variant. The variants name the other words. *)
Record Message : Type := {
  type : Z;
  word1 : Z;
  word2 : Z;
  word3 : Z;
  word4 : Z;
}.

Definition sizeof_Message : Z := 20.

(** A word read as [int32_t]. *)
Definition as_i32 (w : Z) : Z := wrap_i32 w.

Definition key_press_id (m : Message) : Z := word1 m.
Definition key_press_key (m : Message) : Z := word2 m.
Definition touch_down_id (m : Message) : Z := word1 m.
Definition touch_down_x (m : Message) : Z := as_i32 (word2 m).
Definition touch_down_y (m : Message) : Z := as_i32 (word3 m).
Definition touch_move_id (m : Message) : Z := word1 m.
Definition touch_move_touch_id (m : Message) : Z := word2 m.
Definition touch_move_x (m : Message) : Z := as_i32 (word3 m).
Definition touch_move_y (m : Message) : Z := as_i32 (word4 m).
Definition mouse_move_id (m : Message) : Z := word1 m.
Definition mouse_move_dx (m : Message) : Z := as_i32 (word2 m).
Definition mouse_move_dy (m : Message) : Z := as_i32 (word3 m).
Definition remove_device_id (m : Message) : Z := word1 m.
Definition enable_second_monitor_enable (m : Message) : Z := word1 m.

(** The reply structures, fields in the order of their declarations. *)
Record CreateKeyboardReply : Type := {
  ckr_type : Z;
  ckr_id : Z;
}.

Record TouchDownReply : Type := {
  tdr_type : Z;
  tdr_touch_id : Z;
}.

Record GetVideoInfoReply : Type := {
  gvr_type : Z;
  gvr_second_crtc : Z;
  gvr_second_output : Z;
  gvr_first_output : Z;
  gvr_large_mode_id : Z;
  gvr_small_mode_id : Z;
}.

(** The object representation handed to [write]: the 32-bit members in the
    order of the declaration (members of one 4-byte type leave no
    padding). *)
Definition words_of_CreateKeyboardReply (r : CreateKeyboardReply) : list Z :=
  [ckr_type r; ckr_id r].

Definition words_of_TouchDownReply (r : TouchDownReply) : list Z :=
  [tdr_type r; tdr_touch_id r].

Definition words_of_GetVideoInfoReply (r : GetVideoInfoReply) : list Z :=
  [gvr_type r; gvr_second_crtc r; gvr_second_output r; gvr_first_output r;
   gvr_large_mode_id r; gvr_small_mode_id r].

Definition words_of_Message (m : Message) : list Z :=
  [type m; word1 m; word2 m; word3 m; word4 m].

(** The pointers [&reply.second_crtc, &reply.first_output,
    &reply.second_output, &reply.small_mode_id, &reply.large_mode_id]
    handed to [video_get_info]: the members read before the call ... *)
Definition info_of_reply (r : GetVideoInfoReply) : Video.VideoInfo :=
  {| Video.second_crtc := gvr_second_crtc r;
     Video.first_output := gvr_first_output r;
     Video.second_output := gvr_second_output r;
     Video.small_mode_id := gvr_small_mode_id r;
     Video.large_mode_id := gvr_large_mode_id r |}.

(** ... and written back after it. *)
Definition reply_of_info (t : Z) (i : Video.VideoInfo) : GetVideoInfoReply :=
  {| gvr_type := t;
     gvr_second_crtc := Video.second_crtc i;
     gvr_second_output := Video.second_output i;
     gvr_first_output := Video.first_output i;
     gvr_large_mode_id := Video.large_mode_id i;
     gvr_small_mode_id := Video.small_mode_id i |}.

(** The whole module: the statics of input.c and video.c, and every
    buffer handed to [write] on the socket, oldest first. *)
Record state : Type := {
  input : Input.state;
  video : Video.state;
  written : list (list Z);
}.

Definition initial : state :=
  {| input := Input.initial; video := Video.initial; written := [] |}.

Definition set_input (i : Input.state) (s : state) : state :=
  {| input := i; video := video s; written := written s |}.

Definition set_video (v : Video.state) (s : state) : state :=
  {| input := input s; video := v; written := written s |}.

Definition add_written (buf : list Z) (s : state) : state :=
  {| input := input s; video := video s; written := written s ++ [buf] |}.

Definition in_input {A} (c : M Input.state A) : M state A :=
  lift input set_input c.

Definition in_video {A} (c : M Video.state A) : M state A :=
  lift video set_video c.

(** What the outside supplies during one call of [handle_message]: the
    return value of [read] and the contents of [message] after it (where
    [read] stored nothing, whatever the stack held), the return value of
    [write] if it is called, the X server's answers if a device is
    created, and what the stack holds in the bytes of the
    EnableSecondMonitor reply that follow its [type], which is the only
    member of that union that is initialised. *)
Record Io : Type := {
  read_ret : Z;
  message : Message;
  write_ret : Z;
  host_new : Input.HostNew;
  indeterminate : Message;
}.

(** [assert(write(fd, &reply, sizeof(reply)) > 0)] *)
Definition write_reply (io : Io) (buf : list Z) : M state unit :=
  modify (add_written buf) ;;
  assert (0 <? write_ret io) AssertWrite.

Definition handle_message (io : Io) : M state unit :=
  assert (0 <? read_ret io) AssertRead ;;
  let message := message io in
  match message_type (type message) with
  | Some MT_CREATE_KEYBOARD =>
      let* id := in_input (Input.input_new_keyboard (host_new io)) in
      write_reply io (words_of_CreateKeyboardReply
        {| ckr_type := tag MT_CREATE_KEYBOARD_REPLY; ckr_id := id |})
  | Some MT_CREATE_MOUSE =>
      let* id := in_input (Input.input_new_mouse (host_new io)) in
      write_reply io (words_of_CreateKeyboardReply
        {| ckr_type := tag MT_CREATE_MOUSE_REPLY; ckr_id := id |})
  | Some MT_CREATE_TOUCH =>
      let* id := in_input (Input.input_new_touch (host_new io)) in
      write_reply io (words_of_CreateKeyboardReply
        {| ckr_type := tag MT_CREATE_TOUCH_REPLY; ckr_id := id |})
  | Some MT_KEY_PRESS =>
      in_input (Input.input_key_press (key_press_id message)
                  (wrap_u8 (key_press_key message)))
  | Some MT_KEY_RELEASE =>
      in_input (Input.input_key_release (key_press_id message)
                  (wrap_u8 (key_press_key message)))
  | Some MT_BUTTON_PRESS =>
      in_input (Input.input_button_press (key_press_id message)
                  (wrap_u8 (key_press_key message)))
  | Some MT_BUTTON_RELEASE =>
      in_input (Input.input_button_release (key_press_id message)
                  (wrap_u8 (key_press_key message)))
  | Some MT_MOUSE_MOVE =>
      in_input (Input.input_mouse_move (mouse_move_id message)
                  (mouse_move_dx message) (mouse_move_dy message))
  | Some MT_MOUSE_SCROLL =>
      in_input (Input.input_mouse_scroll (mouse_move_id message)
                  (mouse_move_dx message) (mouse_move_dy message))
  | Some MT_REMOVE_DEVICE =>
      in_input (Input.input_remove_device (remove_device_id message))
  | Some MT_ENABLE_SECOND_MONITOR =>
      in_video (Video.video_connect_second_monitor
                  (enable_second_monitor_enable message)) ;;
      write_reply io (words_of_Message
        {| type := tag MT_ENABLE_SECOND_MONITOR_REPLY;
           word1 := word1 (indeterminate io);
           word2 := word2 (indeterminate io);
           word3 := word3 (indeterminate io);
           word4 := word4 (indeterminate io) |})
  | Some MT_GET_VIDEO_INFO =>
      let reply :=
        {| gvr_type := tag MT_GET_VIDEO_INFO_REPLY;
           gvr_second_crtc := 0; gvr_second_output := 0;
           gvr_first_output := 0; gvr_large_mode_id := 0;
           gvr_small_mode_id := 0 |} in
      let* i := in_video (Video.video_get_info (info_of_reply reply)) in
      write_reply io (words_of_GetVideoInfoReply
        (reply_of_info (gvr_type reply) i))
  | Some MT_TOUCH_DOWN =>
      let* touch_id :=
        in_input (Input.input_touch_down (touch_down_id message)
                    (touch_down_x message) (touch_down_y message)) in
      write_reply io (words_of_TouchDownReply
        {| tdr_type := tag MT_TOUCH_DOWN_REPLY; tdr_touch_id := touch_id |})
  | Some MT_TOUCH_MOVE =>
      in_input (Input.input_touch_move (touch_move_id message)
                  (touch_move_touch_id message)
                  (touch_move_x message) (touch_move_y message))
  | Some MT_TOUCH_UP =>
      in_input (Input.input_touch_up (touch_move_id message)
                  (touch_move_touch_id message))
  | _ => abort AssertMessageType
  end.

(** *** The life of the process

    The X server initialises the screen once; after that it calls
    [handle_message] whenever the socket is readable, and it calls
    [un_init] for a device it tears down. *)
Inductive Event : Type :=
  | EvMessage (io : Io)
  | EvUnInit (device : nat).

Definition step (e : Event) : M state unit :=
  match e with
  | EvMessage io => handle_message io
  | EvUnInit device => in_input (Input.un_init device)
  end.

Fixpoint run (es : list Event) : M state unit :=
  match es with
  | [] => ret tt
  | e :: es' => step e ;; run es'
  end.

(** The module after the X server has initialised the screen. *)
Definition started (h : Video.HostScreen) : M state unit :=
  in_video (Video.screen_init h) ;; ret tt.

(** The states the process goes through once the screen is there. *)
Definition reachable (s : state) : Prop :=
  exists h es s0, started h initial = Ok (tt, s0) /\ run es s0 = Ok (tt, s).

(** *** [winit_setup]

    What the loader sees of the module. *)
Inductive LoaderCall : Type :=
  | xf86AddDriver (driverName : string)
  | xf86AddInputDriver (driverName : string)
  | xf86AddGeneralHandler (fd : Z).

Inductive LoaderError : Type := LDR_ONCEONLY.

(** The static [done] of [winit_setup] and the calls made so far. *)
Record setup_state : Type := {
  done : bool;
  loader_calls : list LoaderCall;
}.

Definition setup_initial : setup_state :=
  {| done := false; loader_calls := [] |}.

Definition set_done (s : setup_state) : setup_state :=
  {| done := true; loader_calls := loader_calls s |}.

Definition loader_call (c : LoaderCall) (s : setup_state) : setup_state :=
  {| done := done s; loader_calls := loader_calls s ++ [c] |}.

(** [video_init] and [input_init]: each registers its driver. *)
Definition video_init (s : setup_state) : setup_state :=
  loader_call (xf86AddDriver "winit") s.

Definition input_init (s : setup_state) : setup_state :=
  loader_call (xf86AddInputDriver Input.DRIVER_NAME) s.

(** [errmaj] tells whether the pointer of that name is not NULL;
    [socknum] is the number that [atoi] makes of the value of
    WINIT_IT_SOCKET, or [None] when [getenv] returns NULL. The result is
    [None] when [assert(socknum)] fails, and otherwise whether the
    returned pointer is not NULL, what was stored through [errmaj], and
    the state after the call. *)
Definition winit_setup (errmaj : bool) (socknum : option Z)
    (s : setup_state)
  : option ((bool * option LoaderError) * setup_state) :=
  if done s then
    Some ((false, if errmaj then Some LDR_ONCEONLY else None), s)
  else
    let s := input_init (video_init (set_done s)) in
    match socknum with
    | None => None
    | Some sock =>
        Some ((true, None), loader_call (xf86AddGeneralHandler sock) s)
    end.

(** The loader calls [winit_setup] once per element of the list, with
    the same environment; the results are collected. *)
Fixpoint setup_calls (errmajs : list bool) (socknum : option Z)
    (s : setup_state)
  : option (list (bool * option LoaderError) * setup_state) :=
  match errmajs with
  | [] => Some ([], s)
  | errmaj :: rest =>
      match winit_setup errmaj socknum s with
      | Some (r, s') =>
          match setup_calls rest socknum s' with
          | Some (rs, s'') => Some (r :: rs, s'')
          | None => None
          end
      | None => None
      end
  end.

(** *** Vocabulary of the statements *)

(** The contact id in a buffer that is a [TouchDownReply]. *)
Definition touch_id_of (buf : list Z) : option Z :=
  match buf with
  | [t; touch_id] =>
      if t =? tag MT_TOUCH_DOWN_REPLY then Some touch_id else None
  | _ => None
  end.

(** The contact ids sent back so far, oldest first. *)
Definition touch_ids (s : state) : list Z := omap touch_id_of (written s).

Definition is_touch_down (e : Event) : bool :=
  match e with
  | EvMessage io =>
      bool_decide (message_type (type (message io)) = Some MT_TOUCH_DOWN)
  | EvUnInit _ => false
  end.

(** The number of TouchDown messages among the events. *)
Definition touch_downs (es : list Event) : nat :=
  length (List.filter is_touch_down es).

Definition increasing (l : list Z) : Prop :=
  forall (i j : nat) (x y : Z),
    (i < j)%nat -> l !! i = Some x -> l !! j = Some y -> x < y.

(** States with the same touch counter and the same contact ids sent. *)
Definition same_touch : relation state :=
  fun s s' =>
    Input.TOUCH_ID (input s') = Input.TOUCH_ID (input s) /\
    touch_ids s' = touch_ids s.

(** States with the same [driver.outputs[0]] (and as many outputs). *)
Definition same_output0 : relation state :=
  fun s s' => Video.same_output0 (video s) (video s').

Definition zero_message : Message :=
  {| type := 0; word1 := 0; word2 := 0; word3 := 0; word4 := 0 |}.

(** A message with its five words, read and answered in full, while the
    X server accepts new devices under the id [dev]. *)
Definition io_of (t : MessageType) (w1 w2 w3 w4 dev : Z) : Io :=
  {| read_ret := sizeof_Message;
     message := {| type := tag t; word1 := w1; word2 := w2;
                   word3 := w3; word4 := w4 |};
     write_ret := 8;
     host_new := Input.accept dev;
     indeterminate := zero_message |}.

(** A TouchDown on the device with id 2, read and answered in full. *)
Definition touch_down_2 : Event :=
  EvMessage
    {| read_ret := sizeof_Message;
       message := {| type := tag MT_TOUCH_DOWN; word1 := 2; word2 := 10;
                     word3 := 20; word4 := 0 |};
       write_ret := 8;
       host_new := Input.accept 0;
       indeterminate := zero_message |}.

(** A GetVideoInfo request with the given results of [read] and
    [write]. *)
Definition get_video_info_io (read_result write_result : Z) : Io :=
  {| read_ret := read_result;
     message := {| type := tag MT_GET_VIDEO_INFO; word1 := 0; word2 := 0;
                   word3 := 0; word4 := 0 |};
     write_ret := write_result;
     host_new := Input.accept 0;
     indeterminate := zero_message |}.

(** The same call with other return values of [read] and [write]. *)
Definition with_counts (read_result write_result : Z) (io : Io) : Io :=
  {| read_ret := read_result;
     message := message io;
     write_ret := write_result;
     host_new := host_new io;
     indeterminate := indeterminate io |}.

(** Nothing was written from one state to the other unless [write]
    returned more than 0. *)
Definition written_checked (io : Io) : relation state :=
  fun s s' => written s' = written s \/ 0 < write_ret io.

(** The requests that [handle_message] answers with a [write]. *)
Definition replies_to (t : MessageType) : bool :=
  match t with
  | MT_CREATE_KEYBOARD | MT_CREATE_MOUSE | MT_CREATE_TOUCH
  | MT_ENABLE_SECOND_MONITOR | MT_GET_VIDEO_INFO | MT_TOUCH_DOWN => true
  | _ => false
  end.

(** The five objects of [video_get_info] as [handle_message] initialises
    them. *)
Definition zero_info : Video.VideoInfo :=
  {| Video.second_crtc := 0; Video.first_output := 0;
     Video.second_output := 0; Video.small_mode_id := 0;
     Video.large_mode_id := 0 |}.

(** The last buffer handed to [write]. *)
Definition last_written (s : state) : option (list Z) := last (written s).

(** The module once the example X server has initialised the screen. *)
Definition example_state : state :=
  set_video Video.example_state initial.

(** The same with a touchscreen under the id 2. *)
Definition example_touch : state :=
  match handle_message (io_of MT_CREATE_TOUCH 0 0 0 0 2) example_state with
  | Ok (_, s) => s
  | _ => example_state
  end.

(** The invariant of the running module: every device has the mask its
    type calls for, and the screen is initialised with the RandR objects
    [rc1], [out0] and [out1]. *)
Definition invariant (rc1 : Video.RRCrtc) (out0 out1 : Video.RROutput)
    (s : state) : Prop :=
  Input.masks_ok (input s) /\ Video.ready (video s) rc1 out0 out1.

(** The buffer that answers GetVideoInfo when the RandR objects are
    [rc1], [out0] and [out1]. *)
Definition video_info_reply (rc1 : Video.RRCrtc) (out0 out1 : Video.RROutput)
  : list Z :=
  words_of_GetVideoInfoReply
    (reply_of_info (tag MT_GET_VIDEO_INFO_REPLY)
       (fold_left Video.classify_mode (Video.modes out0)
          {| Video.second_crtc := Video.rr_crtc_id rc1;
             Video.first_output := Video.rr_output_id out0;
             Video.second_output := Video.rr_output_id out1;
             Video.small_mode_id := 0; Video.large_mode_id := 0 |})).

(** The two message types of a pair of opposite events. *)
Definition key_message (is_down : bool) : MessageType :=
  if is_down then MT_KEY_PRESS else MT_KEY_RELEASE.

Definition button_message (is_down : bool) : MessageType :=
  if is_down then MT_BUTTON_PRESS else MT_BUTTON_RELEASE.

(** The types that [handle_message] has a case for. *)
Definition is_request (t : MessageType) : bool :=
  match t with
  | MT_NONE | MT_CREATE_KEYBOARD_REPLY | MT_ENABLE_SECOND_MONITOR_REPLY
  | MT_GET_VIDEO_INFO_REPLY | MT_CREATE_MOUSE_REPLY | MT_CREATE_TOUCH_REPLY
  | MT_TOUCH_DOWN_REPLY => false
  | _ => true
  end.

(** The number of 32-bit words of the reply to a request. *)
Definition reply_words (t : MessageType) : nat :=
  match t with
  | MT_CREATE_KEYBOARD | MT_CREATE_MOUSE | MT_CREATE_TOUCH
  | MT_TOUCH_DOWN => 2
  | MT_ENABLE_SECOND_MONITOR => 5
  | MT_GET_VIDEO_INFO => 6
  | _ => 0
  end.

(** The type that a create message creates. *)
Definition created_type (t : MessageType) : option Input.DeviceType :=
  match t with
  | MT_CREATE_KEYBOARD => Some Input.TyKeyboard
  | MT_CREATE_MOUSE => Some Input.TyMouse
  | MT_CREATE_TOUCH => Some Input.TyTouch
  | _ => None
  end.

(** The number in the name of a creation request. *)
Definition name_number_of (c : Input.HostCall) : option Z :=
  match c with
  | Input.NewInputDeviceRequest _ _ n _ => Some n
  | _ => None
  end.

(** The numbers in the names of the devices requested so far, oldest
    first. *)
Definition name_numbers (s : state) : list Z :=
  omap name_number_of (Input.posted (input s)).

Definition is_creation (e : Event) : bool :=
  match e with
  | EvMessage io =>
      match message_type (type (message io)) with
      | Some t => bool_decide (is_Some (created_type t))
      | None => false
      end
  | EvUnInit _ => false
  end.

(** The number of create messages among the events. *)
Definition creations (es : list Event) : nat :=
  length (List.filter is_creation es).

(** States with the same creation counter and the same names requested. *)
Definition same_names : relation state :=
  fun s s' =>
    Input.next_input_id (input s') = Input.next_input_id (input s) /\
    name_numbers s' = name_numbers s.

End Main.

(** * Properties *)

(** ** The monad *)

Lemma bind_Ok {S A B} (c : M S A) (k : A -> M S B) s a s' :
  c s = Ok (a, s') -> bind c k s = k a s'.
Proof. intros H. unfold bind. now rewrite H. Qed.

Lemma bind_inv {S A B} (c : M S A) (k : A -> M S B) s r :
  bind c k s = Ok r -> exists a s', c s = Ok (a, s') /\ k a s' = Ok r.
Proof.
  unfold bind. destruct (c s) as [[a s']| |]; try discriminate.
  intros H. now exists a, s'.
Qed.

Lemma assert_inv {S} (b : bool) e (s : S) r :
  assert b e s = Ok r -> b = true /\ r = (tt, s).
Proof. destruct b; cbn; intros H; inversion H; auto. Qed.

Lemma lift_inv {S T A} (proj : S -> T) upd (c : M T A) s a s' :
  lift proj upd c s = Ok (a, s') ->
  exists t, c (proj s) = Ok (a, t) /\ s' = upd t s.
Proof.
  unfold lift. destruct (c (proj s)) as [[a' t]| |]; try discriminate.
  intros H. inversion H; subst. now exists t.
Qed.

(** ** Machine integers *)

Lemma wrap_i32_id z : is_i32 z -> wrap_i32 z = z.
Proof.
  unfold is_i32, wrap_i32. intros H.
  rewrite Z.mod_small; lia.
Qed.

Lemma wrap_u32_id z : is_u32 z -> wrap_u32 z = z.
Proof. unfold is_u32, wrap_u32. intros H. now apply Z.mod_small. Qed.

Lemma wrap_u32_range z : is_u32 (wrap_u32 z).
Proof. unfold is_u32, wrap_u32. apply Z.mod_pos_bound. lia. Qed.

Lemma wrap_i32_range z : is_i32 (wrap_i32 z).
Proof.
  unfold is_i32, wrap_i32.
  pose proof (Z.mod_pos_bound (z + 2 ^ 31) (2 ^ 32)). lia.
Qed.

(** ** What a computation leaves alone

    [keeps R c]: whenever [c] returns, the states before and after are
    related by [R]. For a preorder [R] this passes through [bind]. *)

Section Keeps.
Context {S : Type} (R : relation S) `{!Reflexive R} `{!Transitive R}.

Definition keeps {A} (c : M S A) : Prop :=
  forall s a s', c s = Ok (a, s') -> R s s'.

Lemma keeps_ret {A} (a : A) : keeps (ret a).
Proof. intros s a' s' [= _ <-]. reflexivity. Qed.

Lemma keeps_get : keeps get.
Proof. intros s a' s' [= _ <-]. reflexivity. Qed.

Lemma keeps_abort {A} e : keeps (abort e : M S A).
Proof. intros s a s' [=]. Qed.

Lemma keeps_null_deref {A} : keeps (null_deref : M S A).
Proof. intros s a s' [=]. Qed.

Lemma keeps_assert b e : keeps (assert b e).
Proof. destruct b; [apply keeps_ret|apply keeps_abort]. Qed.

Lemma keeps_modify f : (forall s, R s (f s)) -> keeps (modify f).
Proof. intros H s a s' [= _ <-]. apply H. Qed.

Lemma keeps_bind {A B} (c : M S A) (k : A -> M S B) :
  keeps c -> (forall a, keeps (k a)) -> keeps (bind c k).
Proof.
  intros Hc Hk s b s' (a & s1 & H1 & H2)%bind_inv.
  transitivity s1; [eapply Hc|eapply Hk]; eassumption.
Qed.
End Keeps.

(** Decompose a computation; [leaf] knows the parts that are not to be
    decomposed, [tac] proves that a state update is within the relation. *)
Ltac keeps_with leaf tac :=
  repeat first
    [ leaf
    | match goal with
      | |- Reflexive _ => tc_solve
      | |- Transitive _ => tc_solve
      end
    | apply keeps_bind
    | apply keeps_ret
    | apply keeps_get
    | apply keeps_abort
    | apply keeps_null_deref
    | apply keeps_assert
    | apply keeps_modify; intro; tac
    | match goal with
      | |- keeps _ (if ?b then _ else _) => destruct b
      | |- keeps _ (match ?x with _ => _ end) => destruct x
      | |- forall _, _ => intro
      end ].

(** ** Invariants *)

Section Wp.
Context {S : Type}.

Lemma wp_ret {A} (a : A) (Q : A -> S -> Prop) s : Q a s -> wp (ret a) Q s.
Proof. intros H. exact H. Qed.

Lemma wp_bind {A B} (c : M S A) (k : A -> M S B) (Q : B -> S -> Prop) s :
  wp c (fun a s' => wp (k a) Q s') s -> wp (bind c k) Q s.
Proof. unfold wp, bind. now destruct (c s) as [[a s']| |]. Qed.

Lemma wp_mono {A} (c : M S A) (Q Q' : A -> S -> Prop) s :
  wp c Q s -> (forall a s', Q a s' -> Q' a s') -> wp c Q' s.
Proof. unfold wp. destruct (c s) as [[a s']| |]; auto. Qed.

Lemma wp_Ok {A} (c : M S A) (Q : A -> S -> Prop) s a s' :
  wp c Q s -> c s = Ok (a, s') -> Q a s'.
Proof. unfold wp. intros H E. now rewrite E in H. Qed.


Lemma wp_lift {T A} (proj : S -> T) upd (c : M T A) (Q : A -> S -> Prop) s :
  wp c (fun a t => Q a (upd t s)) (proj s) -> wp (lift proj upd c) Q s.
Proof. unfold wp, lift. now destruct (c (proj s)) as [[a t]| |]. Qed.

Lemma preserves_ret {A} (I : S -> Prop) (a : A) : preserves I (ret a).
Proof. intros s H. exact H. Qed.

Lemma preserves_get (I : S -> Prop) : preserves I get.
Proof. intros s H. exact H. Qed.

Lemma preserves_abort {A} (I : S -> Prop) e : preserves I (abort e : M S A).
Proof. intros s H. exact Logic.I. Qed.

Lemma preserves_assert (I : S -> Prop) b e : preserves I (assert b e).
Proof. intros s H. now destruct b. Qed.

Lemma preserves_modify (I : S -> Prop) f :
  (forall s, I s -> I (f s)) -> preserves I (modify f).
Proof. intros Hf s H. now apply Hf. Qed.

Lemma preserves_bind {A B} (I : S -> Prop) (c : M S A) (k : A -> M S B) :
  preserves I c -> (forall a, preserves I (k a)) -> preserves I (bind c k).
Proof.
  intros Hc Hk s H. apply wp_bind.
  eapply wp_mono; [now apply Hc|]. intros a s' H'. now apply Hk.
Qed.
End Wp.

(** Decompose a computation as [keeps_with] does. *)
Ltac preserves_with leaf tac :=
  repeat first
    [ leaf
    | match goal with
      | |- preserves _ (bind _ _) => apply preserves_bind
      | |- preserves _ (ret _) => apply preserves_ret
      | |- preserves _ get => apply preserves_get
      | |- preserves _ (abort _) => apply preserves_abort
      | |- preserves _ (assert _ _) => apply preserves_assert
      | |- preserves _ (modify _) => apply preserves_modify; intros ? ?; tac
      | |- preserves _ (if ?b then _ else _) => destruct b
      | |- preserves _ (match ?x with _ => _ end) => destruct x
      | |- forall _, _ => intro
      end ].

(** ** input.c *)

Module InputFacts.
Import Input.

Lemma find_device_Some id l k p :
  find_device id l k = Some p ->
  exists d, l !! (p - k)%nat = Some d /\ wrap_u32 (dev_id d) = id /\ (k <= p)%nat.
Proof.
  revert k. induction l as [|d l IH]; intros k; cbn; [discriminate|].
  destruct (Z.eqb_spec (wrap_u32 (dev_id d)) id) as [E|E].
  - intros [= <-]. exists d. rewrite Nat.sub_diag. auto.
  - intros H. destruct (IH _ H) as (d' & Hl & Hid & Hle).
    exists d'. replace (p - k)%nat with (S (p - S k)) by lia.
    cbn. repeat split; auto; lia.
Qed.

Lemma find_device_None id l k :
  find_device id l k = None <->
  Forall (fun d => wrap_u32 (dev_id d) <> id) l.
Proof.
  revert k. induction l as [|d l IH]; intros k; cbn.
  - split; auto.
  - destruct (Z.eqb_spec (wrap_u32 (dev_id d)) id) as [E|E].
    + split; [discriminate|]. intros H. inversion H; subst. contradiction.
    + rewrite IH. split; intros H.
      * now constructor.
      * now inversion H.
Qed.

Lemma lookup_device_inv id s d :
  lookup_device id s = Some d ->
  exists p, find_device id (devices s) 0 = Some p /\ devices s !! p = Some d.
Proof.
  unfold lookup_device. destruct (find_device id (devices s) 0) as [p|];
    [|discriminate].
  intros H. now exists p.
Qed.

Lemma get_typed_ok t e id s d :
  lookup_device id s = Some d -> type d = t ->
  exists p, get_typed t e id s = Ok (p, s) /\
    find_device id (devices s) 0 = Some p /\ devices s !! p = Some d.
Proof.
  intros (p & Hf & Hp)%lookup_device_inv Ht. exists p. split; [|done].
  unfold get_typed, get_device, deref, bind, get. rewrite Hf. cbn.
  rewrite Hp. rewrite bool_decide_eq_true_2 by done. reflexivity.
Qed.

Lemma with_mask_lookup p d m s :
  (p < length (devices s))%nat ->
  devices (with_mask p d m s) !! p = Some (set_mask (Some m) d).
Proof. intros H. cbn. now apply list_lookup_insert_eq. Qed.

Lemma with_mask_twice p d m m' s :
  with_mask p (set_mask (Some m) d) m' (with_mask p d m s)
  = with_mask p d m' s.
Proof.
  unfold with_mask, set_devices. cbn. f_equal.
  apply list_insert_insert_eq.
Qed.

Lemma on_mask_ok p f s d m :
  devices s !! p = Some d -> mask d = Some m ->
  on_mask p f s = Ok (tt, with_mask p d (f m) s).
Proof. intros Hp Hm. unfold on_mask. now rewrite Hp, Hm. Qed.

Lemma on_mask_with_mask p f s d m :
  (p < length (devices s))%nat ->
  on_mask p f (with_mask p d m s) = Ok (tt, with_mask p d (f m) s).
Proof.
  intros Hp.
  rewrite (on_mask_ok p f _ (set_mask (Some m) d) m).
  - now rewrite with_mask_twice.
  - now apply with_mask_lookup.
  - reflexivity.
Qed.

Lemma dev_of_ok p s d :
  devices s !! p = Some d -> dev_of p s = Ok (dev_id d, s).
Proof. intros H. unfold dev_of, deref, bind. now rewrite H. Qed.

Lemma mask_of_ok p s d m :
  devices s !! p = Some d -> mask d = Some m -> mask_of p s = Ok (m, s).
Proof. intros H Hm. unfold mask_of, deref, bind. now rewrite H, Hm. Qed.

Lemma dev_of_with_mask p s d m :
  (p < length (devices s))%nat ->
  dev_of p (with_mask p d m s) = Ok (dev_id d, with_mask p d m s).
Proof.
  intros Hp. unfold dev_of, deref, bind.
  now rewrite with_mask_lookup.
Qed.

Lemma mask_of_with_mask p s d m :
  (p < length (devices s))%nat ->
  mask_of p (with_mask p d m s) = Ok (m, with_mask p d m s).
Proof.
  intros Hp. unfold mask_of, deref, bind.
  now rewrite with_mask_lookup.
Qed.

Lemma find_device_ext id l l' k :
  dev_id <$> l = dev_id <$> l' -> find_device id l k = find_device id l' k.
Proof.
  revert l' k. induction l as [|d l IH]; intros [|d' l'] k; cbn;
    try discriminate; auto.
  intros [= Hd Hl]. rewrite Hd. destruct (_ =? _); auto.
Qed.

Lemma dev_ids_with_mask p d m s :
  devices s !! p = Some d ->
  dev_id <$> devices (with_mask p d m s) = dev_id <$> devices s.
Proof.
  intros Hp. cbn. rewrite list_fmap_insert. cbn.
  apply list_insert_id. now rewrite list_lookup_fmap, Hp.
Qed.

Lemma lookup_device_with_mask id p d m s :
  find_device id (devices s) 0 = Some p -> devices s !! p = Some d ->
  lookup_device id (with_mask p d m s) = Some (set_mask (Some m) d).
Proof.
  intros Hf Hp. unfold lookup_device.
  rewrite (find_device_ext id _ (devices s)) by now apply dev_ids_with_mask.
  rewrite Hf. apply with_mask_lookup. now apply lookup_lt_Some in Hp.
Qed.

(** Handing over the mask: the tail shared by move, scroll and touch. *)
Lemma post_with_mask p s d m (c : Z -> ValuatorMask -> HostCall) :
  (p < length (devices s))%nat ->
  (let* dev := dev_of p in
   let* m' := mask_of p in
   modify (post (c dev m')))%M (with_mask p d m s)
  = Ok (tt, post (c (dev_id d) m) (with_mask p d m s)).
Proof.
  intros Hp. rewrite (bind_Ok _ _ _ _ _ (dev_of_with_mask p s d m Hp)).
  now rewrite (bind_Ok _ _ _ _ _ (mask_of_with_mask p s d m Hp)).
Qed.

Lemma input_mouse_move_ok s id d dx dy :
  is_device TyMouse s id d ->
  exists p,
    find_device id (devices s) 0 = Some p /\ devices s !! p = Some d /\
    input_mouse_move id dx dy s
    = Ok (tt, post (xf86PostMotionEventM (dev_id d) (move_mask dx dy))
                (with_mask p d (move_mask dx dy) s)).
Proof.
  intros (Hl & Ht & m0 & Hm).
  destruct (get_typed_ok TyMouse AssertTypeMouse id s d Hl Ht) as (p & Hg & Hf & Hp).
  exists p. do 2 (split; [done|]).
  assert (Hlt : (p < length (devices s))%nat) by now apply lookup_lt_Some in Hp.
  unfold input_mouse_move, get_mouse.
  rewrite (bind_Ok _ _ _ _ _ Hg).
  unfold valuator_mask_zero, valuator_mask_set_unaccelerated.
  rewrite (bind_Ok _ _ _ _ _ (on_mask_ok p _ s d m0 Hp Hm)).
  rewrite (bind_Ok _ _ _ _ _ (on_mask_with_mask p _ s d _ Hlt)).
  rewrite (bind_Ok _ _ _ _ _ (on_mask_with_mask p _ s d _ Hlt)).
  now apply post_with_mask.
Qed.

Lemma input_mouse_scroll_ok s id d dx dy :
  is_device TyMouse s id d ->
  exists p,
    find_device id (devices s) 0 = Some p /\ devices s !! p = Some d /\
    input_mouse_scroll id dx dy s
    = Ok (tt, post (xf86PostMotionEventM (dev_id d) (scroll_mask dx dy))
                (with_mask p d (scroll_mask dx dy) s)).
Proof.
  intros (Hl & Ht & m0 & Hm).
  destruct (get_typed_ok TyMouse AssertTypeMouse id s d Hl Ht) as (p & Hg & Hf & Hp).
  exists p. do 2 (split; [done|]).
  assert (Hlt : (p < length (devices s))%nat) by now apply lookup_lt_Some in Hp.
  unfold input_mouse_scroll, get_mouse.
  rewrite (bind_Ok _ _ _ _ _ Hg).
  unfold valuator_mask_zero, valuator_mask_set, scroll_mask.
  rewrite (bind_Ok _ _ _ _ _ (on_mask_ok p _ s d m0 Hp Hm)).
  destruct (dx =? 0); destruct (dy =? 0);
    repeat (first
      [ rewrite (bind_Ok _ _ _ _ _ (on_mask_with_mask p _ s d _ Hlt))
      | rewrite (bind_Ok (ret tt) _ _ tt _ eq_refl) ]);
    now apply post_with_mask.
Qed.

Lemma last_posted_post c s : last_posted (post c s) = Some c.
Proof. unfold last_posted. cbn. apply last_snoc. Qed.

(** C8. For a mouse device and any deltas, [input_mouse_move] makes
    exactly one more call to the X server, a motion event for that device.
    Its mask is the zeroed 4-slot mask with slot 0 set to the pair (dx, dx)
    and slot 1 set to the pair (dy, dy), both stored through the
    unaccelerated interface; slots 2 and 3 are not set. Whatever the mask
    held before the call is gone. *)
Theorem C8_mouse_move (s : state) (id : Z) (d : Device) (dx dy : Z) :
  is_device TyMouse s id d ->
  exists s' m,
    input_mouse_move id dx dy s = Ok (tt, s') /\
    posted s' = posted s ++ [xf86PostMotionEventM (dev_id d) m] /\
    m = mask_set_unaccelerated 1 dy dy
          (mask_set_unaccelerated 0 dx dx zero_mask) /\
    length (bits m) = 4%nat /\
    mask_get_pair m 0 = Some (dx, dx) /\
    mask_get_pair m 1 = Some (dy, dy) /\
    mask_isset m 2 = false /\
    mask_isset m 3 = false /\
    lookup_device id s' = Some (set_mask (Some m) d).
Proof.
  intros Hd.
  destruct (input_mouse_move_ok s id d dx dy Hd) as (p & Hf & Hp & ->).
  eexists _, _. split; [reflexivity|].
  split; [reflexivity|]. split; [reflexivity|].
  repeat split.
  exact (lookup_device_with_mask id p d _ s Hf Hp).
Qed.

Lemma C8_mouse_move_witness :
  exists s' m,
    input_mouse_move 2 (-3) 7 one_mouse = Ok (tt, s') /\
    posted s' = posted one_mouse ++ [xf86PostMotionEventM 2 m] /\
    mask_get_pair m 0 = Some (-3, -3) /\
    mask_get_pair m 1 = Some (7, 7) /\
    mask_isset m 2 = false /\
    mask_isset m 3 = false.
Proof.
  destruct (C8_mouse_move one_mouse 2 the_mouse (-3) 7)
    as (s' & m & H1 & H2 & H3 & H4 & H5 & H6 & H7 & H8 & H9).
  - repeat split. now exists zero_mask.
  - exists s', m. auto 10.
Defined.

Lemma scroll_mask_facts dx dy :
  let m := scroll_mask dx dy in
  length (bits m) = 4%nat /\
  mask_isset m 0 = false /\
  mask_isset m 1 = false /\
  (mask_isset m 2 = true <-> dx <> 0) /\
  (dx <> 0 -> mask_get m 2 = Some (wrap_i32 (dx * 120))) /\
  (mask_isset m 3 = true <-> dy <> 0) /\
  (dy <> 0 -> mask_get m 3 = Some (wrap_i32 (dy * 120))).
Proof.
  unfold scroll_mask.
  destruct (Z.eqb_spec dx 0) as [Ex|Ex], (Z.eqb_spec dy 0) as [Ey|Ey]; cbn;
    repeat split; intros; try done.
Qed.

(** C5 (amended). For a mouse device and deltas whose products with 120
    are [int32_t] values, [input_mouse_scroll] zeroes the 4-slot mask, sets
    slot 2 to [dx * 120] exactly when [dx] is not 0 and slot 3 to
    [dy * 120] exactly when [dy] is not 0, and delivers one motion
    event. The mask delivered is exactly the zeroed mask with these stores:
    it holds nothing of what the device's mask held before, no
    unaccelerated value among it, and it is the mask the device holds
    afterwards. *)
Theorem C5_mouse_scroll (s : state) (id : Z) (d : Device) (dx dy : Z) :
  is_device TyMouse s id d ->
  is_i32 (dx * 120) -> is_i32 (dy * 120) ->
  scroll_delivers s id d dx dy.
Proof.
  intros Hd Hx Hy. unfold scroll_delivers.
  destruct (input_mouse_scroll_ok s id d dx dy Hd) as (p & Hf & Hp & ->).
  destruct (scroll_mask_facts dx dy) as (F0 & F1 & F2 & F3 & F4 & F5 & F6).
  rewrite (wrap_i32_id _ Hx) in F4. rewrite (wrap_i32_id _ Hy) in F6.
  assert (Hu : has_unaccelerated (scroll_mask dx dy) = false /\
               unaccelerated (scroll_mask dx dy) = unaccelerated zero_mask).
  { unfold scroll_mask. destruct (dx =? 0), (dy =? 0); now split. }
  destruct Hu as [Hu1 Hu2].
  eexists _, _. split; [reflexivity|]. split; [reflexivity|].
  do 7 (split; [assumption|]).
  split.
  { unfold scroll_mask. now rewrite (wrap_i32_id _ Hx), (wrap_i32_id _ Hy). }
  split; [exact Hu1|]. split; [exact Hu2|]. split.
  { intros v. unfold mask_get_pair. rewrite Hu1. now rewrite andb_false_r. }
  exact (lookup_device_with_mask id p d _ s Hf Hp).
Qed.

Lemma C5_mouse_scroll_witness :
  scroll_delivers one_mouse 2 the_mouse 0 5 /\
  scroll_delivers one_mouse 2 the_mouse 0 0 /\
  scroll_delivers one_mouse_moved 2
    (set_mask (Some (move_mask 3 4)) the_mouse) 0 5.
Proof.
  split; [|split].
  - apply (C5_mouse_scroll one_mouse 2 the_mouse 0 5).
    + repeat split. now exists zero_mask.
    + unfold is_i32. lia.
    + unfold is_i32. lia.
  - apply (C5_mouse_scroll one_mouse 2 the_mouse 0 0).
    + repeat split. now exists zero_mask.
    + unfold is_i32. lia.
    + unfold is_i32. lia.
  - apply (C5_mouse_scroll one_mouse_moved 2
             (set_mask (Some (move_mask 3 4)) the_mouse) 0 5).
    + repeat split. now exists (move_mask 3 4).
    + unfold is_i32. lia.
    + unfold is_i32. lia.
Defined.

(** The two scenarios that C5 names: MouseScroll(0, 5) reports 600 in
    slot 3 and nothing in slot 2; MouseScroll(0, 0) reports neither. *)
Lemma scroll_0_5 :
  exists s' m,
    input_mouse_scroll 2 0 5 one_mouse = Ok (tt, s') /\
    last_posted s' = Some (xf86PostMotionEventM 2 m) /\
    mask_get m 3 = Some 600 /\ mask_get m 2 = None.
Proof. eexists _, _. repeat split. Qed.

(** C5 as stated fails: the deltas are [int32_t] values, and so are the
    products that the code stores. For dx = 17895698 the integer
    [dx * 120] is 2147483760, above the largest [int32_t]; slot 2 of the
    delivered mask holds another number. *)
Lemma C5_counterexample :
  is_device TyMouse one_mouse 2 the_mouse /\
  is_i32 17895698 /\ is_i32 0 /\
  ~ scroll_delivers one_mouse 2 the_mouse 17895698 0.
Proof.
  split; [repeat split; now exists zero_mask|].
  split; [unfold is_i32; lia|]. split; [unfold is_i32; lia|].
  intros (s' & m & Hrun & Hpost & _ & _ & _ & _ & Hget & _).
  vm_compute in Hrun. injection Hrun as <-.
  vm_compute in Hpost. injection Hpost as <-.
  specialize (Hget ltac:(lia)). vm_compute in Hget. discriminate.
Qed.

(** C10. MouseScroll(id, 0, 0) on a mouse device returns and makes exactly
    one more call to the X server, a motion event for that device whose
    mask is the zeroed mask: no valuator is set in it. *)
Theorem C10_scroll_zero_still_posts (s : state) (id : Z) (d : Device) :
  is_device TyMouse s id d ->
  exists s',
    input_mouse_scroll id 0 0 s = Ok (tt, s') /\
    posted s' = posted s ++ [xf86PostMotionEventM (dev_id d) zero_mask] /\
    length (posted s') = S (length (posted s)) /\
    (forall valuator, mask_isset zero_mask valuator = false) /\
    (forall valuator, mask_get zero_mask valuator = None).
Proof.
  intros Hd.
  destruct (input_mouse_scroll_ok s id d 0 0 Hd) as (p & Hf & Hp & ->).
  eexists. split; [reflexivity|]. split; [reflexivity|].
  split; [cbn; rewrite length_app; cbn; lia|].
  assert (H : forall valuator, mask_isset zero_mask valuator = false).
  { intros [|[|[|[|v]]]]; reflexivity. }
  split; [exact H|]. intros v. unfold mask_get. now rewrite H.
Qed.

Lemma C10_scroll_zero_still_posts_witness :
  exists s',
    input_mouse_scroll 2 0 0 one_mouse = Ok (tt, s') /\
    posted s' = posted one_mouse ++ [xf86PostMotionEventM 2 zero_mask].
Proof.
  destruct (C10_scroll_zero_still_posts one_mouse 2 the_mouse)
    as (s' & H1 & H2 & _).
  - repeat split. now exists zero_mask.
  - now exists s'.
Defined.

(** *** The touch counter *)

#[local] Instance same_TOUCH_ID_refl : Reflexive same_TOUCH_ID.
Proof. now intros s. Qed.

#[local] Instance same_TOUCH_ID_trans : Transitive same_TOUCH_ID.
Proof. unfold same_TOUCH_ID. intros s1 s2 s3 H1 H2. congruence. Qed.

Lemma keeps_deref R `{!Reflexive R} p : keeps R (deref p).
Proof.
  intros s a s'. unfold deref. destruct (_ !! _); intros [= _ <-]. reflexivity.
Qed.

Lemma keeps_on_mask p f : keeps same_TOUCH_ID (on_mask p f).
Proof.
  intros s a s'. unfold on_mask.
  destruct (_ !! _) as [d|]; [|discriminate].
  destruct (mask d); intros [= _ <-]. reflexivity.
Qed.

Ltac keeps_touch_leaf :=
  first [apply keeps_deref; tc_solve | apply keeps_on_mask].

Lemma keeps_get_typed t e id : keeps same_TOUCH_ID (get_typed t e id).
Proof.
  unfold get_typed, get_device.
  keeps_with keeps_touch_leaf ltac:(reflexivity).
Qed.

Lemma keeps_input_new h prefix : keeps same_TOUCH_ID (input_new h prefix).
Proof.
  unfold input_new, host_new_input_device, pre_init, device_control,
    init_mouse, init_touch, init_pointer.
  keeps_with keeps_touch_leaf ltac:(reflexivity).
Qed.

Ltac keeps_touch :=
  keeps_with
    ltac:(first [ keeps_touch_leaf | apply keeps_get_typed
                | apply keeps_input_new ])
    ltac:(reflexivity).

(** Every operation of winit.h other than [input_touch_down] leaves
    [TOUCH_ID] as it is. *)
Lemma keeps_others :
  (forall h, keeps same_TOUCH_ID (input_new_keyboard h)) /\
  (forall h, keeps same_TOUCH_ID (input_new_mouse h)) /\
  (forall h, keeps same_TOUCH_ID (input_new_touch h)) /\
  (forall id k, keeps same_TOUCH_ID (input_key_press id k)) /\
  (forall id k, keeps same_TOUCH_ID (input_key_release id k)) /\
  (forall id b, keeps same_TOUCH_ID (input_button_press id b)) /\
  (forall id b, keeps same_TOUCH_ID (input_button_release id b)) /\
  (forall id dx dy, keeps same_TOUCH_ID (input_mouse_move id dx dy)) /\
  (forall id dx dy, keeps same_TOUCH_ID (input_mouse_scroll id dx dy)) /\
  (forall id t, keeps same_TOUCH_ID (input_touch_up id t)) /\
  (forall id t x y, keeps same_TOUCH_ID (input_touch_move id t x y)) /\
  (forall id, keeps same_TOUCH_ID (input_remove_device id)) /\
  (forall p, keeps same_TOUCH_ID (un_init p)).
Proof.
  repeat split; intros;
    unfold input_new_keyboard, input_new_mouse, input_new_touch,
      input_key_press, input_key_release, input_button_press,
      input_button_release, input_mouse_move, input_mouse_scroll,
      input_touch_up, input_touch_move, input_remove_device, un_init,
      get_keyboard, get_mouse, get_touch, dev_of, mask_of,
      valuator_mask_zero, valuator_mask_set, valuator_mask_set_unaccelerated,
      get_device;
    keeps_touch.
Qed.

(** [input_touch_down] returns the counter and moves it on by one. *)
Lemma input_touch_down_counter id x y s touch_id s' :
  input_touch_down id x y s = Ok (touch_id, s') ->
  touch_id = TOUCH_ID s /\ TOUCH_ID s' = wrap_u32 (TOUCH_ID s + 1).
Proof.
  unfold input_touch_down.
  intros (p & s1 & H1 & Ha)%bind_inv.
  apply keeps_get_typed in H1.
  apply bind_inv in Ha as (? & s2 & H2 & Hb). apply keeps_on_mask in H2.
  apply bind_inv in Hb as (? & s3 & H3 & Hc). apply keeps_on_mask in H3.
  apply bind_inv in Hc as (? & s4 & H4 & Hd). apply keeps_on_mask in H4.
  apply bind_inv in Hd as (s5 & s5' & [= <- <-] & He).
  apply bind_inv in He as (? & s6 & [= <-] & Hf).
  apply bind_inv in Hf as (dev & s7 & H7 & Hg).
  apply bind_inv in Hg as (m & s8 & H8 & Hh).
  apply bind_inv in Hh as (? & s9 & [= <-] & [= <- <-]).
  assert (K7 : keeps same_TOUCH_ID (dev_of p)) by (unfold dev_of; keeps_touch).
  assert (K8 : keeps same_TOUCH_ID (mask_of p)) by (unfold mask_of; keeps_touch).
  apply K7 in H7. apply K8 in H8.
  unfold same_TOUCH_ID in *. subst s6 s9. cbn in *. split; congruence.
Qed.

(** On a touch device [input_touch_down] returns. *)
Lemma input_touch_down_ok s id d x y :
  is_device TyTouch s id d ->
  exists p,
    find_device id (devices s) 0 = Some p /\ devices s !! p = Some d /\
    input_touch_down id x y s
    = Ok (TOUCH_ID s,
          post (xf86PostTouchEvent (dev_id d) (TOUCH_ID s) XI_TouchBegin
                  (Some (touch_mask x y)))
            (set_TOUCH_ID (wrap_u32 (TOUCH_ID s + 1))
               (with_mask p d (touch_mask x y) s))).
Proof.
  intros (Hl & Ht & m0 & Hm).
  destruct (get_typed_ok TyTouch AssertTypeTouch id s d Hl Ht) as (p & Hg & Hf & Hp).
  exists p. do 2 (split; [done|]).
  assert (Hlt : (p < length (devices s))%nat) by now apply lookup_lt_Some in Hp.
  unfold input_touch_down, get_touch.
  rewrite (bind_Ok _ _ _ _ _ Hg).
  unfold valuator_mask_zero, valuator_mask_set.
  rewrite (bind_Ok _ _ _ _ _ (on_mask_ok p _ s d m0 Hp Hm)).
  rewrite (bind_Ok _ _ _ _ _ (on_mask_with_mask p _ s d _ Hlt)).
  rewrite (bind_Ok _ _ _ _ _ (on_mask_with_mask p _ s d _ Hlt)).
  fold (touch_mask x y).
  set (s4 := with_mask p d (touch_mask x y) s).
  set (s5 := set_TOUCH_ID (wrap_u32 (TOUCH_ID s + 1)) s4).
  assert (HL : devices s5 !! p = Some (set_mask (Some (touch_mask x y)) d))
    by exact (with_mask_lookup p d _ s Hlt).
  rewrite (bind_Ok get _ s4 s4 s4 eq_refl).
  rewrite (bind_Ok (modify _) _ s4 tt s5 eq_refl).
  rewrite (bind_Ok _ _ _ _ _ (dev_of_ok p _ _ HL)).
  rewrite (bind_Ok _ _ _ _ _ (mask_of_ok p _ _ _ HL eq_refl)).
  reflexivity.
Qed.

(** *** Removal *)

Lemma find_device_delete id l p :
  find_device id l 0 = Some p ->
  NoDup ((fun d => wrap_u32 (dev_id d)) <$> l) ->
  find_device id (delete p l) 0 = None.
Proof.
  intros Hf Hnd. apply find_device_None, Forall_lookup. intros i d' Hi Heq.
  apply find_device_Some in Hf as (d & Hp & Hid & _).
  rewrite Nat.sub_0_r in Hp.
  assert (Hj : exists j, j <> p /\ l !! j = Some d').
  { destruct (decide (i < p)%nat).
    - exists i. split; [lia|]. now rewrite list_lookup_delete_lt in Hi by lia.
    - exists (S i). split; [lia|]. rewrite list_lookup_delete_ge in Hi by lia.
      done. }
  destruct Hj as (j & Hne & Hj). apply Hne.
  eapply (NoDup_lookup _ j p (wrap_u32 (dev_id d'))); [exact Hnd| |].
  - now rewrite list_lookup_fmap, Hj.
  - rewrite list_lookup_fmap, Hp. cbn. now rewrite Hid, Heq.
Qed.

Lemma get_device_absent id s :
  find_device id (devices s) 0 = None ->
  get_device id s = AssertFail AssertDevice.
Proof. intros H. unfold get_device, bind, get. now rewrite H. Qed.

Lemma get_typed_absent t e id s :
  find_device id (devices s) 0 = None ->
  get_typed t e id s = AssertFail AssertDevice.
Proof.
  intros H. unfold get_typed, bind. now rewrite (get_device_absent _ _ H).
Qed.

(** C2 (amended). Let [id] be the id of a registered device, ids being
    unique. RemoveDevice(id) returns and only asks the X server to delete
    the device: the state it leaves is the one before with the call
    [DeleteInputDeviceRequest] for that device appended to the log, the
    list of devices untouched. Until the X server calls [un_init] the
    lookup of [id] therefore still succeeds, with the same node. Once
    [un_init] has unlinked the node (from within the request or later:
    the request is the last thing RemoveDevice does, so the state after
    both is the same), the lookup of [id] and every operation that begins
    with it fail the assertion of [get_device]: the process ends. No call
    returns an error value. *)
Theorem C2_lookup_after_remove (s : state) (id : Z) (p : nat) :
  find_device id (devices s) 0 = Some p ->
  NoDup ((fun d => wrap_u32 (dev_id d)) <$> devices s) ->
  exists d s1 s2,
    devices s !! p = Some d /\
    wrap_u32 (dev_id d) = id /\
    input_remove_device id s = Ok (tt, s1) /\
    s1 = post (DeleteInputDeviceRequest (dev_id d)) s /\
    posted s1 = posted s ++ [DeleteInputDeviceRequest (dev_id d)] /\
    devices s1 = devices s /\
    lookup_device id s1 = Some d /\
    get_device id s1 = Ok (p, s1) /\
    un_init p s1 = Ok (tt, s2) /\
    (input_remove_device id ;; un_init p)%M s = Ok (tt, s2) /\
    devices s2 = delete p (devices s) /\
    posted s2 = posted s1 /\
    lookup_device id s2 = None /\
    get_device id s2 = AssertFail AssertDevice /\
    (forall key, input_key_press id key s2 = AssertFail AssertDevice) /\
    (forall key, input_key_release id key s2 = AssertFail AssertDevice) /\
    (forall b, input_button_press id b s2 = AssertFail AssertDevice) /\
    (forall b, input_button_release id b s2 = AssertFail AssertDevice) /\
    (forall dx dy, input_mouse_move id dx dy s2 = AssertFail AssertDevice) /\
    (forall dx dy, input_mouse_scroll id dx dy s2 = AssertFail AssertDevice) /\
    (forall x y, input_touch_down id x y s2 = AssertFail AssertDevice) /\
    (forall t, input_touch_up id t s2 = AssertFail AssertDevice) /\
    (forall t x y, input_touch_move id t x y s2 = AssertFail AssertDevice) /\
    input_remove_device id s2 = AssertFail AssertDevice.
Proof.
  intros Hf Hnd.
  destruct (find_device_Some _ _ _ _ Hf) as (d & Hp & Hid & _).
  rewrite Nat.sub_0_r in Hp.
  exists d, (post (DeleteInputDeviceRequest (dev_id d)) s),
    (set_devices (fun l => delete p l)
       (post (DeleteInputDeviceRequest (dev_id d)) s)).
  assert (Hnone : find_device id (delete p (devices s)) 0 = None)
    by now apply find_device_delete.
  assert (Hrm : input_remove_device id s
                = Ok (tt, post (DeleteInputDeviceRequest (dev_id d)) s)).
  { unfold input_remove_device, dev_of, deref, get_device, bind, get.
    rewrite Hf. cbn. now rewrite Hp. }
  split; [exact Hp|]. split; [exact Hid|]. split; [exact Hrm|].
  do 3 (split; [reflexivity|]).
  split.
  { unfold lookup_device. cbn. now rewrite Hf. }
  split.
  { unfold get_device, bind, get. cbn. now rewrite Hf. }
  split; [reflexivity|].
  split; [now rewrite (bind_Ok _ _ _ _ _ Hrm)|].
  do 2 (split; [reflexivity|]).
  split.
  { unfold lookup_device. cbn. now rewrite Hnone. }
  split; [now apply get_device_absent|].
  repeat split; intros;
    unfold input_key_press, input_key_release, input_button_press,
      input_button_release, input_mouse_move, input_mouse_scroll,
      input_touch_down, input_touch_up, input_touch_move,
      input_remove_device, get_keyboard, get_mouse, get_touch, bind;
    first [ rewrite get_typed_absent by exact Hnone
          | rewrite get_device_absent by exact Hnone ];
    reflexivity.
Qed.

Lemma C2_lookup_after_remove_witness :
  exists s1 s2,
    input_remove_device 2 one_mouse = Ok (tt, s1) /\
    posted s1 = posted one_mouse ++ [DeleteInputDeviceRequest 2] /\
    lookup_device 2 s1 = Some the_mouse /\
    un_init 0 s1 = Ok (tt, s2) /\
    input_mouse_move 2 1 1 s2 = AssertFail AssertDevice.
Proof.
  destruct (C2_lookup_after_remove one_mouse 2 0) as (d & s1 & s2 & H).
  - reflexivity.
  - vm_compute. apply NoDup_cons. split; [apply not_elem_of_nil|apply NoDup_nil_2].
  - exists s1, s2.
    destruct H as (Hd & _ & H1 & _ & Hpost & _ & Hl & _ & H3 & _ & _ & _ & _
                   & _ & _ & _ & _ & _ & H9 & _).
    assert (Some d = Some the_mouse) as [= ->] by (now rewrite <- Hd).
    auto 10.
Defined.

(** C2 as stated fails: after RemoveDevice(2) and the teardown of the
    device, MouseMove on id 2 ends the process at the assertion of
    [get_device]; and before the teardown the lookup succeeds. Neither is
    an error that the caller could recover from. *)
Lemma C2_counterexample :
  let removed := (input_remove_device 2 ;; un_init 0)%M in
  is_fatal ((removed ;; input_mouse_move 2 1 1)%M one_mouse) /\
  (removed ;; get_device 2)%M one_mouse = AssertFail AssertDevice /\
  is_ok ((input_remove_device 2 ;; get_device 2)%M one_mouse).
Proof. vm_compute. auto. Qed.

End InputFacts.

(** ** video.c *)

Module VideoFacts.
Import Video.

Lemma to_bool_true v : to_bool v = true <-> v <> 0.
Proof. unfold to_bool. destruct (Z.eqb_spec v 0); cbn; split; try done. Qed.

Lemma screen_init_ready h rc1 out0 out1 :
  host_crtcs h !! 1%nat = Some rc1 ->
  host_outputs h !! 0%nat = Some out0 ->
  host_outputs h !! 1%nat = Some out1 ->
  exists s, screen_init h initial = Ok (true, s) /\ ready s rc1 out0 out1 /\
    connected_at s 0 = Some true /\ connected_at s 1 = Some false.
Proof.
  intros Hc H0 H1. eexists. split; [reflexivity|]. split.
  - unfold ready. cbn. eexists _, _, _, _, _.
    split; [by eexists|]. split; [reflexivity|]. cbn.
    rewrite Hc, H0, H1. auto 10.
  - split; reflexivity.
Qed.

Lemma video_connect_second_monitor_ok s rc1 out0 out1 enable :
  ready s rc1 out0 out1 ->
  exists s' scr,
    video_connect_second_monitor enable s = Ok (tt, s') /\
    ready s' rc1 out0 out1 /\
    screen s = Some scr /\
    notified s' = notified s
      ++ [RRSetChanged scr; xf86RandR12TellChanged scr; RRGetInfo scr true] /\
    outputs s' !! 0%nat = outputs s !! 0%nat /\
    connected_at s' 1 = Some (to_bool enable) /\
    mm_size_at s' 1 = Some (20, 20).
Proof.
  intros (o0 & o1 & c1 & x0 & x1 & [scr Hs] & Ho & Hc & Hrc & Hx0 & Hr0 & Hx1 & Hr1).
  destruct s as [sc outs nt]. cbn in *. subst sc outs.
  eexists _, scr.
  split.
  { unfold video_connect_second_monitor, driver_output, bind, get, modify.
    cbn. rewrite Hx1. reflexivity. }
  split.
  { unfold ready. cbn. eexists o0, _, c1, x0, _.
    split; [by eexists|]. split; [reflexivity|]. cbn. auto 10. }
  cbn. rewrite <- !app_assoc. auto.
Qed.

#[local] Instance same_output0_refl : Reflexive same_output0.
Proof. now intros s. Qed.

#[local] Instance same_output0_trans : Transitive same_output0.
Proof.
  unfold same_output0. intros s1 s2 s3 [H1 L1] [H2 L2]. split; congruence.
Qed.

Lemma keeps_driver_output R `{!Reflexive R} i : keeps R (driver_output i).
Proof.
  intros s a s'. unfold driver_output.
  destruct (_ !! _); intros [= _ <-]. reflexivity.
Qed.

Ltac keeps_video tac :=
  unfold crtc_id_of, randr_output_of, deref_opt;
  keeps_with ltac:(apply keeps_driver_output; tc_solve) tac.

(** [video_get_info] only reads [driver]. *)
Lemma video_get_info_reads r : keeps eq (video_get_info r).
Proof. unfold video_get_info. keeps_video ltac:(reflexivity). Qed.

(** [video_connect_second_monitor] writes to [driver.outputs[1]] only. *)
Lemma video_connect_second_monitor_output0 enable :
  keeps same_output0 (video_connect_second_monitor enable).
Proof.
  unfold video_connect_second_monitor.
  keeps_video ltac:(unfold same_output0; cbn;
                    first [ done
                          | split; [ now apply list_lookup_insert_ne
                                   | apply length_insert ] ]).
Qed.

Lemma video_get_info_ok s rc1 out0 out1 r :
  ready s rc1 out0 out1 ->
  video_get_info r s
  = Ok (fold_left classify_mode (modes out0)
          {| second_crtc := rr_crtc_id rc1;
             first_output := rr_output_id out0;
             second_output := rr_output_id out1;
             small_mode_id := small_mode_id r;
             large_mode_id := large_mode_id r |}, s).
Proof.
  intros (o0 & o1 & c1 & x0 & x1 & _ & Ho & Hc & Hrc & Hx0 & Hr0 & Hx1 & Hr1).
  unfold video_get_info, driver_output, crtc_id_of, randr_output_of, bind.
  rewrite Ho. cbn. rewrite Ho. cbn. rewrite Hc. cbn. rewrite Hrc. cbn.
  rewrite Hx0. cbn. rewrite Hr0. cbn. rewrite Hx1. cbn. rewrite Hr1.
  reflexivity.
Qed.

(** Whatever the order in which the X server lists the two modes of
    [pre_init], the 1024 wide one ends up as large and the 800 wide one as
    small. *)
Lemma classify_two ms a b r :
  Permutation ms [rr_mode_of mode1 a; rr_mode_of mode2 b] ->
  fold_left classify_mode ms r
  = {| second_crtc := second_crtc r; first_output := first_output r;
       second_output := second_output r;
       small_mode_id := b; large_mode_id := a |}.
Proof.
  intros H. symmetry in H.
  apply Permutation_length_2_inv in H as [-> | ->]; reflexivity.
Qed.

Lemma example_ready :
  ready example_state {| rr_crtc_id := 64 |}
    {| rr_output_id := 65;
       modes := [rr_mode_of mode1 67; rr_mode_of mode2 68] |}
    {| rr_output_id := 66;
       modes := [rr_mode_of mode1 67; rr_mode_of mode2 68] |}.
Proof.
  unfold ready. eexists _, _, _, _, _.
  split; [by eexists|]. cbn. auto 10.
Qed.

(** C9. On an initialised screen, [video_connect_second_monitor] returns
    for every value of [enable]; afterwards output 1 is connected exactly
    when [enable] is not 0, and its physical size is 20 x 20 mm whether it
    was connected or disconnected by the call. *)
Theorem C9_connect_second_monitor (s : state) rc1 out0 out1 (enable : Z) :
  ready s rc1 out0 out1 ->
  exists s',
    video_connect_second_monitor enable s = Ok (tt, s') /\
    (connected_at s' 1 = Some true <-> enable <> 0) /\
    (connected_at s' 1 = Some false <-> enable = 0) /\
    mm_size_at s' 1 = Some (20, 20).
Proof.
  intros Hr.
  destruct (video_connect_second_monitor_ok s rc1 out0 out1 enable Hr)
    as (s' & scr & Hrun & _ & _ & _ & _ & Hc & Hmm).
  exists s'. split; [done|]. rewrite Hc. split; [|split; [|done]].
  - rewrite <- to_bool_true. split; congruence.
  - pose proof (to_bool_true enable) as Ht.
    destruct (to_bool enable); split; intros H; try done.
    + destruct (proj1 Ht eq_refl H).
    + destruct (decide (enable = 0)); [done|].
      apply Ht in n. discriminate.
Qed.

Lemma C9_connect_second_monitor_witness :
  exists s',
    video_connect_second_monitor 2 example_state = Ok (tt, s') /\
    connected_at s' 1 = Some true /\
    mm_size_at s' 1 = Some (20, 20).
Proof.
  destruct (C9_connect_second_monitor example_state _ _ _ 2 example_ready)
    as (s' & H1 & H2 & _ & H4).
  exists s'. split; [done|]. split; [|done]. apply H2. lia.
Defined.

End VideoFacts.

(** ** main.c *)

Module MainFacts.
Import Main.

Lemma in_input_inv {A} (c : M Input.state A) s a s' :
  in_input c s = Ok (a, s') ->
  exists t, c (input s) = Ok (a, t) /\ s' = set_input t s.
Proof. apply lift_inv. Qed.

Lemma in_video_inv {A} (c : M Video.state A) s a s' :
  in_video c s = Ok (a, s') ->
  exists t, c (video s) = Ok (a, t) /\ s' = set_video t s.
Proof. apply lift_inv. Qed.

Lemma write_reply_inv io buf s r :
  write_reply io buf s = Ok r ->
  0 < write_ret io /\ r = (tt, add_written buf s).
Proof.
  unfold write_reply. intros (u & s1 & Hm & H)%bind_inv.
  injection Hm as _ <-.
  apply assert_inv in H as [Hw ->]. split; [lia|done].
Qed.

Lemma write_reply_ok io buf s :
  0 < write_ret io -> write_reply io buf s = Ok (tt, add_written buf s).
Proof.
  intros H. unfold write_reply, bind, modify, assert.
  destruct (Z.ltb_spec 0 (write_ret io)); [reflexivity|lia].
Qed.

Lemma write_reply_fail io buf s :
  write_ret io <= 0 -> write_reply io buf s = AssertFail AssertWrite.
Proof.
  intros H. unfold write_reply, bind, modify, assert.
  destruct (Z.ltb_spec 0 (write_ret io)); [lia|reflexivity].
Qed.

Lemma keeps_lift {S T A} (R : relation S) (RT : relation T)
    (proj : S -> T) upd (c : M T A) :
  keeps RT c -> (forall s t, RT (proj s) t -> R s (upd t s)) ->
  keeps R (lift proj upd c).
Proof.
  intros Hc Hup s a s' (t & H & ->)%lift_inv. eapply Hup, Hc, H.
Qed.

Lemma keeps_run (R : relation state) `{!Reflexive R} `{!Transitive R} es :
  Forall (fun e => keeps R (step e)) es -> keeps R (run es).
Proof.
  induction 1 as [|e es He _ IH]; cbn.
  - now apply keeps_ret.
  - apply keeps_bind; auto.
Qed.

(** *** Output 0 *)

#[local] Instance same_output0_refl : Reflexive same_output0.
Proof. now intros s. Qed.

#[local] Instance same_output0_trans : Transitive same_output0.
Proof.
  unfold same_output0. intros s1 s2 s3 H1 H2.
  eapply VideoFacts.same_output0_trans; eassumption.
Qed.

Lemma in_input_output0 {A} (c : M Input.state A) :
  keeps same_output0 (in_input c).
Proof. intros s a s' (t & _ & ->)%in_input_inv. now split. Qed.

Lemma in_video_output0 {A} (c : M Video.state A) :
  keeps Video.same_output0 c -> keeps same_output0 (in_video c).
Proof. intros Hc s a s' (t & H & ->)%in_video_inv. exact (Hc _ _ _ H). Qed.

Lemma video_get_info_output0 r :
  keeps Video.same_output0 (Video.video_get_info r).
Proof.
  intros s a s' H. apply VideoFacts.video_get_info_reads in H as ->.
  now split.
Qed.

Lemma write_reply_output0 io buf : keeps same_output0 (write_reply io buf).
Proof. intros s a s' [_ [= _ ->]]%write_reply_inv. now split. Qed.

Ltac output0_leaf :=
  first
    [ apply in_input_output0
    | apply write_reply_output0
    | apply in_video_output0;
      first [ apply video_get_info_output0
            | apply VideoFacts.video_connect_second_monitor_output0 ] ].

(** No message and no teardown touches [driver.outputs[0]]. *)
Lemma step_output0 e : keeps same_output0 (step e).
Proof.
  destruct e as [io|p]; cbn; [|apply in_input_output0].
  unfold handle_message.
  keeps_with output0_leaf ltac:(reflexivity).
Qed.

(** C6. In every state that the process reaches once the screen is
    initialised, output 0 is connected: [screen_init] sets its flag, and no
    message that is handled and no teardown writes [driver.outputs[0]]
    afterwards. There are two outputs throughout, so output 1 is the only
    one whose flag is ever written after initialisation. *)
Theorem C6_output0_connected (s : state) :
  reachable s ->
  Video.connected_at (video s) 0 = Some true /\
  length (Video.outputs (video s)) = 2%nat /\
  (forall e s',
     step e s = Ok (tt, s') ->
     Video.outputs (video s') !! 0%nat = Video.outputs (video s) !! 0%nat).
Proof.
  intros (h & es & s0 & Hs & Hrun).
  assert (H0 : Video.connected_at (video s0) 0 = Some true
               /\ length (Video.outputs (video s0)) = 2%nat).
  { vm_compute in Hs. injection Hs as <-. split; reflexivity. }
  assert (K : same_output0 s0 s).
  { eapply (keeps_run same_output0); [|exact Hrun].
    apply Forall_forall. intros e _. apply step_output0. }
  destruct K as [K L], H0 as [H0 L0]. unfold Video.connected_at in *.
  split; [now rewrite K|]. split; [now rewrite L|].
  intros e s' He. now destruct (step_output0 e s tt s' He).
Qed.

Lemma C6_output0_connected_witness :
  exists s,
    run [ EvMessage (io_of MT_ENABLE_SECOND_MONITOR 1 0 0 0 0);
          EvMessage (io_of MT_ENABLE_SECOND_MONITOR 0 0 0 0 0) ]
      example_state = Ok (tt, s) /\
    Video.connected_at (video s) 0 = Some true /\
    Video.connected_at (video s) 1 = Some false.
Proof.
  eexists. split; [vm_compute; reflexivity|]. split; [|reflexivity].
  refine (proj1 (C6_output0_connected _ _)).
  exists Video.example_host,
    [ EvMessage (io_of MT_ENABLE_SECOND_MONITOR 1 0 0 0 0);
      EvMessage (io_of MT_ENABLE_SECOND_MONITOR 0 0 0 0 0) ],
    example_state.
  split; vm_compute; reflexivity.
Defined.

(** *** Touch contact ids *)

#[local] Instance same_touch_refl : Reflexive same_touch.
Proof. now intros s. Qed.

#[local] Instance same_touch_trans : Transitive same_touch.
Proof.
  unfold same_touch. intros s1 s2 s3 [H1 L1] [H2 L2]. split; congruence.
Qed.

Lemma in_input_touch {A} (c : M Input.state A) :
  keeps Input.same_TOUCH_ID c -> keeps same_touch (in_input c).
Proof.
  intros Hc s a s' (t & H & ->)%in_input_inv. split; [|reflexivity].
  exact (Hc _ _ _ H).
Qed.

Lemma in_video_touch {A} (c : M Video.state A) : keeps same_touch (in_video c).
Proof. intros s a s' (t & _ & ->)%in_video_inv. now split. Qed.

Lemma touch_ids_add_written buf s :
  touch_ids (add_written buf s)
  = touch_ids s ++ match touch_id_of buf with Some i => [i] | None => [] end.
Proof.
  unfold touch_ids. cbn. rewrite omap_app. cbn.
  now destruct (touch_id_of buf).
Qed.

Lemma write_reply_touch io buf :
  touch_id_of buf = None -> keeps same_touch (write_reply io buf).
Proof.
  intros Hb s a s' [_ [= _ ->]]%write_reply_inv. split; [reflexivity|].
  rewrite touch_ids_add_written, Hb. apply app_nil_r.
Qed.

(** Every event other than a TouchDown message leaves the counter and
    the ids sent alone. *)
Lemma step_other e : is_touch_down e = false -> keeps same_touch (step e).
Proof.
  destruct InputFacts.keeps_others
    as (K1 & K2 & K3 & K4 & K5 & K6 & K7 & K8 & K9 & K10 & K11 & K12 & K13).
  destruct e as [io|p]; cbn; intros Hn; [|now apply in_input_touch].
  apply bool_decide_eq_false in Hn.
  unfold handle_message.
  destruct (message_type (type (message io))) as [[]|];
    try (destruct Hn; reflexivity);
    keeps_with
      ltac:(first [ apply in_input_touch; solve [auto]
                  | apply in_video_touch
                  | apply write_reply_touch; reflexivity ])
      ltac:(reflexivity).
Qed.

(** A TouchDown message sends back the counter and moves it on by one. *)
Lemma step_touch_down e s s' :
  is_touch_down e = true -> step e s = Ok (tt, s') ->
  touch_ids s' = touch_ids s ++ [Input.TOUCH_ID (input s)] /\
  Input.TOUCH_ID (input s') = wrap_u32 (Input.TOUCH_ID (input s) + 1).
Proof.
  destruct e as [io|p]; cbn; [|discriminate].
  intros Hd%bool_decide_eq_true. unfold handle_message. rewrite Hd.
  intros (u & s1 & Ha & H)%bind_inv.
  apply assert_inv in Ha as [_ [= _ <-]].
  apply bind_inv in H as (touch_id & s2 & Hin & Hw).
  apply in_input_inv in Hin as (t & Hin & ->).
  apply InputFacts.input_touch_down_counter in Hin as [-> Hc].
  apply write_reply_inv in Hw as [_ [= ->]].
  split; [|exact Hc].
  now rewrite touch_ids_add_written.
Qed.

Lemma touch_downs_cons e es :
  touch_downs (e :: es)
  = if is_touch_down e then S (touch_downs es) else touch_downs es.
Proof. unfold touch_downs. cbn. now destruct (is_touch_down e). Qed.

Lemma wrap_u32_succ c k :
  wrap_u32 (wrap_u32 (c + 1) + k) = wrap_u32 (c + (1 + k)).
Proof.
  unfold wrap_u32. rewrite Zplus_mod_idemp_l. f_equal. lia.
Qed.

(** The ids sent during a run: the counter at its start, and on from
    there by one per TouchDown, modulo 2^32. *)
Lemma run_touch es : forall s s',
  is_u32 (Input.TOUCH_ID (input s)) ->
  run es s = Ok (tt, s') ->
  touch_ids s'
  = touch_ids s
    ++ ((fun k : nat => wrap_u32 (Input.TOUCH_ID (input s) + Z.of_nat k))
          <$> seq 0 (touch_downs es)) /\
  Input.TOUCH_ID (input s')
  = wrap_u32 (Input.TOUCH_ID (input s) + Z.of_nat (touch_downs es)).
Proof.
  induction es as [|e es IH]; intros s s' Hu.
  - intros [= <-]. cbn. rewrite app_nil_r, Z.add_0_r, wrap_u32_id; auto.
  - cbn [run]. intros ([] & s1 & He & Hrun)%bind_inv.
    rewrite touch_downs_cons. destruct (is_touch_down e) eqn:Ed.
    + destruct (step_touch_down e s s1 Ed He) as [Hi Hc].
      destruct (IH s1 s') as [IHi IHc]; auto.
      { rewrite Hc. apply wrap_u32_range. }
      rewrite IHi, IHc, Hi, Hc. split.
      * rewrite <- app_assoc. f_equal. cbn [seq fmap list_fmap app].
        change (Z.of_nat 0) with 0.
        rewrite Z.add_0_r. rewrite (wrap_u32_id _ Hu). f_equal.
        rewrite <- fmap_S_seq, <- list_fmap_compose.
        apply list_fmap_ext. intros i k _. cbn.
        rewrite wrap_u32_succ. f_equal. lia.
      * rewrite wrap_u32_succ. f_equal. lia.
    + destruct (step_other e Ed s tt s1 He) as [Hc Hi].
      destruct (IH s1 s') as [IHi IHc]; auto.
      { now rewrite Hc. }
      rewrite IHi, IHc, Hi, Hc. auto.
Qed.

Lemma increasing_seq n : increasing (Z.of_nat <$> seq 1 n).
Proof.
  intros i j x y Hij Hi Hj.
  rewrite list_lookup_fmap in Hi, Hj.
  destruct (seq 1 n !! i) as [a|] eqn:Ea; [|discriminate].
  destruct (seq 1 n !! j) as [b|] eqn:Eb; [|discriminate].
  apply lookup_seq in Ea as [-> _]. apply lookup_seq in Eb as [-> _].
  cbn in Hi, Hj. injection Hi as <-. injection Hj as <-. lia.
Qed.

(** From the start of the process: the k-th id sent is k modulo 2^32. *)
Lemma touch_ids_from_start (v : Video.state) (es : list Event) (s : state) :
  run es (set_video v initial) = Ok (tt, s) ->
  touch_ids s
  = (fun k : nat => wrap_u32 (Z.of_nat k)) <$> seq 1 (touch_downs es) /\
  Input.TOUCH_ID (input s) = wrap_u32 (1 + Z.of_nat (touch_downs es)).
Proof.
  intros Hrun.
  destruct (run_touch es (set_video v initial) s) as [Hi Hc];
    [unfold is_u32; cbn; lia|exact Hrun|].
  cbn in Hi, Hc. split; [|exact Hc].
  rewrite Hi, <- fmap_S_seq, <- list_fmap_compose.
  apply list_fmap_ext. intros i k _. cbn [compose]. f_equal. lia.
Qed.

(** C4 (amended). From the start of the process, whatever events are
    handled, on whatever devices: the k-th TouchDown that is answered is
    answered with k modulo 2^32, the counter being one [uint32_t] for all
    touch devices that starts at 1 and is incremented once per
    [input_touch_down]. As long as fewer than 2^32 TouchDowns were handled
    the ids are exactly 1, 2, 3, ... and strictly increasing. *)
Theorem C4_touch_ids (v : Video.state) (es : list Event) (s : state) :
  run es (set_video v initial) = Ok (tt, s) ->
  Input.TOUCH_ID Input.initial = 1 /\
  touch_ids s
  = (fun k : nat => wrap_u32 (Z.of_nat k)) <$> seq 1 (touch_downs es) /\
  Input.TOUCH_ID (input s) = wrap_u32 (1 + Z.of_nat (touch_downs es)) /\
  (Z.of_nat (touch_downs es) < 2 ^ 32 ->
   touch_ids s = Z.of_nat <$> seq 1 (touch_downs es) /\
   increasing (touch_ids s)).
Proof.
  intros Hrun. split; [reflexivity|].
  destruct (touch_ids_from_start v es s Hrun) as [Hids Hc].
  split; [exact Hids|]. split; [exact Hc|].
  intros Hn.
  assert (Hex : touch_ids s = Z.of_nat <$> seq 1 (touch_downs es)).
  { rewrite Hids. apply list_fmap_ext. intros i k [-> Hk]%lookup_seq.
    apply wrap_u32_id. unfold is_u32. lia. }
  split; [exact Hex|]. rewrite Hex. apply increasing_seq.
Qed.

Lemma C4_touch_ids_witness :
  exists s,
    run [ EvMessage (io_of MT_CREATE_TOUCH 0 0 0 0 2);
          EvMessage (io_of MT_CREATE_TOUCH 0 0 0 0 3);
          EvMessage (io_of MT_TOUCH_DOWN 2 10 20 0 0);
          EvMessage (io_of MT_TOUCH_DOWN 3 30 40 0 0);
          EvMessage (io_of MT_TOUCH_DOWN 2 50 60 0 0) ]
      example_state = Ok (tt, s) /\
    touch_ids s = [1; 2; 3].
Proof.
  eexists. split; [vm_compute; reflexivity|].
  refine (proj1 (proj2 (C4_touch_ids Video.example_state
    [ EvMessage (io_of MT_CREATE_TOUCH 0 0 0 0 2);
      EvMessage (io_of MT_CREATE_TOUCH 0 0 0 0 3);
      EvMessage (io_of MT_TOUCH_DOWN 2 10 20 0 0);
      EvMessage (io_of MT_TOUCH_DOWN 3 30 40 0 0);
      EvMessage (io_of MT_TOUCH_DOWN 2 50 60 0 0) ] _ _))).
  vm_compute. reflexivity.
Defined.

(** *** A long run of TouchDowns *)

Lemma handle_touch_down_2 s d :
  Input.is_device Input.TyTouch (input s) 2 d ->
  exists s' d',
    step touch_down_2 s = Ok (tt, s') /\
    Input.is_device Input.TyTouch (input s') 2 d'.
Proof.
  intros Hd.
  destruct (InputFacts.input_touch_down_ok (input s) 2 d 10 20 Hd)
    as (p & Hf & Hp & Hrun).
  eexists _, (Input.set_mask (Some (Input.touch_mask 10 20)) d). split.
  - unfold step, touch_down_2, handle_message.
    cbn [read_ret message write_ret type].
    rewrite (bind_Ok (assert _ _) _ s tt s) by reflexivity.
    change (message_type (tag MT_TOUCH_DOWN)) with (Some MT_TOUCH_DOWN).
    cbv iota beta.
    match type of Hrun with _ = Ok (_, ?t) => set (t' := t) in * end.
    assert (Hin : in_input
              (Input.input_touch_down
                 (touch_down_id {| type := tag MT_TOUCH_DOWN; word1 := 2;
                                   word2 := 10; word3 := 20; word4 := 0 |})
                 (touch_down_x {| type := tag MT_TOUCH_DOWN; word1 := 2;
                                  word2 := 10; word3 := 20; word4 := 0 |})
                 (touch_down_y {| type := tag MT_TOUCH_DOWN; word1 := 2;
                                  word2 := 10; word3 := 20; word4 := 0 |})) s
            = Ok (Input.TOUCH_ID (input s), set_input t' s)).
    { unfold in_input, lift.
      change (Input.input_touch_down _ _ _ (input s))
        with (Input.input_touch_down 2 10 20 (input s)).
      rewrite Hrun. reflexivity. }
    rewrite (bind_Ok _ _ _ _ _ Hin).
    apply write_reply_ok. reflexivity.
  - destruct Hd as (Hl & Ht & Hm).
    split; [|split; [exact Ht|by eexists]].
    exact (InputFacts.lookup_device_with_mask 2 p d _ (input s) Hf Hp).
Qed.

Lemma run_touch_downs n : forall s d,
  Input.is_device Input.TyTouch (input s) 2 d ->
  exists s', run (replicate n touch_down_2) s = Ok (tt, s').
Proof.
  induction n as [|n IH]; intros s d Hd.
  - now exists s.
  - destruct (handle_touch_down_2 s d Hd) as (s1 & d1 & H1 & Hd1).
    destruct (IH s1 d1 Hd1) as (s' & Hrun).
    exists s'. cbn [replicate run].
    now rewrite (bind_Ok _ _ _ _ _ H1).
Qed.

Lemma touch_downs_replicate n : touch_downs (replicate n touch_down_2) = n.
Proof.
  induction n as [|n IH]; [reflexivity|].
  cbn [replicate]. rewrite touch_downs_cons, IH. reflexivity.
Qed.

(** A touchscreen is created and [N] TouchDowns are answered. *)
Lemma long_run (N : nat) :
  exists s,
    run (EvMessage (io_of MT_CREATE_TOUCH 0 0 0 0 2)
           :: replicate N touch_down_2) example_state = Ok (tt, s) /\
    forall k : nat, (k < N)%nat ->
      touch_ids s !! k = Some (wrap_u32 (1 + Z.of_nat k)).
Proof.
  assert (Hcreate : step (EvMessage (io_of MT_CREATE_TOUCH 0 0 0 0 2))
                      example_state = Ok (tt, example_touch))
    by (vm_compute; reflexivity).
  assert (Hd : Input.is_device Input.TyTouch (input example_touch) 2
                 {| Input.type := Input.TyTouch; Input.dev_id := 2;
                    Input.mask := Some Input.zero_mask |}).
  { split; [vm_compute; reflexivity|]. split; [reflexivity|by eexists]. }
  destruct (run_touch_downs N example_touch _ Hd) as (s & Hrun).
  assert (Hall : run (EvMessage (io_of MT_CREATE_TOUCH 0 0 0 0 2)
                        :: replicate N touch_down_2) example_state
                 = Ok (tt, s)).
  { cbn [run]. now rewrite (bind_Ok _ _ _ _ _ Hcreate). }
  exists s. split; [exact Hall|].
  destruct (touch_ids_from_start Video.example_state _ s Hall) as (Hids & _).
  rewrite touch_downs_cons in Hids.
  replace (is_touch_down (EvMessage (io_of MT_CREATE_TOUCH 0 0 0 0 2)))
    with false in Hids by (vm_compute; reflexivity).
  rewrite touch_downs_replicate in Hids.
  intros k Hk. rewrite Hids, list_lookup_fmap, lookup_seq_lt by exact Hk.
  cbn [fmap option_fmap option_map]. do 2 f_equal. lia.
Qed.

Lemma wrapped_ids (N i j : nat) (ids : list Z) :
  Z.of_nat N = 4294967296 -> Z.of_nat i = 4294967294 ->
  Z.of_nat j = 4294967295 ->
  (forall k : nat, (k < N)%nat ->
     ids !! k = Some (wrap_u32 (1 + Z.of_nat k))) ->
  ids !! i = Some 4294967295 /\ ids !! j = Some 0 /\ ~ increasing ids.
Proof.
  intros HN Hi Hj Hat.
  assert (Hi' : ids !! i = Some 4294967295).
  { rewrite Hat by lia. rewrite Hi. reflexivity. }
  assert (Hj' : ids !! j = Some 0).
  { rewrite Hat by lia. rewrite Hj. reflexivity. }
  split; [exact Hi'|]. split; [exact Hj'|].
  intros Hinc. specialize (Hinc i j _ _ ltac:(lia) Hi' Hj'). lia.
Qed.

(** C4 as stated fails: the counter is a [uint32_t]. After a touchscreen
    is created and 2^32 = 4294967296 TouchDowns are answered, the last two
    ids sent are 2^32 - 1 and then 0: the ids are neither 1, 2, 3, ...
    throughout nor strictly increasing for as long as the process lives. *)
Lemma C4_counterexample :
  exists s,
    run (EvMessage (io_of MT_CREATE_TOUCH 0 0 0 0 2)
           :: replicate (Z.to_nat 4294967296) touch_down_2)
      example_state = Ok (tt, s) /\
    touch_ids s !! Z.to_nat 4294967294 = Some 4294967295 /\
    touch_ids s !! Z.to_nat 4294967295 = Some 0 /\
    ~ increasing (touch_ids s).
Proof.
  destruct (long_run (Z.to_nat 4294967296)) as (s & Hall & Hat).
  exists s. split; [exact Hall|].
  apply (wrapped_ids (Z.to_nat 4294967296) (Z.to_nat 4294967294)
           (Z.to_nat 4294967295) (touch_ids s)).
  - apply Z2Nat.id. discriminate.
  - apply Z2Nat.id. discriminate.
  - apply Z2Nat.id. discriminate.
  - exact Hat.
Qed.

(** *** GetVideoInfo *)

Lemma handle_get_video_info s io rc1 out0 out1 :
  Video.ready (video s) rc1 out0 out1 ->
  message_type (type (message io)) = Some MT_GET_VIDEO_INFO ->
  0 < read_ret io -> 0 < write_ret io ->
  exists i,
    Video.video_get_info zero_info (video s) = Ok (i, video s) /\
    i = fold_left Video.classify_mode (Video.modes out0)
          {| Video.second_crtc := Video.rr_crtc_id rc1;
             Video.first_output := Video.rr_output_id out0;
             Video.second_output := Video.rr_output_id out1;
             Video.small_mode_id := 0; Video.large_mode_id := 0 |} /\
    handle_message io s
    = Ok (tt, add_written
                [ tag MT_GET_VIDEO_INFO_REPLY;
                  Video.second_crtc i; Video.second_output i;
                  Video.first_output i; Video.large_mode_id i;
                  Video.small_mode_id i ] s).
Proof.
  intros Hr Ht Hread Hwrite.
  pose proof (VideoFacts.video_get_info_ok _ _ _ _ zero_info Hr) as Hinfo.
  eexists. split; [exact Hinfo|]. split; [reflexivity|].
  unfold handle_message, assert.
  destruct (Z.ltb_spec 0 (read_ret io)); [|lia].
  rewrite (bind_Ok (ret tt) _ s tt s eq_refl). rewrite Ht. cbv iota beta.
  match type of Hinfo with _ = Ok (?i, _) => set (i0 := i) in * end.
  assert (Hin : in_video (Video.video_get_info zero_info) s = Ok (i0, s)).
  { unfold in_video, lift. rewrite Hinfo. now destruct s. }
  unfold info_of_reply. cbn [gvr_second_crtc gvr_first_output
    gvr_second_output gvr_small_mode_id gvr_large_mode_id gvr_type].
  fold zero_info. rewrite (bind_Ok _ _ _ _ _ Hin).
  now apply write_reply_ok.
Qed.

(** C1 (amended). On an initialised screen a GetVideoInfo request that is
    read and answered makes exactly one [write]: of the reply tag (9)
    followed by the five identifiers in the order in which
    [GetVideoInfoReply] declares them, which is second_crtc,
    second_output, first_output, large_mode_id, small_mode_id. *)
Theorem C1_video_info_reply (s : state) (io : Io) rc1 out0 out1 :
  Video.ready (video s) rc1 out0 out1 ->
  message_type (type (message io)) = Some MT_GET_VIDEO_INFO ->
  0 < read_ret io -> 0 < write_ret io ->
  exists i s',
    Video.video_get_info zero_info (video s) = Ok (i, video s) /\
    Video.second_crtc i = Video.rr_crtc_id rc1 /\
    Video.first_output i = Video.rr_output_id out0 /\
    Video.second_output i = Video.rr_output_id out1 /\
    handle_message io s = Ok (tt, s') /\
    written s'
    = written s
      ++ [[ 9; Video.second_crtc i; Video.second_output i;
            Video.first_output i; Video.large_mode_id i;
            Video.small_mode_id i ]].
Proof.
  intros Hr Ht Hread Hwrite.
  destruct (handle_get_video_info s io rc1 out0 out1 Hr Ht Hread Hwrite)
    as (i & Hinfo & Hi & Hrun).
  exists i. eexists. split; [exact Hinfo|].
  assert (Hfold : forall ms r,
    Video.second_crtc (fold_left Video.classify_mode ms r)
      = Video.second_crtc r /\
    Video.first_output (fold_left Video.classify_mode ms r)
      = Video.first_output r /\
    Video.second_output (fold_left Video.classify_mode ms r)
      = Video.second_output r).
  { induction ms as [|m ms IH]; intros r; [done|].
    cbn [fold_left]. destruct (IH (Video.classify_mode r m)) as (-> & -> & ->).
    unfold Video.classify_mode. now destruct (_ =? _). }
  rewrite Hi at 1 2 3. destruct (Hfold (Video.modes out0)
    {| Video.second_crtc := Video.rr_crtc_id rc1;
       Video.first_output := Video.rr_output_id out0;
       Video.second_output := Video.rr_output_id out1;
       Video.small_mode_id := 0; Video.large_mode_id := 0 |})
    as (-> & -> & ->).
  do 3 (split; [reflexivity|]).
  split; [exact Hrun|]. reflexivity.
Qed.

Lemma C1_video_info_reply_witness :
  exists s',
    handle_message (io_of MT_GET_VIDEO_INFO 0 0 0 0 0) example_state
    = Ok (tt, s') /\
    written s' = [[9; 64; 66; 65; 67; 68]].
Proof.
  destruct (C1_video_info_reply example_state
              (io_of MT_GET_VIDEO_INFO 0 0 0 0 0) _ _ _
              VideoFacts.example_ready eq_refl eq_refl eq_refl)
    as (i & s' & Hinfo & _ & _ & _ & Hrun & Hw).
  exists s'. split; [exact Hrun|].
  vm_compute in Hinfo. injection Hinfo as <-. exact Hw.
Defined.

(** C1 as stated fails: with the identifiers second_crtc = 64,
    first_output = 65, second_output = 66, small_mode_id = 68 and
    large_mode_id = 67, the words written are 9, 64, 66, 65, 67, 68 and not
    9, 64, 65, 66, 68, 67. *)
Lemma C1_counterexample :
  exists i s',
    Video.video_get_info zero_info (video example_state)
    = Ok (i, video example_state) /\
    handle_message (io_of MT_GET_VIDEO_INFO 0 0 0 0 0) example_state
    = Ok (tt, s') /\
    last_written s'
    <> Some [ 9; Video.second_crtc i; Video.first_output i;
              Video.second_output i; Video.small_mode_id i;
              Video.large_mode_id i ] /\
    last_written s' = Some [9; 64; 66; 65; 67; 68].
Proof.
  eexists _, _. split; [vm_compute; reflexivity|].
  split; [vm_compute; reflexivity|].
  split; [|reflexivity]. vm_compute. discriminate.
Qed.

(** C7. [video_get_info] classifies a mode by its width: a mode that is
    1024 wide is stored as large_mode_id, any other as small_mode_id. With
    the two modes of [pre_init] on output 0, in whichever order and under
    identifiers [a] (1024x768) and [b] (800x600), the reply carries [a] as
    large and [b] as small; and two GetVideoInfo requests in a row are
    answered with the same buffer. *)
Theorem C7_mode_classification (s : state) (io1 io2 : Io) rc1 out0 out1
    (a b : Z) :
  Video.ready (video s) rc1 out0 out1 ->
  Permutation (Video.modes out0)
    [Video.rr_mode_of Video.mode1 a; Video.rr_mode_of Video.mode2 b] ->
  message_type (type (message io1)) = Some MT_GET_VIDEO_INFO ->
  message_type (type (message io2)) = Some MT_GET_VIDEO_INFO ->
  0 < read_ret io1 -> 0 < write_ret io1 ->
  0 < read_ret io2 -> 0 < write_ret io2 ->
  (forall r m,
     (Video.mode_width m = 1024 ->
      Video.large_mode_id (Video.classify_mode r m) = Video.mode_id m /\
      Video.small_mode_id (Video.classify_mode r m) = Video.small_mode_id r) /\
     (Video.mode_width m <> 1024 ->
      Video.small_mode_id (Video.classify_mode r m) = Video.mode_id m /\
      Video.large_mode_id (Video.classify_mode r m) = Video.large_mode_id r)) /\
  Video.mode_width (Video.rr_mode_of Video.mode1 a) = 1024 /\
  Video.mode_width (Video.rr_mode_of Video.mode2 b) = 800 /\
  exists i s1 s2,
    Video.video_get_info zero_info (video s) = Ok (i, video s) /\
    Video.large_mode_id i = a /\
    Video.small_mode_id i = b /\
    handle_message io1 s = Ok (tt, s1) /\
    handle_message io2 s1 = Ok (tt, s2) /\
    written s1
    = written s ++ [words_of_GetVideoInfoReply (reply_of_info 9 i)] /\
    written s2
    = written s1 ++ [words_of_GetVideoInfoReply (reply_of_info 9 i)].
Proof.
  intros Hr Hperm Ht1 Ht2 Hr1 Hw1 Hr2 Hw2.
  split.
  { intros r m. unfold Video.classify_mode.
    destruct (Z.eqb_spec (Video.mode_width m) 1024); split; intros; done. }
  do 2 (split; [reflexivity|]).
  destruct (handle_get_video_info s io1 rc1 out0 out1 Hr Ht1 Hr1 Hw1)
    as (i & Hinfo & Hi & Hrun1).
  rewrite (VideoFacts.classify_two _ a b _ Hperm) in Hi.
  set (s1 := add_written (words_of_GetVideoInfoReply (reply_of_info 9 i)) s).
  destruct (handle_get_video_info s1 io2 rc1 out0 out1 Hr Ht2 Hr2 Hw2)
    as (i' & Hinfo' & Hi' & Hrun2).
  rewrite (VideoFacts.classify_two _ a b _ Hperm) in Hi'.
  assert (i' = i) as -> by congruence.
  exists i, s1, (add_written (words_of_GetVideoInfoReply (reply_of_info 9 i)) s1).
  split; [exact Hinfo|]. rewrite Hi at 1 2. cbn [Video.large_mode_id Video.small_mode_id].
  do 2 (split; [reflexivity|]).
  split; [exact Hrun1|]. split; [exact Hrun2|]. split; reflexivity.
Qed.

Lemma C7_mode_classification_witness :
  exists s1 s2,
    handle_message (io_of MT_GET_VIDEO_INFO 0 0 0 0 0) example_state
    = Ok (tt, s1) /\
    handle_message (io_of MT_GET_VIDEO_INFO 0 0 0 0 0) s1 = Ok (tt, s2) /\
    written s2 = [[9; 64; 66; 65; 67; 68]; [9; 64; 66; 65; 67; 68]].
Proof.
  destruct (C7_mode_classification example_state
              (io_of MT_GET_VIDEO_INFO 0 0 0 0 0)
              (io_of MT_GET_VIDEO_INFO 0 0 0 0 0) _ _ _ 67 68
              VideoFacts.example_ready (Permutation_refl _)
              eq_refl eq_refl eq_refl eq_refl eq_refl eq_refl)
    as (_ & _ & _ & i & s1 & s2 & Hinfo & _ & _ & H1 & H2 & W1 & W2).
  exists s1, s2. split; [exact H1|]. split; [exact H2|].
  vm_compute in Hinfo. injection Hinfo as <-.
  rewrite W2, W1. reflexivity.
Defined.

(** *** Framing *)

Lemma read_failed io s :
  read_ret io <= 0 -> handle_message io s = AssertFail AssertRead.
Proof.
  intros H. unfold handle_message, bind, assert.
  destruct (Z.ltb_spec 0 (read_ret io)); [lia|reflexivity].
Qed.

Lemma bind_write_failed {A} (c : M state A) io (buf : A -> list Z) s :
  write_ret io <= 0 ->
  is_fatal (bind c (fun a => write_reply io (buf a)) s).
Proof.
  intros H. unfold bind. destruct (c s) as [[a s1]| |]; [|exact I..].
  now rewrite write_reply_fail.
Qed.

#[local] Instance written_checked_refl io : Reflexive (written_checked io).
Proof. intros s. now left. Qed.

#[local] Instance written_checked_trans io : Transitive (written_checked io).
Proof.
  unfold written_checked. intros s1 s2 s3 [H1|H1] [H2|H2]; auto.
  left. congruence.
Qed.

Lemma handle_message_written io : keeps (written_checked io) (handle_message io).
Proof.
  unfold handle_message.
  keeps_with
    ltac:(first
      [ match goal with
        | |- keeps _ (in_input _) =>
            intros ? ? ? (? & _ & ->)%in_input_inv; now left
        | |- keeps _ (in_video _) =>
            intros ? ? ? (? & _ & ->)%in_video_inv; now left
        | |- keeps _ (write_reply _ _) =>
            intros ? ? ? [? _]%write_reply_inv; now right
        end ])
    ltac:(reflexivity).
Qed.

(** Of the two return values [handle_message] looks only at whether they
    are more than 0. *)
Lemma positive_counts io s :
  (forall r w r' w',
     0 < r -> 0 < w -> 0 < r' -> 0 < w' ->
     handle_message (with_counts r w io) s
     = handle_message (with_counts r' w' io) s) /\
  (forall r w,
     0 < read_ret io -> 0 < write_ret io -> 0 < r -> 0 < w ->
     handle_message (with_counts r w io) s = handle_message io s).
Proof.
  assert (H : forall r w,
             0 < r -> 0 < w ->
             handle_message (with_counts r w io) s
             = handle_message (with_counts 1 1 io) s).
  { intros r w Hr Hw. unfold handle_message, write_reply, with_counts.
    cbn [read_ret write_ret message host_new indeterminate].
    apply Z.ltb_lt in Hr, Hw. now rewrite Hr, Hw. }
  split.
  - intros r w r' w' Hr Hw Hr' Hw'.
    now rewrite (H r w), (H r' w').
  - intros r w Hr0 Hw0 Hr Hw. rewrite (H r w Hr Hw).
    rewrite <- (H (read_ret io) (write_ret io) Hr0 Hw0).
    now destruct io.
Qed.

(** C3 (amended). A [read] that returns 0 or less is fatal: the assertion
    on it fails before anything else is done. A [write] of a reply that
    returns 0 or less is fatal: for every request that is answered, the
    call does not return when [write] does. Nothing else about the two
    return values is checked: when [handle_message] returns, all that is
    known is that [read] returned more than 0, and [write] too if it was
    called. A positive count is not looked at any further: with any two
    positive return values of [read] and of [write], short ones included,
    the call does exactly what it does with any other two, so a message
    of which one byte was read is dispatched like one read in full, and a
    reply of which one byte was written counts as sent. *)
Theorem C3_framing (io : Io) (s : state) :
  (read_ret io <= 0 -> handle_message io s = AssertFail AssertRead) /\
  (forall t,
     message_type (type (message io)) = Some t -> replies_to t = true ->
     write_ret io <= 0 -> is_fatal (handle_message io s)) /\
  (forall s',
     handle_message io s = Ok (tt, s') ->
     0 < read_ret io /\ (written s' <> written s -> 0 < write_ret io)) /\
  (forall r w r' w',
     0 < r -> 0 < w -> 0 < r' -> 0 < w' ->
     handle_message (with_counts r w io) s
     = handle_message (with_counts r' w' io) s) /\
  (forall r w,
     0 < read_ret io -> 0 < write_ret io -> 0 < r -> 0 < w ->
     handle_message (with_counts r w io) s = handle_message io s).
Proof.
  split; [apply read_failed|].
  split; [|split; [|apply positive_counts]].
  - intros t Ht Hrep Hw.
    destruct (Z.ltb_spec 0 (read_ret io)) as [Hr|Hr];
      [|now rewrite read_failed].
    unfold handle_message, assert.
    destruct (Z.ltb_spec 0 (read_ret io)); [|lia].
    rewrite (bind_Ok (ret tt) _ s tt s eq_refl). rewrite Ht.
    destruct t; try discriminate Hrep; cbv iota beta;
      now apply bind_write_failed.
  - intros s' Hrun. split.
    + destruct (Z.ltb_spec 0 (read_ret io)) as [Hr|Hr]; [done|].
      now rewrite read_failed in Hrun.
    + intros Hne. destruct (handle_message_written io _ _ _ Hrun); done.
Qed.

Lemma C3_framing_witness :
  handle_message (get_video_info_io 0 24) example_state
  = AssertFail AssertRead /\
  is_fatal (handle_message (get_video_info_io 20 (-1)) example_state) /\
  handle_message (get_video_info_io 1 1) example_state
  = handle_message (get_video_info_io 20 24) example_state /\
  is_ok (handle_message (get_video_info_io 20 24) example_state).
Proof.
  split; [|split; [|split]].
  - apply (proj1 (C3_framing _ _)). cbn. lia.
  - apply (proj1 (proj2 (C3_framing _ _)) MT_GET_VIDEO_INFO).
    + reflexivity.
    + reflexivity.
    + cbn. lia.
  - apply (proj1 (proj2 (proj2 (proj2
             (C3_framing (get_video_info_io 20 24) example_state))))
             1 1 20 24); lia.
  - vm_compute. exact I.
Defined.

(** C3 as stated fails: a [read] that returns 4 of the 20 bytes of
    [Message] is not fatal, and neither is a [write] that returns 4 of the
    24 bytes of [GetVideoInfoReply]; the request is handled and the call
    returns. *)
Lemma C3_counterexample :
  let io := get_video_info_io 4 4 in
  read_ret io < sizeof_Message /\
  write_ret io < 4 * Z.of_nat (length [9; 64; 66; 65; 67; 68]) /\
  is_ok (handle_message io example_state) /\
  ~ is_fatal (handle_message io example_state).
Proof. vm_compute. repeat split; auto; discriminate. Qed.

End MainFacts.

(** * Further properties *)

(** ** input.c: the registry *)

Module InputRegistry.
Import Input InputFacts.

Lemma find_device_app id l l' k :
  find_device id (l ++ l') k
  = match find_device id l k with
    | Some p => Some p
    | None => find_device id l' (k + length l)
    end.
Proof.
  revert k. induction l as [|d l IH]; intros k; cbn.
  - now rewrite Nat.add_0_r.
  - destruct (_ =? _); [reflexivity|].
    rewrite IH. now rewrite Nat.add_succ_comm.
Qed.

Lemma insert_last {A} (l : list A) (x y : A) :
  <[length l := y]> (l ++ [x]) = l ++ [y].
Proof.
  rewrite insert_app_r_alt by lia. now rewrite Nat.sub_diag.
Qed.

Lemma lookup_last {A} (l : list A) (x : A) : (l ++ [x]) !! length l = Some x.
Proof. rewrite lookup_app_r by lia. now rewrite Nat.sub_diag. Qed.

(** [DEVICE_INIT] on the node that [pre_init] has just appended. *)
Lemma device_control_init_new t dev s :
  device_control accept_init (length (devices s)) DEVICE_INIT
    (set_devices (fun l => l ++ [{| type := t; dev_id := dev; mask := None |}]) s)
  = Ok (Success, set_devices (fun l => l ++ [new_device t dev]) s).
Proof.
  unfold device_control, init_mouse, init_touch, init_pointer, deref, bind,
    modify, assert, ret. cbn.
  rewrite lookup_last. cbn.
  destruct t; cbn; rewrite ?lookup_last; cbn;
    unfold set_devices; cbn; rewrite ?insert_last; reflexivity.
Qed.

Lemma input_new_accept t dev prefix s :
  current_type s = Some t ->
  input_new (accept dev) prefix s
  = Ok (wrap_u32 dev,
        set_devices (fun l => l ++ [new_device t dev])
          (post (NewInputDeviceRequest DRIVER_NAME prefix
                   (wrap_u32 (next_input_id s)) "1")
             (set_next_input_id (wrap_i32 (next_input_id s + 1)) s))).
Proof.
  intros Ht. unfold input_new.
  rewrite (bind_Ok get _ s s s eq_refl).
  rewrite (bind_Ok (modify _) _ s tt _ eq_refl).
  rewrite (bind_Ok (modify _) _ _ tt _ eq_refl).
  set (s2 := post _ _).
  assert (Hhost : host_new_input_device (accept dev) s2
                  = Ok (0, set_devices (fun l => l ++ [new_device t dev]) s2)).
  { unfold host_new_input_device. cbn [accept new_status Z.eqb].
    rewrite (bind_Ok get _ s2 s2 s2 eq_refl).
    assert (Hpre : pre_init dev s2
              = Ok (Success, set_devices (fun l =>
                      l ++ [{| type := t; dev_id := dev; mask := None |}]) s2)).
    { unfold pre_init. rewrite (bind_Ok get _ s2 s2 s2 eq_refl).
      change (current_type s2) with (current_type s). now rewrite Ht. }
    cbn [new_dev_id new_init].
    rewrite (bind_Ok _ _ _ _ _ Hpre).
    change (length (devices s2)) with (length (devices s)).
    pose proof (device_control_init_new t dev s2) as Hdc.
    change (length (devices s2)) with (length (devices s)) in Hdc.
    now rewrite (bind_Ok _ _ _ _ _ Hdc). }
  rewrite (bind_Ok _ _ _ _ _ Hhost). reflexivity.
Qed.

Lemma input_new_of_accept t dev s :
  exists prefix,
    input_new_of t (accept dev) s
    = Ok (wrap_u32 dev,
          set_devices (fun l => l ++ [new_device t dev])
            (post (NewInputDeviceRequest DRIVER_NAME prefix
                     (wrap_u32 (next_input_id s)) "1")
               (set_next_input_id (wrap_i32 (next_input_id s + 1))
                  (set_current_type t s)))).
Proof.
  destruct t; eexists; cbn [input_new_of];
    unfold input_new_keyboard, input_new_mouse, input_new_touch;
    rewrite (bind_Ok (modify _) _ s tt _ eq_refl).
  - now rewrite (input_new_accept TyKeyboard dev _
                   (set_current_type TyKeyboard s) eq_refl).
  - now rewrite (input_new_accept TyMouse dev _
                   (set_current_type TyMouse s) eq_refl).
  - now rewrite (input_new_accept TyTouch dev _
                   (set_current_type TyTouch s) eq_refl).
Qed.

(** X1. Creating a device and looking it up. When the X server accepts
    the request and gives the device an id that no registered device has,
    each of the three creation functions returns that id (as a
    [uint32_t]); afterwards the lookup of the id finds a device of the
    requested type, with a zeroed mask for a mouse or a touchscreen and
    with no mask for a keyboard. The new node is the last of the list and
    the nodes before it are as they were; the touch counter is as it
    was. *)
Theorem create_then_lookup (t : DeviceType) (dev : Z) (s : state) :
  unused (wrap_u32 dev) s ->
  exists s',
    input_new_of t (accept dev) s = Ok (wrap_u32 dev, s') /\
    lookup_device (wrap_u32 dev) s' = Some (new_device t dev) /\
    devices s' = devices s ++ [new_device t dev] /\
    get_typed t (type_assertion t) (wrap_u32 dev) s'
    = Ok (length (devices s), s') /\
    TOUCH_ID s' = TOUCH_ID s.
Proof.
  intros Hu. destruct (input_new_of_accept t dev s) as (prefix & Hrun).
  eexists. split; [exact Hrun|].
  assert (Hf : find_device (wrap_u32 dev) (devices s ++ [new_device t dev]) 0
               = Some (length (devices s))).
  { rewrite find_device_app.
    rewrite (proj2 (find_device_None _ _ 0) Hu). cbn.
    now rewrite Z.eqb_refl. }
  assert (Hl : lookup_device (wrap_u32 dev)
                 (set_devices (fun l => l ++ [new_device t dev])
                    (post (NewInputDeviceRequest DRIVER_NAME prefix
                             (wrap_u32 (next_input_id s)) "1")
                       (set_next_input_id (wrap_i32 (next_input_id s + 1))
                          (set_current_type t s))))
               = Some (new_device t dev)).
  { unfold lookup_device. cbn [devices set_devices post set_next_input_id
      set_current_type]. rewrite Hf. apply lookup_last. }
  split; [exact Hl|]. split; [reflexivity|]. split; [|reflexivity].
  destruct (get_typed_ok t (type_assertion t) _ _ _ Hl) as (p & Hg & Hp & _).
  { now destruct t. }
  cbn [devices set_devices post set_next_input_id set_current_type] in Hp.
  rewrite Hf in Hp. injection Hp as <-. exact Hg.
Qed.

Lemma create_then_lookup_witness :
  exists s',
    input_new_touch (accept 3) one_mouse = Ok (3, s') /\
    lookup_device 3 s'
    = Some {| type := TyTouch; dev_id := 3; mask := Some zero_mask |}.
Proof.
  destruct (create_then_lookup TyTouch 3 one_mouse) as (s' & H1 & H2 & _).
  - unfold unused. apply Forall_cons. split; [|apply Forall_nil_2].
    intros H. vm_compute in H. discriminate.
  - exists s'. split; [exact H1|exact H2].
Defined.

(** *** Lookup is the first match *)

Lemma find_device_find id l k :
  match find_device id l k with
  | Some p => l !! (p - k)%nat
  | None => None
  end
  = List.find (fun d => wrap_u32 (dev_id d) =? id) l.
Proof.
  revert k. induction l as [|d l IH]; intros k; cbn; [reflexivity|].
  destruct (_ =? _); [now rewrite Nat.sub_diag|].
  rewrite <- (IH (S k)).
  destruct (find_device id l (S k)) as [p|] eqn:E; [|reflexivity].
  apply find_device_Some in E as (_ & _ & _ & Hle).
  now replace (p - k)%nat with (S (p - S k)) by lia.
Qed.

Lemma lookup_device_find id s :
  lookup_device id s
  = List.find (fun d => wrap_u32 (dev_id d) =? id) (devices s).
Proof.
  unfold lookup_device. rewrite <- (find_device_find id (devices s) 0).
  destruct (find_device id (devices s) 0); [|reflexivity].
  now rewrite Nat.sub_0_r.
Qed.

Lemma find_delete {A} (f : A -> bool) (l : list A) p x :
  l !! p = Some x -> f x = false ->
  List.find f (delete p l) = List.find f l.
Proof.
  revert p. induction l as [|y l IH]; intros [|p]; cbn; try discriminate.
  - intros [= ->] ->. reflexivity.
  - intros Hp Hx. destruct (f y); [reflexivity|]. now apply IH.
Qed.

(** X2. Tearing one device down leaves the others where the lookup finds
    them. When [un_init] unlinks a node whose id differs from [id'], the
    lookup of [id'] gives afterwards what it gave before (the same node, or
    none); the list is shorter by one, and neither the touch counter nor
    the log of calls changes. *)
Theorem un_init_keeps_others (s : state) (p : nat) (d : Device) (id' : Z) :
  devices s !! p = Some d ->
  wrap_u32 (dev_id d) <> id' ->
  exists s',
    un_init p s = Ok (tt, s') /\
    lookup_device id' s' = lookup_device id' s /\
    S (length (devices s')) = length (devices s) /\
    TOUCH_ID s' = TOUCH_ID s /\
    posted s' = posted s.
Proof.
  intros Hp Hne. eexists. split; [reflexivity|].
  split.
  - rewrite !lookup_device_find. cbn [devices set_devices].
    apply (find_delete _ _ p d Hp). now apply Z.eqb_neq.
  - split; [|split; reflexivity].
    cbn [devices set_devices]. rewrite length_delete by by eexists.
    apply lookup_lt_Some in Hp. lia.
Qed.

(** *** Operations on a device of the wrong type *)

Lemma get_typed_wrong t e id s d :
  lookup_device id s = Some d -> type d <> t ->
  get_typed t e id s = AssertFail e.
Proof.
  intros (p & Hf & Hp)%lookup_device_inv Ht.
  unfold get_typed, get_device, deref, bind, get. rewrite Hf. cbn.
  rewrite Hp. now rewrite bool_decide_eq_false_2.
Qed.

(** X3. An operation on a registered device of another type ends the
    process at the type assertion of that operation: key operations need
    a keyboard, button, move and scroll operations a mouse, touch
    operations a touchscreen. Only RemoveDevice takes a device of any
    type: it returns, and all it does is to ask the X server to delete
    the device. *)
Theorem wrong_type_is_fatal (s : state) (id : Z) (d : Device) :
  lookup_device id s = Some d ->
  (type d <> TyKeyboard ->
   forall key,
     input_key_press id key s = AssertFail AssertTypeKeyboard /\
     input_key_release id key s = AssertFail AssertTypeKeyboard) /\
  (type d <> TyMouse ->
   forall b dx dy,
     input_button_press id b s = AssertFail AssertTypeMouse /\
     input_button_release id b s = AssertFail AssertTypeMouse /\
     input_mouse_move id dx dy s = AssertFail AssertTypeMouse /\
     input_mouse_scroll id dx dy s = AssertFail AssertTypeMouse) /\
  (type d <> TyTouch ->
   forall touch_id x y,
     input_touch_down id x y s = AssertFail AssertTypeTouch /\
     input_touch_up id touch_id s = AssertFail AssertTypeTouch /\
     input_touch_move id touch_id x y s = AssertFail AssertTypeTouch) /\
  input_remove_device id s
  = Ok (tt, post (DeleteInputDeviceRequest (dev_id d)) s).
Proof.
  intros Hl. repeat split; intros;
    unfold input_key_press, input_key_release, input_button_press,
      input_button_release, input_mouse_move, input_mouse_scroll,
      input_touch_down, input_touch_up, input_touch_move,
      get_keyboard, get_mouse, get_touch, bind;
    try (erewrite get_typed_wrong by eassumption; reflexivity).
  apply lookup_device_inv in Hl as (p & Hf & Hp).
  unfold input_remove_device, get_device, dev_of, deref, bind, get.
  rewrite Hf. cbn. now rewrite Hp.
Qed.

Lemma wrong_type_is_fatal_witness :
  input_key_press 2 30 one_mouse = AssertFail AssertTypeKeyboard /\
  input_touch_down 2 1 1 one_mouse = AssertFail AssertTypeTouch.
Proof.
  destruct (wrong_type_is_fatal one_mouse 2 the_mouse eq_refl)
    as (Hk & _ & Ht & _).
  split.
  - apply Hk. discriminate.
  - apply (Ht ltac:(discriminate) 0).
Defined.

Lemma un_init_keeps_others_witness :
  exists s',
    un_init 0 mouse_and_touch = Ok (tt, s') /\
    lookup_device 3 s' = Some the_touch.
Proof.
  destruct (un_init_keeps_others mouse_and_touch 0 the_mouse 3 eq_refl)
    as (s' & H1 & H2 & _).
  - intros H. vm_compute in H. discriminate.
  - exists s'. split; [exact H1|]. rewrite H2. reflexivity.
Defined.

(** *** Creation, whatever the X server answers *)

Lemma input_new_of_cases t h s :
  if (new_status h =? 0) && init_accepted t (new_init h) then
    input_new_of t h s = Ok (wrap_u32 (new_dev_id h), created t (new_dev_id h) s)
  else
    exists e,
      input_new_of t h s = AssertFail e /\
      (new_status h <> 0 -> e = AssertNewInputDevice).
Proof.
  destruct h as [status dev [b1 b2 b3 b4 b5]]. cbn [new_status new_init
    new_dev_id].
  destruct (Z.eqb_spec status 0) as [->|Hne].
  - destruct t, b1, b2, b3, b4, b5; cbn [andb init_accepted
      InitKeyboardDeviceStruct InitPointerDeviceStruct valuator_mask_new
      InitTouchClassDeviceStruct InitPointerAccelerationScheme];
      unfold input_new_of, input_new_keyboard, input_new_mouse,
        input_new_touch, input_new, host_new_input_device, pre_init,
        device_control, init_mouse, init_touch, init_pointer, deref, bind,
        get, modify, assert, ret, abort, created;
      cbn; rewrite ?lookup_last; cbn; rewrite ?lookup_last; cbn;
      unfold set_devices; cbn; rewrite ?insert_last;
      first [ reflexivity | eexists; split; [reflexivity|]; intros []; reflexivity ].
  - cbn [andb]. exists AssertNewInputDevice. split; [|reflexivity].
    apply Z.eqb_neq in Hne.
    destruct t;
      unfold input_new_of, input_new_keyboard, input_new_mouse,
        input_new_touch, input_new, host_new_input_device, bind, get,
        modify, assert, ret, abort; cbn; rewrite Hne; cbn; rewrite Hne;
      reflexivity.
Qed.





(** *** Who changes the registry *)

#[local] Instance same_registry_refl : Reflexive same_registry.
Proof. now intros s. Qed.

#[local] Instance same_registry_trans : Transitive same_registry.
Proof. unfold same_registry. intros s1 s2 s3 H1 H2. congruence. Qed.

Lemma keeps_on_mask_registry p f : keeps same_registry (on_mask p f).
Proof.
  intros s a s'. unfold on_mask.
  destruct (devices s !! p) as [d|] eqn:Hp; [|discriminate].
  destruct (mask d); intros [= _ <-].
  unfold same_registry, registry. cbn. rewrite list_fmap_insert. cbn.
  apply list_insert_id. now rewrite list_lookup_fmap, Hp.
Qed.

Ltac keeps_registry :=
  keeps_with
    ltac:(first [ apply keeps_deref; tc_solve | apply keeps_on_mask_registry ])
    ltac:(reflexivity).

(** The synthesizer operations and RemoveDevice leave the registry as it
    is. *)
Lemma keeps_registry_operations :
  (forall id k, keeps same_registry (input_key_press id k)) /\
  (forall id k, keeps same_registry (input_key_release id k)) /\
  (forall id b, keeps same_registry (input_button_press id b)) /\
  (forall id b, keeps same_registry (input_button_release id b)) /\
  (forall id dx dy, keeps same_registry (input_mouse_move id dx dy)) /\
  (forall id dx dy, keeps same_registry (input_mouse_scroll id dx dy)) /\
  (forall id x y, keeps same_registry (input_touch_down id x y)) /\
  (forall id t, keeps same_registry (input_touch_up id t)) /\
  (forall id t x y, keeps same_registry (input_touch_move id t x y)) /\
  (forall id, keeps same_registry (input_remove_device id)).
Proof.
  repeat split; intros;
    unfold input_key_press, input_key_release, input_button_press,
      input_button_release, input_mouse_move, input_mouse_scroll,
      input_touch_down, input_touch_up, input_touch_move,
      input_remove_device, get_keyboard, get_mouse, get_touch, get_typed,
      get_device, dev_of, mask_of,
      valuator_mask_zero, valuator_mask_set, valuator_mask_set_unaccelerated;
    keeps_registry.
Qed.

(** *** The creation counter *)

#[local] Instance same_names_refl : Reflexive same_names.
Proof. intros s. split; [reflexivity|]. exists []. now rewrite app_nil_r. Qed.

#[local] Instance same_names_trans : Transitive same_names.
Proof.
  intros s1 s2 s3 [H1 (c1 & P1 & F1)] [H2 (c2 & P2 & F2)].
  split; [congruence|]. exists (c1 ++ c2).
  split; [now rewrite P2, P1, app_assoc|now apply Forall_app].
Qed.

Lemma same_names_quiet s s' :
  next_input_id s' = next_input_id s -> posted s' = posted s ->
  same_names s s'.
Proof.
  intros H1 H2. split; [exact H1|]. exists []. now rewrite app_nil_r.
Qed.

Lemma keeps_on_mask_names p f : keeps same_names (on_mask p f).
Proof.
  intros s a s'. unfold on_mask.
  destruct (devices s !! p) as [d|]; [|discriminate].
  destruct (mask d); intros [= _ <-]. now apply same_names_quiet.
Qed.

Lemma same_names_post c s :
  (forall a b n f, c <> NewInputDeviceRequest a b n f) ->
  same_names s (post c s).
Proof.
  intros H. split; [reflexivity|]. exists [c]. split; [reflexivity|].
  now apply Forall_cons.
Qed.

Ltac keeps_names :=
  keeps_with
    ltac:(first [ apply keeps_deref; tc_solve | apply keeps_on_mask_names ])
    ltac:(first [ apply same_names_quiet; reflexivity
                | apply same_names_post; intros; discriminate ]).

(** Everything but the creation functions leaves the creation counter as
    it is and requests no device. *)
Lemma keeps_names_operations :
  (forall id k, keeps same_names (input_key_press id k)) /\
  (forall id k, keeps same_names (input_key_release id k)) /\
  (forall id b, keeps same_names (input_button_press id b)) /\
  (forall id b, keeps same_names (input_button_release id b)) /\
  (forall id dx dy, keeps same_names (input_mouse_move id dx dy)) /\
  (forall id dx dy, keeps same_names (input_mouse_scroll id dx dy)) /\
  (forall id x y, keeps same_names (input_touch_down id x y)) /\
  (forall id t, keeps same_names (input_touch_up id t)) /\
  (forall id t x y, keeps same_names (input_touch_move id t x y)) /\
  (forall id, keeps same_names (input_remove_device id)) /\
  (forall p, keeps same_names (un_init p)).
Proof.
  repeat match goal with |- _ /\ _ => split end; intros;
    unfold input_key_press, input_key_release, input_button_press,
      input_button_release, input_mouse_move, input_mouse_scroll,
      input_touch_down, input_touch_up, input_touch_move,
      input_remove_device, un_init, get_keyboard, get_mouse, get_touch,
      get_typed, get_device, dev_of, mask_of,
      valuator_mask_zero, valuator_mask_set, valuator_mask_set_unaccelerated;
    keeps_names.
Qed.

End InputRegistry.

(** ** input.c: masks *)

Module InputInvariant.
Import Input InputFacts InputRegistry.

Lemma zero_mask_sized : mask_sized zero_mask.
Proof. repeat split. Qed.

Lemma mask_set_sized v x m : mask_sized m -> mask_sized (mask_set v x m).
Proof.
  intros (Hb & Hv & Hu). unfold mask_sized. cbn.
  now rewrite !length_insert.
Qed.

Lemma mask_set_unaccelerated_sized v a u m :
  mask_sized m -> mask_sized (mask_set_unaccelerated v a u m).
Proof.
  intros (Hb & Hv & Hu). unfold mask_sized. cbn.
  now rewrite !length_insert.
Qed.

Lemma masks_ok_post c s : masks_ok s -> masks_ok (post c s).
Proof. intros H. exact H. Qed.

Lemma masks_ok_at_post p t c s : masks_ok_at p t s -> masks_ok_at p t (post c s).
Proof. intros H. exact H. Qed.

Lemma preserves_deref_at p t : preserves (masks_ok_at p t) (deref p).
Proof.
  intros s H. unfold wp, deref. pose proof H as (Hm & d & Hp & Ht).
  now rewrite Hp.
Qed.

Lemma preserves_dev_of_at p t : preserves (masks_ok_at p t) (dev_of p).
Proof.
  unfold dev_of. apply preserves_bind; [apply preserves_deref_at|].
  intros d. apply preserves_ret.
Qed.

Lemma mask_at p t s d :
  t <> TyKeyboard -> masks_ok s -> devices s !! p = Some d -> type d = t ->
  exists m, mask d = Some m /\ mask_sized m.
Proof.
  intros Hk Hm Hp Ht. unfold masks_ok in Hm.
  rewrite Forall_lookup in Hm. specialize (Hm p d Hp).
  unfold mask_ok in Hm. rewrite Ht in Hm. now destruct t.
Qed.

Lemma preserves_mask_of_at p t :
  t <> TyKeyboard -> preserves (masks_ok_at p t) (mask_of p).
Proof.
  intros Hk s H. pose proof H as (Hm & d & Hp & Ht).
  destruct (mask_at p t s d Hk Hm Hp Ht) as (m & Hmask & _).
  unfold wp. now rewrite (mask_of_ok p s d m Hp Hmask).
Qed.

Lemma preserves_on_mask_at p t f :
  t <> TyKeyboard -> (forall m, mask_sized m -> mask_sized (f m)) ->
  preserves (masks_ok_at p t) (on_mask p f).
Proof.
  intros Hk Hf s H. pose proof H as (Hm & d & Hp & Ht).
  destruct (mask_at p t s d Hk Hm Hp Ht) as (m & Hmask & Hs).
  unfold wp. rewrite (on_mask_ok p f s d m Hp Hmask).
  split.
  - unfold masks_ok, with_mask. cbn. apply Forall_insert; [exact Hm|].
    unfold mask_ok. cbn. rewrite Ht. destruct t; [done| |]; eauto.
  - exists (set_mask (Some (f m)) d). split; [|exact Ht].
    apply with_mask_lookup. now apply lookup_lt_Some in Hp.
Qed.

(** The lookup establishes what the rest of an operation relies on. *)
Lemma preserves_after_get_typed {A} t e id (k : nat -> M state A) :
  (forall p, preserves (masks_ok_at p t) (k p)) ->
  preserves masks_ok (bind (get_typed t e id) k).
Proof.
  intros Hk s H. apply wp_bind. unfold wp at 1.
  destruct (lookup_device id s) as [d|] eqn:El.
  - destruct (decide (type d = t)) as [Ht|Ht].
    + destruct (get_typed_ok t e id s d El Ht) as (p & -> & _ & Hp).
      eapply wp_mono; [apply (Hk p); split; eauto|].
      now intros a s' [H' _].
    + now rewrite (get_typed_wrong t e id s d El Ht).
  - rewrite get_typed_absent; [exact I|].
    unfold lookup_device in El.
    destruct (find_device id (devices s) 0) as [p|] eqn:Ef; [|reflexivity].
    apply find_device_Some in Ef as (d & Hp & _).
    rewrite Nat.sub_0_r in Hp. congruence.
Qed.

Ltac masks_leaf :=
  first
    [ apply preserves_dev_of_at
    | apply preserves_mask_of_at; discriminate
    | apply preserves_on_mask_at;
      [ discriminate
      | intros ? ?;
        first [ apply zero_mask_sized
              | apply mask_set_sized; assumption
              | apply mask_set_unaccelerated_sized; assumption ] ] ].

Ltac masks_op :=
  apply preserves_after_get_typed; intros ?;
  unfold valuator_mask_zero, valuator_mask_set,
    valuator_mask_set_unaccelerated;
  preserves_with masks_leaf ltac:(assumption).

Lemma preserves_input_new h prefix : preserves masks_ok (input_new h prefix).
Proof.
  intros s H. destruct h as [status dev [b1 b2 b3 b4 b5]].
  unfold wp, input_new, host_new_input_device, pre_init, bind, get, modify,
    ret, abort, assert. cbn.
  destruct (status =? 0) eqn:E; cbn; rewrite ?E; [|exact I].
  destruct (current_type s) as [t|]; [|exact I]. cbn.
  unfold device_control, init_mouse, init_touch, init_pointer, deref, bind,
    modify, assert, ret, abort. cbn.
  rewrite lookup_last. cbn.
  destruct t, b1, b2, b3, b4, b5; cbn; rewrite ?lookup_last; cbn;
    try exact I;
    unfold masks_ok; cbn; rewrite ?insert_last;
    (apply Forall_app; split; [exact H|]);
    apply Forall_cons; (split; [|apply Forall_nil_2]);
    unfold mask_ok; cbn; first [reflexivity | eexists; split; [reflexivity|]];
    apply zero_mask_sized.
Qed.

Lemma preserves_un_init p : preserves masks_ok (un_init p).
Proof. intros s H. unfold wp, un_init, modify. cbn. now apply Forall_delete. Qed.

Lemma preserves_remove id : preserves masks_ok (input_remove_device id).
Proof.
  intros s H. unfold wp, input_remove_device, get_device, dev_of, deref, bind,
    get. cbn.
  destruct (find_device id (devices s) 0) as [p|] eqn:Ef; cbn; [|exact I].
  apply find_device_Some in Ef as (d & Hp & _). rewrite Nat.sub_0_r in Hp.
  rewrite Hp. cbn. exact H.
Qed.

(** Every operation of winit.h keeps the masks as the types call for them
    and, where they are so, does not dereference NULL. *)
Lemma preserves_operations :
  (forall h t, preserves masks_ok (input_new_of t h)) /\
  (forall id k, preserves masks_ok (input_key_press id k)) /\
  (forall id k, preserves masks_ok (input_key_release id k)) /\
  (forall id b, preserves masks_ok (input_button_press id b)) /\
  (forall id b, preserves masks_ok (input_button_release id b)) /\
  (forall id dx dy, preserves masks_ok (input_mouse_move id dx dy)) /\
  (forall id dx dy, preserves masks_ok (input_mouse_scroll id dx dy)) /\
  (forall id x y, preserves masks_ok (input_touch_down id x y)) /\
  (forall id t, preserves masks_ok (input_touch_up id t)) /\
  (forall id t x y, preserves masks_ok (input_touch_move id t x y)) /\
  (forall id, preserves masks_ok (input_remove_device id)) /\
  (forall p, preserves masks_ok (un_init p)).
Proof.
  split.
  { intros h [];
      unfold input_new_of, input_new_keyboard, input_new_mouse,
        input_new_touch;
      (apply preserves_bind; [now apply preserves_modify|]);
      intros _; apply preserves_input_new. }
  repeat split; intros;
    first [ apply preserves_un_init | apply preserves_remove | idtac ];
    unfold input_key_press, input_key_release, input_button_press,
      input_button_release, input_mouse_move, input_mouse_scroll,
      input_touch_down, input_touch_up, input_touch_move,
      get_keyboard, get_mouse, get_touch;
    masks_op.
Qed.

End InputInvariant.

(** ** video.c: the display *)

Module VideoMore.
Import Video VideoFacts.

Lemma fold_classify_snoc ms m r :
  fold_left classify_mode (ms ++ [m]) r
  = classify_mode (fold_left classify_mode ms r) m.
Proof. apply fold_left_app. Qed.

Lemma last_id_snoc f ms m v :
  last_id f (ms ++ [m]) v = if f m then mode_id m else last_id f ms v.
Proof.
  unfold last_id. rewrite List.filter_app. cbn.
  destruct (f m); [now rewrite last_snoc|now rewrite app_nil_r].
Qed.

Lemma fold_classify ms r :
  let i := fold_left classify_mode ms r in
  second_crtc i = second_crtc r /\
  first_output i = first_output r /\
  second_output i = second_output r /\
  large_mode_id i = last_id is_large ms (large_mode_id r) /\
  small_mode_id i
  = last_id (fun m => negb (is_large m)) ms (small_mode_id r).
Proof.
  induction ms as [|m ms IH] using rev_ind; [repeat split|].
  cbn zeta in *. rewrite fold_classify_snoc, !last_id_snoc.
  destruct IH as (H1 & H2 & H3 & H4 & H5).
  unfold classify_mode, is_large.
  destruct (mode_width m =? 1024); cbn; auto.
Qed.

(** X13. Which mode ids GetVideoInfo reports. On an initialised screen
    [video_get_info] returns and leaves the state as it is; it stores the
    ids of CRTC 1 and of the two outputs, the id of the last 1024 wide
    mode of output 0 as large_mode_id and the id of the last mode of any
    other width as small_mode_id. Where output 0 has no mode of the one
    kind, the object keeps the value it had (0 in the reply of
    [handle_message]): with no modes at all both stay as they were. *)
Theorem video_get_info_last_wins (s : state) rc1 out0 out1 (r : VideoInfo) :
  ready s rc1 out0 out1 ->
  exists i,
    video_get_info r s = Ok (i, s) /\
    second_crtc i = rr_crtc_id rc1 /\
    first_output i = rr_output_id out0 /\
    second_output i = rr_output_id out1 /\
    large_mode_id i = last_id is_large (modes out0) (large_mode_id r) /\
    small_mode_id i
    = last_id (fun m => negb (is_large m)) (modes out0) (small_mode_id r) /\
    (modes out0 = [] ->
     large_mode_id i = large_mode_id r /\ small_mode_id i = small_mode_id r).
Proof.
  intros Hr. eexists. split; [exact (video_get_info_ok s rc1 out0 out1 r Hr)|].
  destruct (fold_classify (modes out0)
    {| second_crtc := rr_crtc_id rc1; first_output := rr_output_id out0;
       second_output := rr_output_id out1;
       small_mode_id := small_mode_id r; large_mode_id := large_mode_id r |})
    as (H1 & H2 & H3 & H4 & H5).
  cbn in H1, H2, H3, H4, H5.
  do 5 (split; [assumption|]).
  intros E. rewrite H4, H5, E. split; reflexivity.
Qed.

Lemma video_get_info_last_wins_witness :
  exists i,
    video_get_info {| second_crtc := 0; first_output := 0;
                      second_output := 0; small_mode_id := 0;
                      large_mode_id := 0 |} example_state
    = Ok (i, example_state) /\
    large_mode_id i = 67 /\ small_mode_id i = 68.
Proof.
  destruct (video_get_info_last_wins example_state _ _ _
              {| second_crtc := 0; first_output := 0; second_output := 0;
                 small_mode_id := 0; large_mode_id := 0 |} example_ready)
    as (i & H & _ & _ & _ & H4 & H5 & _).
  exists i. split; [exact H|]. split; [exact H4|exact H5].
Defined.

(** X14. Connecting twice. On an initialised screen two calls of
    [video_connect_second_monitor] in a row both return; afterwards the
    outputs are what the second call alone would have made of them
    (output 1 connected exactly when the second argument is not 0);
    the physical size of output 1 stays 20 x 20 mm, also after a
    disconnect, and is never set back to the 2000 x 1000 mm of
    [screen_init]; the X server is notified three times per call, in the
    order RRSetChanged, xf86RandR12TellChanged, RRGetInfo. *)
Theorem connect_twice (s : state) rc1 out0 out1 (enable1 enable2 : Z) :
  ready s rc1 out0 out1 ->
  exists s1 s2 s2' scr,
    video_connect_second_monitor enable1 s = Ok (tt, s1) /\
    video_connect_second_monitor enable2 s1 = Ok (tt, s2) /\
    video_connect_second_monitor enable2 s = Ok (tt, s2') /\
    outputs s2 = outputs s2' /\
    connected_at s2 1 = Some (to_bool enable2) /\
    mm_size_at s1 1 = Some (20, 20) /\
    mm_size_at s2 1 = Some (20, 20) /\
    screen s = Some scr /\
    notified s2
    = notified s
      ++ [ RRSetChanged scr; xf86RandR12TellChanged scr; RRGetInfo scr true;
           RRSetChanged scr; xf86RandR12TellChanged scr; RRGetInfo scr true ].
Proof.
  intros (o0 & o1 & c1 & x0 & x1 & [scr Hs] & Ho & Hc & Hrc & Hx0 & Hr0 & Hx1 & Hr1).
  destruct s as [sc outs nt]. cbn in *. subst sc outs.
  eexists _, _, _, scr.
  split; [unfold video_connect_second_monitor, driver_output, bind, get,
            modify; cbn; rewrite ?Hx1; reflexivity|].
  split; [unfold video_connect_second_monitor, driver_output, bind, get,
            modify; cbn; rewrite ?Hx1; reflexivity|].
  split; [unfold video_connect_second_monitor, driver_output, bind, get,
            modify; cbn; rewrite ?Hx1; reflexivity|].
  cbn. rewrite <- !app_assoc. auto 10.
Qed.

Lemma connect_twice_witness :
  exists s1 s2,
    video_connect_second_monitor 1 example_state = Ok (tt, s1) /\
    video_connect_second_monitor 0 s1 = Ok (tt, s2) /\
    connected_at s2 1 = Some false /\
    mm_size_at example_state 1 = Some (2000, 1000) /\
    mm_size_at s2 1 = Some (20, 20).
Proof.
  destruct (connect_twice example_state _ _ _ 1 0 example_ready)
    as (s1 & s2 & s2' & scr & H1 & H2 & _ & _ & H5 & _ & H7 & _).
  exists s1, s2. split; [exact H1|]. split; [exact H2|].
  split; [exact H5|]. split; [reflexivity|exact H7].
Defined.

(** What a call that returns has done to output 1, whatever the state it
    started in. *)
Lemma connect_returned enable s s' :
  video_connect_second_monitor enable s = Ok (tt, s') ->
  connected_at s' 1 = Some (to_bool enable) /\
  mm_size_at s' 1 = Some (20, 20) /\
  outputs s' !! 0%nat = outputs s !! 0%nat.
Proof.
  unfold video_connect_second_monitor, driver_output, bind, get, modify,
    deref_opt, ret, null_deref.
  destruct s as [sc outs nt]. cbn.
  destruct outs as [|o0 [|o1 outs]]; cbn; try discriminate.
  destruct (output o1) as [x|]; cbn; [|discriminate].
  destruct sc as [scr|]; cbn; [|discriminate].
  intros [= <-]. cbn. auto.
Qed.

End VideoMore.

(** ** video.c: resizing *)

Module Resize.
Import Video.

(** X20. A resize that is accepted fits the frame buffer.
    [crtc_config_resize] accepts exactly the sizes of at most 2048 by 768
    and then stores width, height and, as the pitch, the width; a size
    that it accepts and that is not negative needs no more than the
    [sizeof driver.pixels] bytes at four bytes per pixel. It checks no
    lower bound: a negative width or height is accepted and stored. A
    size that it rejects leaves the screen record as it was. *)
Theorem resize_fits_pixels (pScrn : ScrnInfo) (width height : Z) :
  let r := crtc_config_resize pScrn width height in
  (fst r = true <-> width <= 2048 /\ height <= 768) /\
  (fst r = true ->
   virtualX (snd r) = width /\ virtualY (snd r) = height /\
   displayWidth (snd r) = width /\
   (0 <= width -> 0 <= height ->
    displayWidth (snd r) * virtualY (snd r) * 4 <= sizeof_pixels)) /\
  (fst r = false -> snd r = pScrn) /\
  (width < 0 -> height <= 768 -> fst r = true /\ virtualX (snd r) = width).
Proof.
  unfold crtc_config_resize, sizeof_pixels, WIDTH, HEIGHT. cbn zeta.
  destruct (Z.leb_spec width (1024 * 2)) as [Hw|Hw];
    destruct (Z.leb_spec height 768) as [Hh|Hh]; cbn.
  - repeat split; intros; try reflexivity; try lia; try discriminate. nia.
  - repeat split; intros; try reflexivity; try lia; try discriminate.
  - repeat split; intros; try reflexivity; try lia; try discriminate.
  - repeat split; intros; try reflexivity; try lia; try discriminate.
Qed.

End Resize.

(** ** The invariant of the running module *)

Module MainInvariant.
Import Main MainFacts.

Lemma preserves_connect rc1 out0 out1 enable :
  preserves (fun v => Video.ready v rc1 out0 out1)
    (Video.video_connect_second_monitor enable).
Proof.
  intros v H.
  destruct (VideoFacts.video_connect_second_monitor_ok v rc1 out0 out1 enable H)
    as (v' & scr & Hrun & Hr & _).
  unfold wp. now rewrite Hrun.
Qed.

Lemma preserves_get_info rc1 out0 out1 r :
  preserves (fun v => Video.ready v rc1 out0 out1) (Video.video_get_info r).
Proof.
  intros v H. unfold wp.
  now rewrite (VideoFacts.video_get_info_ok v rc1 out0 out1 r H).
Qed.

Section Invariant.
Variables (rc1 : Video.RRCrtc) (out0 out1 : Video.RROutput).

Lemma preserves_in_input {A} (c : M Input.state A) :
  preserves Input.masks_ok c -> preserves (invariant rc1 out0 out1) (in_input c).
Proof.
  intros Hc s [Hi Hv]. apply wp_lift.
  eapply wp_mono; [now apply Hc|]. intros a t Ht. now split.
Qed.

Lemma preserves_in_video {A} (c : M Video.state A) :
  preserves (fun v => Video.ready v rc1 out0 out1) c ->
  preserves (invariant rc1 out0 out1) (in_video c).
Proof.
  intros Hc s [Hi Hv]. apply wp_lift.
  eapply wp_mono; [now apply Hc|]. intros a t Ht. now split.
Qed.

Lemma preserves_write_reply io buf :
  preserves (invariant rc1 out0 out1) (write_reply io buf).
Proof.
  unfold write_reply.
  preserves_with fail ltac:(assumption).
Qed.

Lemma preserves_handle_message io :
  preserves (invariant rc1 out0 out1) (handle_message io).
Proof.
  destruct InputInvariant.preserves_operations
    as (K0 & K1 & K2 & K3 & K4 & K5 & K6 & K7 & K8 & K9 & K10 & K11).
  unfold handle_message.
  preserves_with
    ltac:(first
      [ apply preserves_write_reply
      | apply preserves_in_video;
        first [apply preserves_connect | apply preserves_get_info]
      | apply preserves_in_input;
        first [ apply (K0 _ Input.TyKeyboard) | apply (K0 _ Input.TyMouse)
              | apply (K0 _ Input.TyTouch) | solve [auto] ] ])
    ltac:(assumption).
Qed.

Lemma preserves_step e : preserves (invariant rc1 out0 out1) (step e).
Proof.
  destruct e as [io|p]; cbn; [apply preserves_handle_message|].
  apply preserves_in_input, InputInvariant.preserves_operations.
Qed.

Lemma preserves_run es : preserves (invariant rc1 out0 out1) (run es).
Proof.
  induction es as [|e es IH]; cbn; [apply preserves_ret|].
  apply preserves_bind; [apply preserves_step|]. intros _. exact IH.
Qed.

Lemma started_invariant h s0 :
  Video.host_crtcs h !! 1%nat = Some rc1 ->
  Video.host_outputs h !! 0%nat = Some out0 ->
  Video.host_outputs h !! 1%nat = Some out1 ->
  started h initial = Ok (tt, s0) ->
  invariant rc1 out0 out1 s0.
Proof.
  intros Hc H0 H1 Hs.
  destruct (VideoFacts.screen_init_ready h rc1 out0 out1 Hc H0 H1)
    as (v & Hv & Hr & _).
  unfold started, in_video, lift, bind in Hs. cbn [video initial] in Hs.
  rewrite Hv in Hs. injection Hs as <-. split; [constructor|exact Hr].
Qed.

End Invariant.

Lemma reached_invariant (h : Video.HostScreen) rc1 out0 out1
    (es : list Event) (s0 s : state) :
  Video.host_crtcs h !! 1%nat = Some rc1 ->
  Video.host_outputs h !! 0%nat = Some out0 ->
  Video.host_outputs h !! 1%nat = Some out1 ->
  started h initial = Ok (tt, s0) ->
  run es s0 = Ok (tt, s) ->
  invariant rc1 out0 out1 s.
Proof.
  intros Hc H0 H1 Hs Hrun.
  pose proof (started_invariant rc1 out0 out1 h s0 Hc H0 H1 Hs) as Hinv.
  exact (wp_Ok _ _ _ _ _ (preserves_run rc1 out0 out1 es s0 Hinv) Hrun).
Qed.



(** X5. The identifiers never change. In every state that the process
    reaches after screen initialisation, whatever was handled in between
    (EnableSecondMonitor included), a GetVideoInfo request that is read
    and answered is answered with one and the same buffer, which depends
    only on the RandR objects attached at initialisation; and it leaves
    the state of the display as it is. *)
Theorem video_info_is_constant (h : Video.HostScreen) rc1 out0 out1
    (es : list Event) (s0 s : state) (io : Io) :
  Video.host_crtcs h !! 1%nat = Some rc1 ->
  Video.host_outputs h !! 0%nat = Some out0 ->
  Video.host_outputs h !! 1%nat = Some out1 ->
  started h initial = Ok (tt, s0) ->
  run es s0 = Ok (tt, s) ->
  message_type (type (message io)) = Some MT_GET_VIDEO_INFO ->
  0 < read_ret io -> 0 < write_ret io ->
  handle_message io s
  = Ok (tt, add_written (video_info_reply rc1 out0 out1) s).
Proof.
  intros Hc H0 H1 Hs Hrun Ht Hread Hwrite.
  destruct (reached_invariant h rc1 out0 out1 es s0 s Hc H0 H1 Hs Hrun)
    as [_ Hv].
  destruct (handle_get_video_info s io rc1 out0 out1 Hv Ht Hread Hwrite)
    as (i & _ & -> & Hh).
  exact Hh.
Qed.

Lemma video_info_is_constant_witness :
  exists s,
    run [ EvMessage (io_of MT_ENABLE_SECOND_MONITOR 1 0 0 0 0) ]
      example_state = Ok (tt, s) /\
    handle_message (io_of MT_GET_VIDEO_INFO 0 0 0 0 0) s
    = Ok (tt, add_written [9; 64; 66; 65; 67; 68] s) /\
    handle_message (io_of MT_GET_VIDEO_INFO 0 0 0 0 0) example_state
    = Ok (tt, add_written [9; 64; 66; 65; 67; 68] example_state).
Proof.
  eexists. split; [vm_compute; reflexivity|]. split.
  - refine (video_info_is_constant Video.example_host _ _ _
              [ EvMessage (io_of MT_ENABLE_SECOND_MONITOR 1 0 0 0 0) ]
              example_state _ (io_of MT_GET_VIDEO_INFO 0 0 0 0 0)
              eq_refl eq_refl eq_refl eq_refl _ eq_refl eq_refl eq_refl).
    vm_compute. reflexivity.
  - exact (video_info_is_constant Video.example_host _ _ _ []
             example_state example_state (io_of MT_GET_VIDEO_INFO 0 0 0 0 0)
             eq_refl eq_refl eq_refl eq_refl eq_refl eq_refl eq_refl eq_refl).
Defined.

End MainInvariant.

(** ** main.c: what a message does *)

Module MainEvents.
Import Main MainFacts.

Lemma in_input_Ok {A} (c : M Input.state A) s a t :
  c (input s) = Ok (a, t) -> in_input c s = Ok (a, set_input t s).
Proof. intros H. unfold in_input, lift. now rewrite H. Qed.

Lemma in_input_AssertFail {A} (c : M Input.state A) s e :
  c (input s) = AssertFail e -> in_input c s = AssertFail e.
Proof. intros H. unfold in_input, lift. now rewrite H. Qed.

(** Past the [read] and into the case of the [switch]. *)
Ltac enter_case Ht :=
  unfold handle_message, assert;
  match goal with
  | Hread : 0 < read_ret ?io |- _ =>
      destruct (Z.ltb_spec 0 (read_ret io)); [|lia]
  end;
  rewrite (bind_Ok (ret tt) _ _ tt _ eq_refl);
  rewrite Ht; cbv iota beta.

(** *** The tags *)

(** Tags and message types correspond one to one: every type is
    recovered from its tag, every value that is the tag of a type is the
    tag of that type only, and the tags are the values 0 to 21. *)
Lemma tag_round_trip :
  (forall t, message_type (tag t) = Some t) /\
  (forall v t, message_type v = Some t -> v = tag t) /\
  (forall t, 0 <= tag t < 22) /\
  (forall v, message_type v = None <-> v < 0 \/ 22 <= v).
Proof.
  assert (Hdec : forall v t, message_type v = Some t -> v = tag t).
  { intros v t. unfold message_type.
    destruct (Z.leb_spec 0 v) as [Hv|Hv]; [|discriminate].
    intros H. assert (Hn : (Z.to_nat v < 22)%nat).
    { apply lookup_lt_Some in H. exact H. }
    replace v with (Z.of_nat (Z.to_nat v)) by lia.
    remember (Z.to_nat v) as n eqn:En. clear En Hv v.
    do 22 (destruct n as [|n];
           [cbn in H; injection H as <-; reflexivity|]).
    lia. }
  split; [intros []; reflexivity|]. split; [exact Hdec|].
  split; [intros []; vm_compute; split; congruence|].
  intros v. split.
  - unfold message_type. destruct (Z.leb_spec 0 v) as [Hv|Hv]; [|lia].
    intros H%lookup_ge_None. cbn in H. lia.
  - intros [Hv|Hv]; unfold message_type.
    + destruct (Z.leb_spec 0 v); [lia|reflexivity].
    + destruct (Z.leb_spec 0 v); [|reflexivity].
      apply lookup_ge_None. cbn. lia.
Qed.

(** X6. A type for which [handle_message] has no case is fatal. When
    [read] has returned more than 0 and the first word of the message is
    0 (MT_NONE), the tag of one of the six replies (2, 7, 9, 11, 17, 19),
    or 22 or more, the call does not return: the process ends at the
    assertion of the default case, whatever the state and the other words
    of the message. *)
Theorem unknown_type_is_fatal (io : Io) (s : state) :
  0 < read_ret io ->
  type (message io) <= 0 \/ 22 <= type (message io) \/
    In (type (message io)) [2; 7; 9; 11; 17; 19] ->
  handle_message io s = AssertFail AssertMessageType.
Proof.
  intros Hread Hv. unfold handle_message, assert.
  destruct (Z.ltb_spec 0 (read_ret io)); [|lia].
  rewrite (bind_Ok (ret tt) _ _ tt _ eq_refl).
  destruct (message_type (type (message io))) as [t|] eqn:Et;
    [|reflexivity].
  apply (proj1 (proj2 tag_round_trip)) in Et.
  pose proof (proj1 (proj2 (proj2 tag_round_trip)) t) as Hrange.
  destruct Hv as [Hv|[Hv|Hv]].
  - assert (tag t = 0) as E0 by lia. destruct t; try discriminate E0.
    reflexivity.
  - lia.
  - rewrite Et in Hv. cbn in Hv.
    destruct t; try reflexivity; vm_compute in Hv;
      repeat (destruct Hv as [Hv|Hv]; [discriminate Hv|]); destruct Hv.
Qed.

Lemma unknown_type_is_fatal_witness :
  handle_message (io_of MT_TOUCH_DOWN_REPLY 0 0 0 0 0) example_state
  = AssertFail AssertMessageType.
Proof.
  apply (unknown_type_is_fatal (io_of MT_TOUCH_DOWN_REPLY 0 0 0 0 0)).
  - reflexivity.
  - right. right. vm_compute. auto 10.
Defined.

(** *** Keys and buttons *)

Lemma input_key_ok id key s d (is_down : bool) :
  Input.lookup_device id s = Some d -> Input.type d = Input.TyKeyboard ->
  (if is_down then Input.input_key_press else Input.input_key_release)
    id key s
  = Ok (tt, Input.post (Input.xf86PostKeyboardEvent (Input.dev_id d)
                          (key + Input.MIN_KEYCODE) is_down) s).
Proof.
  intros Hl Ht.
  destruct (InputFacts.get_typed_ok Input.TyKeyboard AssertTypeKeyboard
              id s d Hl Ht) as (p & Hg & _ & Hp).
  destruct is_down;
    unfold Input.input_key_press, Input.input_key_release, Input.get_keyboard;
    rewrite (bind_Ok _ _ _ _ _ Hg);
    now rewrite (bind_Ok _ _ _ _ _ (InputFacts.dev_of_ok p s d Hp)).
Qed.

Lemma input_button_ok id button s d (is_down : bool) :
  Input.lookup_device id s = Some d -> Input.type d = Input.TyMouse ->
  (if is_down then Input.input_button_press else Input.input_button_release)
    id button s
  = Ok (tt, Input.post (Input.xf86PostButtonEvent (Input.dev_id d)
                          button is_down) s).
Proof.
  intros Hl Ht.
  destruct (InputFacts.get_typed_ok Input.TyMouse AssertTypeMouse
              id s d Hl Ht) as (p & Hg & _ & Hp).
  destruct is_down;
    unfold Input.input_button_press, Input.input_button_release,
      Input.get_mouse;
    rewrite (bind_Ok _ _ _ _ _ Hg);
    now rewrite (bind_Ok _ _ _ _ _ (InputFacts.dev_of_ok p s d Hp)).
Qed.

(** X7. Key events. A KeyPress or KeyRelease message for a registered
    keyboard makes exactly one call to the X server, a keyboard event for
    that device whose key code is the low byte of the key word plus 8 (so
    between 8 and 263) and whose flag is down for KeyPress and up for
    KeyRelease. Nothing is written to the socket and nothing else of the
    state changes. *)
Theorem key_message_posts (io : Io) (s : state) (d : Input.Device)
    (is_down : bool) :
  0 < read_ret io ->
  message_type (type (message io)) = Some (key_message is_down) ->
  Input.lookup_device (word1 (message io)) (input s) = Some d ->
  Input.type d = Input.TyKeyboard ->
  let key_code := word2 (message io) mod 256 + 8 in
  handle_message io s
  = Ok (tt, set_input
              (Input.post (Input.xf86PostKeyboardEvent (Input.dev_id d)
                             key_code is_down) (input s)) s) /\
  8 <= key_code <= 263.
Proof.
  intros Hread Ht Hl Hty key_code. split.
  - enter_case Ht.
    pose proof (input_key_ok (word1 (message io))
                  (wrap_u8 (word2 (message io))) (input s) d is_down Hl Hty)
      as Hk.
    destruct is_down; cbn [key_message]; cbv iota beta;
      unfold key_press_id, key_press_key;
      exact (in_input_Ok _ _ _ _ Hk).
  - unfold key_code. pose proof (Z.mod_pos_bound (word2 (message io)) 256).
    lia.
Qed.

Lemma key_message_posts_witness :
  exists s0,
    handle_message (io_of MT_CREATE_KEYBOARD 0 0 0 0 4) example_state
    = Ok (tt, s0) /\
    handle_message (io_of MT_KEY_PRESS 4 (256 + 30) 0 0 0) s0
    = Ok (tt, set_input
                (Input.post (Input.xf86PostKeyboardEvent 4 38 true)
                   (input s0)) s0).
Proof.
  eexists. split; [vm_compute; reflexivity|].
  refine (proj1 (key_message_posts (io_of MT_KEY_PRESS 4 (256 + 30) 0 0 0)
                   _ {| Input.type := Input.TyKeyboard; Input.dev_id := 4;
                        Input.mask := None |} true _ _ _ _)).
  - reflexivity.
  - reflexivity.
  - reflexivity.
  - reflexivity.
Defined.

(** X8. Button events. A ButtonPress or ButtonRelease message for a
    registered mouse makes exactly one call to the X server, a button
    event for that device with the low byte of the button word and the
    flag down for ButtonPress and up for ButtonRelease. The mask of the
    device is neither read nor written, nothing is written to the socket
    and nothing else of the state changes. *)
Theorem button_message_posts (io : Io) (s : state) (d : Input.Device)
    (is_down : bool) :
  0 < read_ret io ->
  message_type (type (message io)) = Some (button_message is_down) ->
  Input.lookup_device (word1 (message io)) (input s) = Some d ->
  Input.type d = Input.TyMouse ->
  let button := word2 (message io) mod 256 in
  handle_message io s
  = Ok (tt, set_input
              (Input.post (Input.xf86PostButtonEvent (Input.dev_id d)
                             button is_down) (input s)) s) /\
  0 <= button <= 255.
Proof.
  intros Hread Ht Hl Hty button. split.
  - enter_case Ht.
    pose proof (input_button_ok (word1 (message io))
                  (wrap_u8 (word2 (message io))) (input s) d is_down Hl Hty)
      as Hk.
    destruct is_down; cbn [button_message]; cbv iota beta;
      unfold key_press_id, key_press_key;
      exact (in_input_Ok _ _ _ _ Hk).
  - unfold button. pose proof (Z.mod_pos_bound (word2 (message io)) 256).
    lia.
Qed.

Lemma button_message_posts_witness :
  exists s0,
    handle_message (io_of MT_CREATE_MOUSE 0 0 0 0 2) example_state
    = Ok (tt, s0) /\
    handle_message (io_of MT_BUTTON_RELEASE 2 3 0 0 0) s0
    = Ok (tt, set_input
                (Input.post (Input.xf86PostButtonEvent 2 3 false)
                   (input s0)) s0).
Proof.
  eexists. split; [vm_compute; reflexivity|].
  refine (proj1 (button_message_posts (io_of MT_BUTTON_RELEASE 2 3 0 0 0)
                   _ Input.the_mouse false _ _ _ _)).
  - reflexivity.
  - reflexivity.
  - reflexivity.
  - reflexivity.
Defined.

(** *** Touch *)

Lemma input_touch_up_ok id touch_id s d :
  Input.lookup_device id s = Some d -> Input.type d = Input.TyTouch ->
  Input.input_touch_up id touch_id s
  = Ok (tt, Input.post (Input.xf86PostTouchEvent (Input.dev_id d) touch_id
                          Input.XI_TouchEnd None) s).
Proof.
  intros Hl Ht.
  destruct (InputFacts.get_typed_ok Input.TyTouch AssertTypeTouch
              id s d Hl Ht) as (p & Hg & _ & Hp).
  unfold Input.input_touch_up, Input.get_touch.
  rewrite (bind_Ok _ _ _ _ _ Hg).
  now rewrite (bind_Ok _ _ _ _ _ (InputFacts.dev_of_ok p s d Hp)).
Qed.

Lemma input_touch_move_ok id touch_id x y s d :
  Input.is_device Input.TyTouch s id d ->
  exists p,
    Input.find_device id (Input.devices s) 0 = Some p /\
    Input.devices s !! p = Some d /\
    Input.input_touch_move id touch_id x y s
    = Ok (tt, Input.post
                (Input.xf86PostTouchEvent (Input.dev_id d) touch_id
                   Input.XI_TouchUpdate (Some (Input.touch_mask x y)))
                (Input.with_mask p d (Input.touch_mask x y) s)).
Proof.
  intros (Hl & Ht & m0 & Hm).
  destruct (InputFacts.get_typed_ok Input.TyTouch AssertTypeTouch
              id s d Hl Ht) as (p & Hg & Hf & Hp).
  exists p. do 2 (split; [done|]).
  assert (Hlt : (p < length (Input.devices s))%nat)
    by now apply lookup_lt_Some in Hp.
  unfold Input.input_touch_move, Input.get_touch.
  rewrite (bind_Ok _ _ _ _ _ Hg).
  unfold Input.valuator_mask_zero, Input.valuator_mask_set.
  rewrite (bind_Ok _ _ _ _ _ (InputFacts.on_mask_ok p _ s d m0 Hp Hm)).
  rewrite (bind_Ok _ _ _ _ _ (InputFacts.on_mask_with_mask p _ s d _ Hlt)).
  rewrite (bind_Ok _ _ _ _ _ (InputFacts.on_mask_with_mask p _ s d _ Hlt)).
  exact (InputFacts.post_with_mask p s d _
           (fun dev m => Input.xf86PostTouchEvent dev touch_id
                           Input.XI_TouchUpdate (Some m)) Hlt).
Qed.

Lemma touch_mask_facts x y :
  Input.mask_get (Input.touch_mask x y) 0 = Some x /\
  Input.mask_get (Input.touch_mask x y) 1 = Some y /\
  Input.mask_isset (Input.touch_mask x y) 2 = false /\
  Input.mask_isset (Input.touch_mask x y) 3 = false /\
  Input.has_unaccelerated (Input.touch_mask x y) = false.
Proof. repeat split. Qed.

(** X9. TouchDown from message to reply. A TouchDown message for an
    initialised touchscreen, read and answered, takes the current value
    of the touch counter as the contact id, makes exactly one call to the
    X server, a touch-begin event for that device with that id whose mask
    holds the signed words x and y in slots 0 and 1 (plain values, slots
    2 and 3 not set), moves the counter on by one modulo 2^32, and writes
    exactly one reply: the tag 19 and the same contact id. *)
Theorem touch_down_message (io : Io) (s : state) (d : Input.Device) :
  0 < read_ret io -> 0 < write_ret io ->
  message_type (type (message io)) = Some MT_TOUCH_DOWN ->
  Input.is_device Input.TyTouch (input s) (word1 (message io)) d ->
  let x := wrap_i32 (word2 (message io)) in
  let y := wrap_i32 (word3 (message io)) in
  let contact := Input.TOUCH_ID (input s) in
  exists s',
    handle_message io s = Ok (tt, s') /\
    written s' = written s ++ [[19; contact]] /\
    Input.posted (input s')
    = Input.posted (input s)
      ++ [Input.xf86PostTouchEvent (Input.dev_id d) contact
            Input.XI_TouchBegin (Some (Input.touch_mask x y))] /\
    Input.mask_get (Input.touch_mask x y) 0 = Some x /\
    Input.mask_get (Input.touch_mask x y) 1 = Some y /\
    Input.mask_isset (Input.touch_mask x y) 2 = false /\
    Input.mask_isset (Input.touch_mask x y) 3 = false /\
    Input.TOUCH_ID (input s') = wrap_u32 (contact + 1) /\
    Input.lookup_device (word1 (message io)) (input s')
    = Some (Input.set_mask (Some (Input.touch_mask x y)) d) /\
    video s' = video s.
Proof.
  intros Hread Hwrite Ht Hd x y contact.
  destruct (InputFacts.input_touch_down_ok (input s) (word1 (message io))
              d x y Hd) as (p & Hf & Hp & Hrun).
  eexists. split.
  { enter_case Ht. unfold touch_down_id, touch_down_x, touch_down_y, as_i32.
    rewrite (bind_Ok _ _ _ _ _ (in_input_Ok _ _ _ _ Hrun)).
    now apply write_reply_ok. }
  destruct (touch_mask_facts x y) as (F0 & F1 & F2 & F3 & _).
  split; [reflexivity|]. split; [reflexivity|].
  do 4 (split; [assumption|]). split; [reflexivity|].
  split; [|reflexivity].
  exact (InputFacts.lookup_device_with_mask _ p d _ (input s) Hf Hp).
Qed.

Lemma touch_down_message_witness :
  exists s',
    handle_message (io_of MT_TOUCH_DOWN 2 10 (2 ^ 32 - 5) 0 0) example_touch
    = Ok (tt, s') /\
    written s' = written example_touch ++ [[19; 1]] /\
    Input.posted (input s')
    = Input.posted (input example_touch)
      ++ [Input.xf86PostTouchEvent 2 1 Input.XI_TouchBegin
            (Some (Input.touch_mask 10 (-5)))].
Proof.
  destruct (touch_down_message (io_of MT_TOUCH_DOWN 2 10 (2 ^ 32 - 5) 0 0)
              example_touch
              {| Input.type := Input.TyTouch; Input.dev_id := 2;
                 Input.mask := Some Input.zero_mask |})
    as (s' & H1 & H2 & H3 & _).
  - reflexivity.
  - reflexivity.
  - reflexivity.
  - split; [reflexivity|]. split; [reflexivity|by eexists].
  - exists s'. auto.
Defined.

(** X10. TouchMove and TouchUp take any contact id. For an initialised
    touchscreen, whatever the contact-id word of the message (issued by a
    TouchDown or not, ended already or not): TouchMove makes exactly one
    call, a touch-update event with that id whose mask holds the signed
    words x and y in slots 0 and 1; TouchUp makes exactly one call, a
    touch-end event with that id and no mask, and leaves the mask of the
    device as it is. Neither writes to the socket nor moves the touch
    counter. *)
Theorem touch_move_up_message (io : Io) (s : state) (d : Input.Device) :
  0 < read_ret io ->
  Input.is_device Input.TyTouch (input s) (word1 (message io)) d ->
  let contact := word2 (message io) in
  (message_type (type (message io)) = Some MT_TOUCH_MOVE ->
   let x := wrap_i32 (word3 (message io)) in
   let y := wrap_i32 (word4 (message io)) in
   exists s',
     handle_message io s = Ok (tt, s') /\
     Input.posted (input s')
     = Input.posted (input s)
       ++ [Input.xf86PostTouchEvent (Input.dev_id d) contact
             Input.XI_TouchUpdate (Some (Input.touch_mask x y))] /\
     Input.lookup_device (word1 (message io)) (input s')
     = Some (Input.set_mask (Some (Input.touch_mask x y)) d) /\
     Input.TOUCH_ID (input s') = Input.TOUCH_ID (input s) /\
     written s' = written s) /\
  (message_type (type (message io)) = Some MT_TOUCH_UP ->
   handle_message io s
   = Ok (tt, set_input
               (Input.post (Input.xf86PostTouchEvent (Input.dev_id d) contact
                              Input.XI_TouchEnd None) (input s)) s)).
Proof.
  intros Hread Hd contact. split.
  - intros Ht x y.
    destruct (input_touch_move_ok (word1 (message io)) contact x y
                (input s) d Hd) as (p & Hf & Hp & Hrun).
    eexists. split.
    { enter_case Ht.
      unfold touch_move_id, touch_move_touch_id, touch_move_x, touch_move_y,
        as_i32.
      exact (in_input_Ok _ _ _ _ Hrun). }
    split; [reflexivity|]. split; [|split; reflexivity].
    exact (InputFacts.lookup_device_with_mask _ p d _ (input s) Hf Hp).
  - intros Ht. destruct Hd as (Hl & Hty & _). enter_case Ht.
    unfold touch_move_id, touch_move_touch_id.
    exact (in_input_Ok _ _ _ _
             (input_touch_up_ok _ contact (input s) d Hl Hty)).
Qed.

Lemma touch_move_up_message_witness :
  handle_message (io_of MT_TOUCH_UP 2 77 0 0 0) example_touch
  = Ok (tt, set_input
              (Input.post (Input.xf86PostTouchEvent 2 77 Input.XI_TouchEnd None)
                 (input example_touch)) example_touch).
Proof.
  refine (proj2 (touch_move_up_message (io_of MT_TOUCH_UP 2 77 0 0 0)
                   example_touch
                   {| Input.type := Input.TyTouch; Input.dev_id := 2;
                      Input.mask := Some Input.zero_mask |} _ _) _).
  - reflexivity.
  - split; [reflexivity|]. split; [reflexivity|by eexists].
  - reflexivity.
Defined.

(** *** Signed payloads *)

Lemma as_i32_wrap_u32 z : is_i32 z -> as_i32 (wrap_u32 z) = z.
Proof.
  unfold is_i32, as_i32, wrap_i32, wrap_u32. intros H.
  rewrite Zplus_mod_idemp_l. rewrite Z.mod_small; lia.
Qed.

(** X11. Signed deltas survive the wire. When the two payload words of
    a MouseMove or MouseScroll message are the two's complement encodings
    (as 32-bit words) of [int32_t] deltas dx and dy, negative or not, the
    operation is carried out with exactly dx and dy: for a mouse, MouseMove
    delivers one motion event with the pairs (dx, dx) and (dy, dy), and
    MouseScroll one with the scroll mask of dx and dy. Nothing is written
    to the socket. *)
Theorem signed_deltas_round_trip (io : Io) (s : state) (d : Input.Device)
    (dx dy : Z) :
  0 < read_ret io ->
  is_i32 dx -> is_i32 dy ->
  word2 (message io) = wrap_u32 dx -> word3 (message io) = wrap_u32 dy ->
  Input.is_device Input.TyMouse (input s) (word1 (message io)) d ->
  (message_type (type (message io)) = Some MT_MOUSE_MOVE ->
   exists s',
     handle_message io s = Ok (tt, s') /\
     Input.posted (input s')
     = Input.posted (input s)
       ++ [Input.xf86PostMotionEventM (Input.dev_id d)
             (Input.move_mask dx dy)] /\
     Input.mask_get_pair (Input.move_mask dx dy) 0 = Some (dx, dx) /\
     Input.mask_get_pair (Input.move_mask dx dy) 1 = Some (dy, dy) /\
     written s' = written s) /\
  (message_type (type (message io)) = Some MT_MOUSE_SCROLL ->
   exists s',
     handle_message io s = Ok (tt, s') /\
     Input.posted (input s')
     = Input.posted (input s)
       ++ [Input.xf86PostMotionEventM (Input.dev_id d)
             (Input.scroll_mask dx dy)] /\
     written s' = written s).
Proof.
  intros Hread Hx Hy Hw2 Hw3 Hd. split; intros Ht.
  - destruct (InputFacts.input_mouse_move_ok (input s) (word1 (message io))
                d dx dy Hd) as (p & _ & _ & Hrun).
    eexists. split.
    { enter_case Ht. unfold mouse_move_id, mouse_move_dx, mouse_move_dy.
      rewrite Hw2, Hw3, !as_i32_wrap_u32 by assumption.
      exact (in_input_Ok _ _ _ _ Hrun). }
    repeat split.
  - destruct (InputFacts.input_mouse_scroll_ok (input s) (word1 (message io))
                d dx dy Hd) as (p & _ & _ & Hrun).
    eexists. split.
    { enter_case Ht. unfold mouse_move_id, mouse_move_dx, mouse_move_dy.
      rewrite Hw2, Hw3, !as_i32_wrap_u32 by assumption.
      exact (in_input_Ok _ _ _ _ Hrun). }
    repeat split.
Qed.

Lemma signed_deltas_round_trip_witness :
  exists s0 s',
    handle_message (io_of MT_CREATE_MOUSE 0 0 0 0 2) example_state
    = Ok (tt, s0) /\
    handle_message (io_of MT_MOUSE_MOVE 2 (2 ^ 32 - 3) 7 0 0) s0
    = Ok (tt, s') /\
    Input.posted (input s')
    = Input.posted (input s0)
      ++ [Input.xf86PostMotionEventM 2 (Input.move_mask (-3) 7)].
Proof.
  eexists. 
  assert (Hc : handle_message (io_of MT_CREATE_MOUSE 0 0 0 0 2) example_state
               = Ok (tt, set_input Input.one_mouse
                           (add_written [11; 2] example_state)))
    by (vm_compute; reflexivity).
  destruct (signed_deltas_round_trip
              (io_of MT_MOUSE_MOVE 2 (2 ^ 32 - 3) 7 0 0)
              (set_input Input.one_mouse (add_written [11; 2] example_state))
              Input.the_mouse (-3) 7) as [Hmove _].
  - reflexivity.
  - unfold is_i32. lia.
  - unfold is_i32. lia.
  - reflexivity.
  - reflexivity.
  - split; [reflexivity|]. split; [reflexivity|by eexists].
  - destruct (Hmove eq_refl) as (s' & H1 & H2 & _).
    exists s'. split; [exact Hc|]. split; [exact H1|exact H2].
Defined.

(** *** Replies *)

Ltac invert_run :=
  repeat match goal with
    | H : bind _ _ _ = Ok _ |- _ =>
        apply bind_inv in H; destruct H as (? & ? & ? & ?)
    | H : in_input _ _ = Ok (_, _) |- _ =>
        apply in_input_inv in H; destruct H as (? & ? & ?)
    | H : in_video _ _ = Ok (_, _) |- _ =>
        apply in_video_inv in H; destruct H as (? & ? & ?)
    | H : write_reply _ _ _ = Ok _ |- _ =>
        apply write_reply_inv in H; destruct H as (? & ?)
    | H : abort _ _ = Ok _ |- _ => discriminate H
    | H : (_, ?a) = (_, ?b) |- _ =>
        assert (a = b) by congruence; clear H
    end; subst.

(** X12. One request, at most one reply. Whenever [handle_message]
    returns, the message was one of the requests, and [write] was called
    exactly once if the request is one of the six that are answered
    (CreateKeyboard, CreateMouse, CreateTouch, EnableSecondMonitor,
    GetVideoInfo, TouchDown) and not at all otherwise. The buffer written
    begins with the tag that follows the tag of the request, and it has
    two words for the create and TouchDown replies, five for the
    EnableSecondMonitor reply and six for the GetVideoInfo reply. *)
Theorem reply_discipline (io : Io) (s s' : state) :
  handle_message io s = Ok (tt, s') ->
  exists t,
    message_type (type (message io)) = Some t /\
    is_request t = true /\
    if replies_to t then
      exists buf,
        written s' = written s ++ [buf] /\
        head buf = Some (tag t + 1) /\
        length buf = reply_words t /\
        0 < write_ret io
    else written s' = written s.
Proof.
  unfold handle_message. intros (u & s1 & Ha & H)%bind_inv.
  apply assert_inv in Ha as [_ [= _ <-]].
  destruct (message_type (type (message io))) as [t|]; [|discriminate H].
  exists t. split; [reflexivity|].
  destruct t; try discriminate H; (split; [reflexivity|]);
    cbn [replies_to]; invert_run; try reflexivity;
    (eexists; split; [reflexivity|]; split; [reflexivity|];
     split; [reflexivity|assumption]).
Qed.

Lemma reply_discipline_witness :
  exists t buf,
    message_type (type (message (io_of MT_ENABLE_SECOND_MONITOR 1 0 0 0 0)))
    = Some t /\
    match handle_message (io_of MT_ENABLE_SECOND_MONITOR 1 0 0 0 0)
            example_state with
    | Ok (_, s') => written s' = written example_state ++ [buf]
    | _ => False
    end /\
    length buf = 5%nat.
Proof.
  destruct (handle_message (io_of MT_ENABLE_SECOND_MONITOR 1 0 0 0 0)
              example_state) as [[[] s']| |] eqn:E;
    [|vm_compute in E; discriminate E..].
  destruct (reply_discipline _ _ _ E) as (t & Ht & _ & Hw).
  injection Ht as <-. cbn [replies_to] in Hw.
  destruct Hw as (buf & Hw & _ & Hl & _).
  exists MT_ENABLE_SECOND_MONITOR, buf. auto.
Defined.

(** *** The display commands *)

(** X15. EnableSecondMonitor from message to reply. On an initialised
    screen an EnableSecondMonitor message, read and answered, sets the
    flag of output 1 to whether the enable word is not 0, notifies the
    X server (RRSetChanged, xf86RandR12TellChanged, RRGetInfo with a
    forced query) and writes exactly one reply of five words: the tag 7
    and four words that the code does not initialise. The devices are
    left alone and the RandR objects stay those of initialisation. *)
Theorem enable_second_monitor_message (io : Io) (s : state) rc1 out0 out1 :
  Video.ready (video s) rc1 out0 out1 ->
  0 < read_ret io -> 0 < write_ret io ->
  message_type (type (message io)) = Some MT_ENABLE_SECOND_MONITOR ->
  exists s' scr,
    handle_message io s = Ok (tt, s') /\
    Video.screen (video s) = Some scr /\
    Video.connected_at (video s') 1
    = Some (Video.to_bool (word1 (message io))) /\
    Video.notified (video s')
    = Video.notified (video s)
      ++ [ Video.RRSetChanged scr; Video.xf86RandR12TellChanged scr;
           Video.RRGetInfo scr true ] /\
    written s'
    = written s
      ++ [[ 7; word1 (indeterminate io); word2 (indeterminate io);
            word3 (indeterminate io); word4 (indeterminate io) ]] /\
    input s' = input s /\
    Video.ready (video s') rc1 out0 out1.
Proof.
  intros Hr Hread Hwrite Ht.
  destruct (VideoFacts.video_connect_second_monitor_ok (video s) rc1 out0 out1
              (word1 (message io)) Hr)
    as (v' & scr & Hrun & Hr' & Hscr & Hn & _ & Hc & _).
  exists (add_written
            [ 7; word1 (indeterminate io); word2 (indeterminate io);
              word3 (indeterminate io); word4 (indeterminate io) ]
            (set_video v' s)), scr.
  split.
  { enter_case Ht. unfold enable_second_monitor_enable.
    assert (Hin : in_video (Video.video_connect_second_monitor
                              (word1 (message io))) s
                  = Ok (tt, set_video v' s)).
    { unfold in_video, lift. now rewrite Hrun. }
    rewrite (bind_Ok _ _ _ _ _ Hin). now apply write_reply_ok. }
  cbn. auto 10.
Qed.

Lemma enable_second_monitor_message_witness :
  exists s',
    handle_message (io_of MT_ENABLE_SECOND_MONITOR 5 0 0 0 0) example_state
    = Ok (tt, s') /\
    Video.connected_at (video s') 1 = Some true /\
    written s' = [[7; 0; 0; 0; 0]].
Proof.
  destruct (enable_second_monitor_message
              (io_of MT_ENABLE_SECOND_MONITOR 5 0 0 0 0) example_state
              _ _ _ VideoFacts.example_ready eq_refl eq_refl eq_refl)
    as (s' & scr & H1 & _ & H3 & _ & H5 & _).
  exists s'. split; [exact H1|]. split; [exact H3|exact H5].
Defined.

(** X16. The display commands before the screen is there. While
    [driver] is still the zero-initialised static, an EnableSecondMonitor
    or GetVideoInfo message that is read makes the module dereference a
    NULL pointer ([driver.outputs[1].output], [driver.outputs[1].crtc]):
    the call does not return and the process does not end at an
    assertion, whatever the value that [write] would return. *)
Theorem display_commands_before_screen_init (io : Io) (s : state) :
  video s = Video.initial ->
  0 < read_ret io ->
  message_type (type (message io)) = Some MT_ENABLE_SECOND_MONITOR \/
  message_type (type (message io)) = Some MT_GET_VIDEO_INFO ->
  handle_message io s = NullDeref.
Proof.
  intros Hv Hread [Ht|Ht]; enter_case Ht;
    unfold bind, in_video, lift; rewrite Hv; reflexivity.
Qed.

Lemma display_commands_before_screen_init_witness :
  handle_message (io_of MT_GET_VIDEO_INFO 0 0 0 0 0) initial = NullDeref.
Proof.
  apply (display_commands_before_screen_init
           (io_of MT_GET_VIDEO_INFO 0 0 0 0 0) initial eq_refl eq_refl).
  right. reflexivity.
Defined.

(** *** The registry *)

Lemma created_registry t dev s :
  Input.registry (Input.created t dev s) = Input.registry s ++ [(t, dev)].
Proof.
  unfold Input.registry, Input.created. cbn. rewrite fmap_app.
  now destruct t.
Qed.

Lemma created_by t h s id s' :
  Input.input_new_of t h s = Ok (id, s') ->
  Input.registry s' = Input.registry s ++ [(t, Input.new_dev_id h)].
Proof.
  intros H. pose proof (InputRegistry.input_new_of_cases t h s) as Hc.
  destruct (_ && _).
  - rewrite Hc in H. injection H as _ <-. apply created_registry.
  - destruct Hc as (e & Hc & _). congruence.
Qed.

(** X18. Who changes the registry. The registry (type and id of every
    device, in list order) changes in two ways only: a create message
    that is handled appends one entry, of the type of the message and with
    the id that the X server gave; a teardown removes the entry of the
    node it unlinks. Every other message that is handled leaves it as it
    is, so the type of a registered device never changes. *)
Theorem registry_changes (e : Event) (s s' : state) :
  step e s = Ok (tt, s') ->
  match e with
  | EvUnInit p =>
      Input.registry (input s') = delete p (Input.registry (input s))
  | EvMessage io =>
      match message_type (type (message io)) with
      | Some t =>
          match created_type t with
          | Some ty =>
              Input.registry (input s')
              = Input.registry (input s)
                ++ [(ty, Input.new_dev_id (host_new io))]
          | None => Input.registry (input s') = Input.registry (input s)
          end
      | None => False
      end
  end.
Proof.
  destruct InputRegistry.keeps_registry_operations
    as (K1 & K2 & K3 & K4 & K5 & K6 & K7 & K8 & K9 & K10).
  destruct e as [io|p]; cbn [step].
  - unfold handle_message. intros (u & s1 & Ha & H)%bind_inv.
    apply assert_inv in Ha as [_ [= _ <-]].
    destruct (message_type (type (message io))) as [t|]; [|discriminate H].
    destruct t; try discriminate H; cbn [created_type]; invert_run;
      cbn [input set_input add_written set_video];
      try reflexivity;
      try (eapply (created_by Input.TyKeyboard); eassumption);
      try (eapply (created_by Input.TyMouse); eassumption);
      try (eapply (created_by Input.TyTouch); eassumption);
      match goal with
      | H : _ (input _) = Ok _ |- _ =>
          first [ apply K1 in H | apply K2 in H | apply K3 in H
                | apply K4 in H | apply K5 in H | apply K6 in H
                | apply K7 in H | apply K8 in H | apply K9 in H
                | apply K10 in H ]; exact H
      end.
  - intros (t & [= <-] & ->)%in_input_inv.
    unfold Input.registry. cbn. apply list_fmap_delete.
Qed.

Lemma registry_changes_witness :
  exists s',
    handle_message (io_of MT_CREATE_TOUCH 0 0 0 0 3)
      (set_input Input.one_mouse example_state) = Ok (tt, s') /\
    Input.registry (input s') = [(Input.TyMouse, 2); (Input.TyTouch, 3)].
Proof.
  destruct (handle_message (io_of MT_CREATE_TOUCH 0 0 0 0 3)
              (set_input Input.one_mouse example_state))
    as [[[] s']| |] eqn:E; [|vm_compute in E; discriminate E..].
  exists s'. split; [reflexivity|].
  exact (registry_changes (EvMessage (io_of MT_CREATE_TOUCH 0 0 0 0 3))
           _ s' E).
Defined.

(** *** What the X server detects *)

(** X21. What the probe of the outputs finds. [output_detect] reports an
    output as connected exactly when its flag is set. So in every state
    reached after screen initialisation the X server finds output 0
    connected; it finds output 1 disconnected right after initialisation,
    and after every EnableSecondMonitor message that is handled it finds
    output 1 connected exactly when the enable word of that message is
    not 0. *)
Theorem detect_follows_flag (h : Video.HostScreen) (es : list Event)
    (s0 s : state) :
  started h initial = Ok (tt, s0) ->
  run es s0 = Ok (tt, s) ->
  Video.detect_at (video s0) 1 = Some Video.XF86OutputStatusDisconnected /\
  Video.detect_at (video s) 0 = Some Video.XF86OutputStatusConnected /\
  forall io s',
    message_type (type (message io)) = Some MT_ENABLE_SECOND_MONITOR ->
    handle_message io s = Ok (tt, s') ->
    Video.detect_at (video s') 0 = Some Video.XF86OutputStatusConnected /\
    Video.detect_at (video s') 1
    = Some (if word1 (message io) =? 0
            then Video.XF86OutputStatusDisconnected
            else Video.XF86OutputStatusConnected).
Proof.
  intros Hs Hrun.
  assert (H0 : Video.detect_at (video s0) 0
               = Some Video.XF86OutputStatusConnected
               /\ Video.detect_at (video s0) 1
                  = Some Video.XF86OutputStatusDisconnected).
  { vm_compute in Hs. injection Hs as <-. split; reflexivity. }
  assert (K : same_output0 s0 s).
  { eapply (@keeps_run same_output0 same_output0_refl same_output0_trans);
      [|exact Hrun].
    apply Forall_forall. intros e _. apply step_output0. }
  destruct K as [K _], H0 as [H0 H1].
  assert (Hd : Video.detect_at (video s) 0
               = Some Video.XF86OutputStatusConnected).
  { unfold Video.detect_at in *. now rewrite K. }
  split; [exact H1|]. split; [exact Hd|].
  intros io s' Ht Hh. unfold handle_message in Hh.
  apply bind_inv in Hh as (u & s1 & Ha & Hh).
  apply assert_inv in Ha as [_ [= _ <-]]. rewrite Ht in Hh.
  invert_run.
  match goal with
  | H : Video.video_connect_second_monitor _ _ = Ok (?u, _) |- _ =>
      destruct u; apply VideoMore.connect_returned in H;
      destruct H as (Hc & _ & Hsame)
  end.
  cbn [video add_written set_video]. split.
  - unfold Video.detect_at in *. now rewrite Hsame.
  - unfold Video.detect_at, Video.connected_at in *.
    unfold enable_second_monitor_enable in Hc.
    match type of Hc with
    | _ <$> ?l = _ => destruct l as [o|]; cbn in Hc; [|discriminate Hc]
    end.
    cbn. injection Hc as Hc. unfold Video.output_detect. rewrite Hc.
    unfold Video.to_bool. now destruct (_ =? 0).
Qed.

Lemma detect_follows_flag_witness :
  exists s',
    handle_message (io_of MT_ENABLE_SECOND_MONITOR 1 0 0 0 0) example_state
    = Ok (tt, s') /\
    Video.detect_at (video s') 1 = Some Video.XF86OutputStatusConnected.
Proof.
  destruct (handle_message (io_of MT_ENABLE_SECOND_MONITOR 1 0 0 0 0)
              example_state) as [[[] s']| |] eqn:E;
    [|vm_compute in E; discriminate E..].
  exists s'. split; [reflexivity|].
  destruct (detect_follows_flag Video.example_host [] example_state
              example_state eq_refl eq_refl) as (_ & _ & H).
  exact (proj2 (H (io_of MT_ENABLE_SECOND_MONITOR 1 0 0 0 0) s' eq_refl E)).
Defined.

(** *** Device names *)

#[local] Instance main_same_names_refl : Reflexive same_names.
Proof. now intros s. Qed.

#[local] Instance main_same_names_trans : Transitive same_names.
Proof.
  unfold same_names. intros s1 s2 s3 [H1 L1] [H2 L2]. split; congruence.
Qed.

Lemma omap_no_creation calls :
  Forall (fun c => forall a b n f, c <> Input.NewInputDeviceRequest a b n f)
    calls ->
  omap name_number_of calls = [].
Proof.
  induction 1 as [|c calls Hc _ IH]; [reflexivity|].
  cbn. rewrite IH. destruct c as [| | | |a b n f|]; try reflexivity.
  now destruct (Hc a b n f).
Qed.

Lemma names_of_input s t :
  Input.same_names (input s) t -> same_names s (set_input t s).
Proof.
  intros [Hn (calls & Hp & Hf)]. split; [exact Hn|].
  unfold name_numbers. cbn. rewrite Hp, omap_app, (omap_no_creation _ Hf).
  apply app_nil_r.
Qed.

Lemma created_names t h s id s' :
  Input.input_new_of t h s = Ok (id, s') ->
  Input.posted s'
  = Input.posted s
    ++ [Input.NewInputDeviceRequest Input.DRIVER_NAME (Input.prefix_of t)
          (wrap_u32 (Input.next_input_id s)) "1"] /\
  Input.next_input_id s' = wrap_i32 (Input.next_input_id s + 1).
Proof.
  intros H. pose proof (InputRegistry.input_new_of_cases t h s) as Hc.
  destruct (_ && _).
  - rewrite Hc in H. injection H as _ <-. split; reflexivity.
  - destruct Hc as (e & Hc & _). congruence.
Qed.

(** Every event other than a create message leaves the creation counter
    and the names requested alone. *)
Lemma step_no_creation e s s' :
  is_creation e = false -> step e s = Ok (tt, s') -> same_names s s'.
Proof.
  destruct InputRegistry.keeps_names_operations
    as (K1 & K2 & K3 & K4 & K5 & K6 & K7 & K8 & K9 & K10 & K11).
  destruct e as [io|p]; cbn [step is_creation].
  - intros Hn. unfold handle_message. intros (u & s1 & Ha & H)%bind_inv.
    apply assert_inv in Ha as [_ [= _ <-]].
    destruct (message_type (type (message io))) as [t|]; [|discriminate H].
    destruct t; try discriminate H; try discriminate Hn; invert_run;
      try (split; reflexivity);
      match goal with
      | H : _ (input _) = Ok _ |- _ =>
          first [ apply K1 in H | apply K2 in H | apply K3 in H
                | apply K4 in H | apply K5 in H | apply K6 in H
                | apply K7 in H | apply K8 in H | apply K9 in H
                | apply K10 in H ];
          apply names_of_input in H; exact H
      end.
  - intros _ (t & H & ->)%in_input_inv.
    apply names_of_input. exact (K11 p _ _ _ H).
Qed.

(** A create message requests one device, whose name carries the
    counter, and moves the counter on by one. *)
Lemma step_creation e s s' :
  is_creation e = true -> step e s = Ok (tt, s') ->
  name_numbers s'
  = name_numbers s ++ [wrap_u32 (Input.next_input_id (input s))] /\
  Input.next_input_id (input s')
  = wrap_i32 (Input.next_input_id (input s) + 1).
Proof.
  destruct e as [io|p]; cbn [step is_creation]; [|discriminate].
  intros Hc. unfold handle_message. intros (u & s1 & Ha & H)%bind_inv.
  apply assert_inv in Ha as [_ [= _ <-]].
  destruct (message_type (type (message io))) as [t|]; [|discriminate H].
  destruct t; try discriminate H; try discriminate Hc; invert_run;
    match goal with
    | H : Input.input_new_keyboard _ _ = Ok _ |- _ =>
        apply (created_names Input.TyKeyboard) in H
    | H : Input.input_new_mouse _ _ = Ok _ |- _ =>
        apply (created_names Input.TyMouse) in H
    | H : Input.input_new_touch _ _ = Ok _ |- _ =>
        apply (created_names Input.TyTouch) in H
    end;
    match goal with
    | H : _ /\ _ |- _ => destruct H as [Hp Hn]
    end;
    (split; [|exact Hn]);
    unfold name_numbers; cbn [input set_input add_written];
    rewrite Hp, omap_app; reflexivity.
Qed.

Lemma creations_cons e es :
  creations (e :: es)
  = if is_creation e then S (creations es) else creations es.
Proof. unfold creations. cbn. now destruct (is_creation e). Qed.

Lemma run_names es : forall s s',
  run es s = Ok (tt, s') ->
  0 <= Input.next_input_id (input s) ->
  Input.next_input_id (input s) + Z.of_nat (creations es) < 2 ^ 31 ->
  name_numbers s'
  = name_numbers s
    ++ ((fun k : nat => Input.next_input_id (input s) + Z.of_nat k)
          <$> seq 0 (creations es)) /\
  Input.next_input_id (input s')
  = Input.next_input_id (input s) + Z.of_nat (creations es).
Proof.
  induction es as [|e es IH]; intros s s'.
  - intros [= <-] _ _. cbn. rewrite app_nil_r. split; [reflexivity|lia].
  - cbn [run]. intros ([] & s1 & He & Hrun)%bind_inv.
    rewrite creations_cons. destruct (is_creation e) eqn:Ec; intros H0 Hb.
    + destruct (step_creation e s s1 Ec He) as [Hn Hc].
      rewrite wrap_u32_id in Hn by (unfold is_u32; lia).
      rewrite wrap_i32_id in Hc by (unfold is_i32; lia).
      destruct (IH s1 s' Hrun) as [IHn IHc]; [lia|lia|].
      rewrite IHn, IHc, Hn, Hc. split; [|lia].
      rewrite <- app_assoc. f_equal. cbn [seq fmap list_fmap app].
      change (Z.of_nat 0) with 0. rewrite Z.add_0_r. f_equal.
      rewrite <- fmap_S_seq, <- list_fmap_compose.
      apply list_fmap_ext. intros i k _. cbn. lia.
    + destruct (step_no_creation e s s1 Ec He) as [Hc Hn].
      destruct (IH s1 s' Hrun) as [IHn IHc]; [lia|lia|].
      rewrite IHn, IHc, Hn, Hc. auto.
Qed.

(** X22. Device names are numbered in the order of creation. From the
    start of the process, as long as the creation counter (an [int]) has
    not reached its largest value: the k-th create message that is
    handled, of whatever type, asks the X server for a device whose name
    carries the number k, so the numbers requested are exactly 1, 2, 3,
    ... without repetition, and the counter stands at one more than the
    number of devices created. No other message and no teardown
    requests a device or moves the counter; a number is not given again
    after its device is removed. *)
Theorem device_names_numbered (v : Video.state) (es : list Event)
    (s : state) :
  run es (set_video v initial) = Ok (tt, s) ->
  Z.of_nat (creations es) < 2 ^ 31 - 1 ->
  name_numbers s = Z.of_nat <$> seq 1 (creations es) /\
  NoDup (name_numbers s) /\
  Input.next_input_id (input s) = 1 + Z.of_nat (creations es).
Proof.
  intros Hrun Hb.
  destruct (run_names es _ s Hrun) as [Hn Hc]; [cbn; lia|cbn; lia|].
  cbn in Hn, Hc.
  assert (Hnames : name_numbers s = Z.of_nat <$> seq 1 (creations es)).
  { rewrite Hn, <- fmap_S_seq, <- list_fmap_compose.
    apply list_fmap_ext. intros i k _. cbn. lia. }
  split; [exact Hnames|]. split; [|exact Hc].
  rewrite Hnames. apply NoDup_fmap_2; [|apply NoDup_seq].
  intros x y. apply Nat2Z.inj.
Qed.

Lemma device_names_numbered_witness :
  exists s,
    run [ EvMessage (io_of MT_CREATE_MOUSE 0 0 0 0 7);
          EvUnInit 0;
          EvMessage (io_of MT_CREATE_KEYBOARD 0 0 0 0 7) ] example_state
    = Ok (tt, s) /\
    name_numbers s = [1; 2].
Proof.
  eexists. split; [vm_compute; reflexivity|].
  refine (proj1 (device_names_numbered Video.example_state
    [ EvMessage (io_of MT_CREATE_MOUSE 0 0 0 0 7);
      EvUnInit 0;
      EvMessage (io_of MT_CREATE_KEYBOARD 0 0 0 0 7) ] _ _ _)).
  - vm_compute. reflexivity.
  - vm_compute. reflexivity.
Defined.

End MainEvents.

(** ** main.c: loading the module *)

Module Setup.
Import Main.

Lemma winit_setup_done errmaj socknum s :
  done s = true ->
  winit_setup errmaj socknum s
  = Some ((false, if errmaj then Some LDR_ONCEONLY else None), s).
Proof. intros H. unfold winit_setup. now rewrite H. Qed.

Lemma setup_calls_done errmajs socknum s :
  done s = true ->
  setup_calls errmajs socknum s
  = Some ((fun e : bool => (false, if e then Some LDR_ONCEONLY else None))
            <$> errmajs, s).
Proof.
  intros H. induction errmajs as [|e es IH]; [reflexivity|].
  cbn [setup_calls]. rewrite (winit_setup_done _ _ _ H), IH. reflexivity.
Qed.

(** X19. The module is set up once. However often the loader calls
    [winit_setup], starting from the fresh module with WINIT_IT_SOCKET
    set: the first call registers the video driver "winit", the input
    driver "winit_input" and the handler on the socket of that number, in
    this order, and returns a pointer that is not NULL; every later call
    registers nothing, returns NULL and, where [errmaj] is given, stores
    LDR_ONCEONLY there. With WINIT_IT_SOCKET not set the first call ends
    the process at [assert(socknum)]. *)
Theorem setup_once (errmaj : bool) (errmajs : list bool) (sock : Z) :
  setup_calls (errmaj :: errmajs) (Some sock) setup_initial
  = Some ((true, None)
            :: ((fun e : bool => (false, if e then Some LDR_ONCEONLY else None))
                  <$> errmajs),
          {| done := true;
             loader_calls := [ xf86AddDriver "winit";
                               xf86AddInputDriver "winit_input";
                               xf86AddGeneralHandler sock ] |}) /\
  setup_calls (errmaj :: errmajs) None setup_initial = None.
Proof.
  split; [|reflexivity].
  cbn [setup_calls]. unfold winit_setup at 1. cbn [done setup_initial].
  cbv iota zeta. now rewrite setup_calls_done.
Qed.

End Setup.
